(** * PartSelect chat agent: routing, entity extraction and handlers

    A shallow embedding of the decision logic of
    [backend/agents/router_agent.py], [compatibility_agent.py],
    [installation_agent.py], [product_search_agent.py] and
    [troubleshooting_agent.py], with the properties the design document
    states about them.

    Modelling conventions.
    - Text is ASCII ([string]); on ASCII text Python's [str.upper],
      [str.lower], [str.strip], [\d], [\b] and [[A-Z]] under
      [re.IGNORECASE] are the functions written out below.
    - A conversation history is a list of messages; the optional argument
      [conversation_history = None] is the empty list (every use in the
      source is guarded by truthiness or by [or []]).
    - An optional string argument is [option string]; Python truthiness
      ([None] and the empty string are false) is [truthy].
    - The completion service, the vector store and the catalog are
      parameters: [chat_with_system] may raise, and a raise propagates
      through every caller that does not wrap it in [try/except]. *)

From Stdlib Require Import String Ascii List Bool Arith Lia DecimalString.
Import ListNotations.
Local Open Scope list_scope.
Local Open Scope string_scope.

(** ** Python string operations on ASCII text *)

Module PyStr.

Definition code (c : ascii) : nat := nat_of_ascii c.

Definition between (lo hi : nat) (c : ascii) : bool :=
  Nat.leb lo (code c) && Nat.leb (code c) hi.

Definition is_upper_char : ascii -> bool := between 65 90.
Definition is_lower_char : ascii -> bool := between 97 122.
Definition is_digit : ascii -> bool := between 48 57.
Definition is_alpha (c : ascii) : bool := is_upper_char c || is_lower_char c.
Definition is_alnum (c : ascii) : bool := is_alpha c || is_digit c.
(** [\w] on ASCII text: letters, digits and the underscore. *)
Definition is_word (c : ascii) : bool := is_alnum c || Nat.eqb (code c) 95.
(** [str.isspace] on ASCII: tab, LF, VT, FF, CR, FS, GS, RS, US, space. *)
Definition is_space (c : ascii) : bool :=
  between 9 13 c || between 28 31 c || Nat.eqb (code c) 32.

Definition upper_char (c : ascii) : ascii :=
  if is_lower_char c then ascii_of_nat (code c - 32) else c.
Definition lower_char (c : ascii) : ascii :=
  if is_upper_char c then ascii_of_nat (code c + 32) else c.

Fixpoint map_chars (f : ascii -> ascii) (s : string) : string :=
  match s with
  | EmptyString => EmptyString
  | String c s' => String (f c) (map_chars f s')
  end.

Definition upper : string -> string := map_chars upper_char.
Definition lower : string -> string := map_chars lower_char.

(** [s.startswith(p)] *)
Fixpoint startswith (p s : string) : bool :=
  match p, s with
  | EmptyString, _ => true
  | String a p', String b s' => Ascii.eqb a b && startswith p' s'
  | String _ _, EmptyString => false
  end.

(** [k in s] *)
Fixpoint contains (k s : string) : bool :=
  startswith k s ||
  match s with
  | EmptyString => false
  | String _ s' => contains k s'
  end.

(** [any(keyword in s for keyword in keywords)] *)
Definition any_in (keywords : list string) (s : string) : bool :=
  existsb (fun k => contains k s) keywords.

Fixpoint lstrip (s : string) : string :=
  match s with
  | String c s' => if is_space c then lstrip s' else s
  | EmptyString => EmptyString
  end.

Fixpoint rstrip (s : string) : string :=
  match s with
  | EmptyString => EmptyString
  | String c s' =>
      match rstrip s' with
      | EmptyString => if is_space c then EmptyString else String c EmptyString
      | r => String c r
      end
  end.

Definition strip (s : string) : string := rstrip (lstrip s).

(** [s.split(sep)] for a one-character separator: the pieces between the
    separators, empty pieces kept. *)
Fixpoint split_on (sep : ascii) (s : string) : list string :=
  match s with
  | EmptyString => [EmptyString]
  | String c s' =>
      if Ascii.eqb c sep then EmptyString :: split_on sep s'
      else match split_on sep s' with
           | [] => [String c EmptyString]
           | w :: ws => String c w :: ws
           end
  end.

(** [s.split(sep, 1)[1]]: what follows the first separator; [None] stands
    for the [IndexError] of a string without separator. *)
Fixpoint after_first (sep : ascii) (s : string) : option string :=
  match s with
  | EmptyString => None
  | String c s' => if Ascii.eqb c sep then Some s' else after_first sep s'
  end.

(** [len(s.split())]: the number of maximal runs of non-space characters. *)
Fixpoint count_words_from (in_word : bool) (s : string) : nat :=
  match s with
  | EmptyString => 0
  | String c s' =>
      if is_space c then count_words_from false s'
      else (if in_word then 0 else 1) + count_words_from true s'
  end.
Definition count_words : string -> nat := count_words_from false.

(** [", ".join(l)] and friends. *)
Fixpoint join (sep : string) (l : list string) : string :=
  match l with
  | [] => EmptyString
  | [x] => x
  | x :: rest => x ++ sep ++ join sep rest
  end.

(** Python truthiness of an optional string. *)
Definition truthy (o : option string) : bool :=
  match o with
  | None => false
  | Some EmptyString => false
  | Some (String _ _) => true
  end.

(** [a or b] on optional strings. *)
Definition py_or (a b : option string) : option string :=
  if truthy a then a else b.

(** [d.get(key) == s] *)
Definition opt_is (o : option string) (s : string) : bool :=
  match o with
  | Some x => String.eqb x s
  | None => false
  end.

(** The value of an optional string known to be set. *)
Definition str_val (o : option string) : string :=
  match o with
  | Some s => s
  | None => EmptyString
  end.

(** [s.replace(old, new)]: every non-overlapping occurrence of a
    non-empty [old], left to right.  [skip] counts the characters of the
    occurrence just replaced that are still to be dropped. *)
Fixpoint replace_from (old new s : string) (skip : nat) : string :=
  match s with
  | EmptyString => EmptyString
  | String c s' =>
      match skip with
      | S n => replace_from old new s' n
      | 0 =>
          if startswith old s
          then new ++ replace_from old new s' (String.length old - 1)
          else String c (replace_from old new s' 0)
      end
  end.

Definition replace_all (old new s : string) : string :=
  match old with
  | EmptyString => s
  | _ => replace_from old new s 0
  end.

(** [l[-n:]] *)
Definition last_n {A : Type} (n : nat) (l : list A) : list A :=
  skipn (length l - n) l.

Definition LF : ascii := ascii_of_nat 10.
Definition COLON : ascii := ascii_of_nat 58.

End PyStr.

(** ** The fragment of [re] the agents use

    The two patterns of the source, [PS\d+] and
    [\b[A-Z]{2,4}[A-Z0-9]{5,}\b], are sequences of bounded repetitions of a
    character class and of word-boundary assertions.  [match_here] is the
    backtracking matcher of [re]: a repetition is greedy and gives
    characters back one at a time when what follows fails. *)

Module Re.
Import PyStr.

Inductive item : Type :=
| Rep (cls : ascii -> bool) (lo : nat) (hi : option nat)
| Boundary.

Definition regex : Type := list item.

Definition may_take (hi : option nat) : bool :=
  match hi with
  | None => true
  | Some 0 => false
  | Some (S _) => true
  end.

Definition dec (hi : option nat) : option nat := option_map pred hi.

Definition word_before (prev : option ascii) : bool :=
  match prev with
  | Some c => is_word c
  | None => false
  end.

Definition word_after (s : string) : bool :=
  match s with
  | String c _ => is_word c
  | EmptyString => false
  end.

(** [\b]: exactly one side of the position is a word character. *)
Definition at_boundary (prev : option ascii) (s : string) : bool :=
  xorb (word_before prev) (word_after s).

(** Greedy repetition of [cls], between [lo] and [hi] times, followed by
    the continuation [k]; the result is the text matched from here on. *)
Fixpoint rep (cls : ascii -> bool) (k : option ascii -> string -> option string)
         (lo : nat) (hi : option nat) (prev : option ascii) (s : string)
  : option string :=
  let stop := if Nat.eqb lo 0 then k prev s else None in
  match s with
  | String c s' =>
      if cls c && may_take hi then
        match rep cls k (pred lo) (dec hi) (Some c) s' with
        | Some m => Some (String c m)
        | None => stop
        end
      else stop
  | EmptyString => stop
  end.

Fixpoint match_here (p : regex) (prev : option ascii) (s : string)
  : option string :=
  match p with
  | [] => Some EmptyString
  | Boundary :: p' =>
      if at_boundary prev s then match_here p' prev s else None
  | Rep cls lo hi :: p' => rep cls (match_here p') lo hi prev s
  end.

Fixpoint search_from (p : regex) (prev : option ascii) (s : string)
  : option string :=
  match match_here p prev s with
  | Some m => Some m
  | None =>
      match s with
      | EmptyString => None
      | String c s' => search_from p (Some c) s'
      end
  end.

(** [re.search(p, s).group(0)], [None] when there is no match. *)
Definition search (p : regex) (s : string) : option string :=
  search_from p None s.

(** [re.findall(p, s)] for a pattern without groups: the successive
    non-overlapping matches, left to right.  [skip] counts the characters
    of the last match that are still to be stepped over. *)
Fixpoint findall_from (p : regex) (prev : option ascii) (s : string)
         (skip : nat) : list string :=
  match s with
  | EmptyString =>
      match skip, match_here p prev EmptyString with
      | 0, Some m => [m]
      | _, _ => []
      end
  | String c s' =>
      match skip with
      | S n => findall_from p (Some c) s' n
      | 0 =>
          match match_here p prev s with
          | Some m => m :: findall_from p (Some c) s' (String.length m - 1)
          | None => findall_from p (Some c) s' 0
          end
      end
  end.

Definition findall (p : regex) (s : string) : list string :=
  findall_from p None s 0.

(** A literal character under [re.IGNORECASE]. *)
Definition ci (c : ascii) : ascii -> bool :=
  fun x => Ascii.eqb (upper_char x) (upper_char c).

Definition once (cls : ascii -> bool) : item := Rep cls 1 (Some 1).

(** [r"PS\d+"] with [re.IGNORECASE] *)
Definition PART_RE : regex :=
  [once (ci "P"); once (ci "S"); Rep is_digit 1 None].

(** [r"\b[A-Z]{2,4}[A-Z0-9]{5,}\b"] with [re.IGNORECASE] *)
Definition MODEL_RE : regex :=
  [Boundary; Rep is_alpha 2 (Some 4); Rep is_alnum 5 None; Boundary].

End Re.

Import PyStr.

(** ** Exceptions

    [chat_with_system] re-raises the [RequestException] of a failed HTTP
    call; [try: ... except Exception] is [try_except]. *)

Inductive exn : Type :=
| RequestException
| TypeError.

Inductive Exc (A : Type) : Type :=
| Ok (a : A)
| Raise (e : exn).
Arguments Ok {A} a.
Arguments Raise {A} e.

Definition bind {A B : Type} (c : Exc A) (k : A -> Exc B) : Exc B :=
  match c with
  | Ok a => k a
  | Raise e => Raise e
  end.

Notation "x <- c ;; k" := (bind c (fun x => k))
  (at level 61, c at next level, right associativity).

Definition try_except {A : Type} (body : Exc A) (handler : exn -> Exc A) : Exc A :=
  match body with
  | Ok a => Ok a
  | Raise e => handler e
  end.

(** The value a call returned, if it returned. *)
Definition ok_value {A : Type} (c : Exc A) : option A :=
  match c with
  | Ok a => Some a
  | Raise _ => None
  end.

(** ** Catalog records ([database/models.py]) *)

Module Catalog.

(** A row of [parts] with its [compatible_models] relationship, the latter
    as the list of the related [Model.model_number]s.  [price] is a [Float]
    column that the agents only interpolate into text: the model keeps its
    rendering. *)
Record Part : Type := mkPart {
  id : nat;
  part_number : string;
  name : string;
  category : string;
  subcategory : option string;
  price : string;
  description : option string;
  brand : option string;
  image_url : option string;
  installation_difficulty : option string;
  installation_steps : option (list string);
  common_symptoms : option (list string);
  compatible_models : list string
}.

(** [Part.to_dict()]: the columns, without the relationship. *)
Record PartDict : Type := mkPartDict {
  d_id : nat;
  d_part_number : string;
  d_name : string;
  d_category : string;
  d_subcategory : option string;
  d_price : string;
  d_description : option string;
  d_brand : option string;
  d_image_url : option string;
  d_installation_difficulty : option string;
  d_installation_steps : option (list string);
  d_common_symptoms : option (list string)
}.

Definition to_dict (p : Part) : PartDict :=
  {| d_id := id p;
     d_part_number := part_number p;
     d_name := name p;
     d_category := category p;
     d_subcategory := subcategory p;
     d_price := price p;
     d_description := description p;
     d_brand := brand p;
     d_image_url := image_url p;
     d_installation_difficulty := installation_difficulty p;
     d_installation_steps := installation_steps p;
     d_common_symptoms := common_symptoms p |}.

(** [db.query(Part).filter(Part.part_number == pn).first()] *)
Definition find_part (db : list Part) (pn : string) : option Part :=
  find (fun p => String.eqb (part_number p) pn) db.

End Catalog.
Import Catalog.

(** A turn of the conversation history, a dict read with
    [message.get("content", "")]. *)
Record Message : Type := mkMessage {
  role : string;
  content : option string
}.

Definition get_content (m : Message) : string :=
  match content m with
  | Some c => c
  | None => EmptyString
  end.

(** [str(x)] of an optional string, as an f-string renders it. *)
Definition fmt_opt (o : option string) : string :=
  match o with
  | Some s => s
  | None => "None"
  end.

Definition NL : string := String LF EmptyString.

(** ** The completion service ([agents/deepseek_client.py])

    [chat_with_system(system_prompt, user_message, temperature)] returns
    the generated text or raises.  The system prompt of a call is
    represented by its template and the values interpolated into it. *)
Inductive Prompt : Type :=
| RouterPrompt
| ExtractPartAndModelPrompt
| ExtractPartPrompt
| InstallationGuidePrompt (part : PartDict) (steps : list string)
                          (difficulty estimated_time : string)
| SearchPrompt (shown : list PartDict) (context_info : string)
| MetaPrompt (parts_summary : string)
| DiagnosisPrompt (shown : list PartDict) (context_info : string).

Definition Client : Type := Prompt -> string -> Exc string.

(** ** Compatibility agent ([agents/compatibility_agent.py]) *)

Module Compatibility.

Record Context : Type := mkContext {
  ctx_part_number : option string;
  ctx_model_number : option string
}.

(** One iteration of the loop of [extract_from_history]. *)
Definition scan_message (context : Context) (message : Message) : Context :=
  let content := get_content message in
  let context1 :=
    if negb (truthy (ctx_part_number context)) then
      match Re.search Re.PART_RE content with
      | Some g => mkContext (Some (upper g)) (ctx_model_number context)
      | None => context
      end
    else context in
  if negb (truthy (ctx_model_number context1)) then
    match Re.search Re.MODEL_RE content with
    | Some g =>
        let potential_model := upper g in
        if negb (startswith "PS" potential_model)
        then mkContext (ctx_part_number context1) (Some potential_model)
        else context1
    | None => context1
    end
  else context1.

Definition extract_from_history (conversation_history : list Message) : Context :=
  let context := mkContext None None in
  match conversation_history with
  | [] => context
  | _ => fold_left scan_message (last_n 4 conversation_history) context
  end.

(** The dict returned by [check_compatibility]; an absent key is [None]. *)
Record CheckResult : Type := mkCheckResult {
  compatible : option bool;
  confidence : string;
  explanation : string;
  part : option PartDict;
  suggested_models : option (list string);   (* key "compatible_models" *)
  error : option string
}.

Definition check_compatibility (db : list Part) (pn mn : string) : CheckResult :=
  match find_part db pn with
  | None =>
      {| compatible := None;
         confidence := "high";
         explanation := "Part number " ++ pn ++ " not found in our database.";
         part := None;
         suggested_models := None;
         error := Some "PART_NOT_FOUND" |}
  | Some p =>
      let compatible_model_numbers := compatible_models p in
      let is_compatible :=
        existsb (String.eqb (upper mn)) (map upper compatible_model_numbers) in
      if is_compatible then
        {| compatible := Some true;
           confidence := "high";
           explanation := "Yes! The " ++ name p ++ " (part #" ++ pn
                          ++ ") is compatible with model " ++ mn ++ ".";
           part := Some (to_dict p);
           suggested_models := None;
           error := None |}
      else
        {| compatible := Some false;
           confidence := "medium";
           explanation := "The " ++ name p ++ " (part #" ++ pn
                          ++ ") is not listed as compatible with model " ++ mn ++ ".";
           part := Some (to_dict p);
           suggested_models := Some (firstn 5 compatible_model_numbers);
           error := None |}
  end.

(** One iteration of the parsing loop of [extract_part_and_model]. *)
Definition value_of (line : string) : string :=
  match after_first COLON line with
  | Some v => strip v
  | None => EmptyString
  end.

Definition parse_line (acc : option string * option string) (line : string)
  : option string * option string :=
  let '(extracted_part, extracted_model) := acc in
  if startswith "PART_NUMBER:" line then
    let value := value_of line in
    if negb (String.eqb value "NONE") && negb (truthy extracted_part)
    then (Some value, extracted_model) else acc
  else if startswith "MODEL_NUMBER:" line then
    let value := value_of line in
    if negb (String.eqb value "NONE") && negb (truthy extracted_model)
    then (extracted_part, Some value) else acc
  else acc.

Definition extract_part_and_model (chat_with_system : Client) (user_query : string)
  : Exc Context :=
  let part_number := option_map upper (Re.search Re.PART_RE user_query) in
  let model_number := option_map upper (Re.search Re.MODEL_RE user_query) in
  if truthy part_number && truthy model_number then
    Ok (mkContext part_number model_number)
  else
    response <- chat_with_system ExtractPartAndModelPrompt user_query ;;
    let '(extracted_part, extracted_model) :=
      fold_left parse_line (split_on LF (strip response))
                (part_number, model_number) in
    Ok (mkContext extracted_part extracted_model).

(** [generate_response]: a template, no completion call. *)
Definition price_of (part : option PartDict) : string :=
  match part with
  | Some d => d_price d
  | None => "N/A"
  end.

Definition difficulty_of (part : option PartDict) : string :=
  match part with
  | Some d => fmt_opt (d_installation_difficulty d)
  | None => "Unknown"
  end.

Definition bullet_lines (models : list string) : string :=
  fold_left (fun acc model => acc ++ "- " ++ model ++ NL) models EmptyString.

Definition generate_response (compatibility_result : CheckResult)
           (user_query : string) : Exc string :=
  if opt_is (error compatibility_result) "PART_NOT_FOUND"
  then Ok (explanation compatibility_result)
  else
    let part := part compatibility_result in
    match compatible compatibility_result with
    | Some true =>
        Ok ("✅ **Great news!** " ++ explanation compatibility_result ++ NL ++ NL
            ++ "💰 **Price:** $" ++ price_of part ++ NL
            ++ "🔧 **Installation:** " ++ difficulty_of part ++ " difficulty" ++ NL ++ NL
            ++ "Would you like installation instructions for this part?")
    | _ =>
        let models_text :=
          match suggested_models compatibility_result with
          | Some (m :: ms) =>
              "**This part is compatible with models like:**" ++ NL
              ++ bullet_lines (firstn 3 (m :: ms)) ++ NL
          | _ => EmptyString
          end in
        Ok ("❌ " ++ explanation compatibility_result ++ NL ++ NL
            ++ models_text
            ++ "**What to do next:**" ++ NL
            ++ "1. Double-check your model number (usually on a sticker inside the door or on the back)" ++ NL
            ++ "2. Try searching: 'Show me parts for [your model]'" ++ NL
            ++ "3. Contact support for help finding the right part" ++ NL ++ NL
            ++ "💰 Part price: $" ++ price_of part)
    end.

(** The dict returned by [handle_query]; an absent key is [None]. *)
Record Reply : Type := mkReply {
  response : string;
  agent : string;
  r_compatible : option bool;
  r_part_number : option string;
  r_model_number : option string;
  r_part : option PartDict;
  r_error : option string
}.

Definition missing_both : Reply :=
  {| response :=
       "I need both a **part number** (like PS11752778) and a **model number** (like WDT780SAEM1) to check compatibility." ++ NL ++ NL
       ++ "**Example:** 'Is part PS11752778 compatible with model WDT780SAEM1?'" ++ NL ++ NL
       ++ "Your model number is usually found on a sticker:" ++ NL
       ++ "- Inside the refrigerator/dishwasher door" ++ NL
       ++ "- On the back of the appliance" ++ NL
       ++ "- On the side wall inside the unit";
     agent := "compatibility";
     r_compatible := None;
     r_part_number := None;
     r_model_number := None;
     r_part := None;
     r_error := Some "MISSING_BOTH" |}.

Definition missing_part_number (model_number : option string) : Reply :=
  {| response :=
       "I found your model number **" ++ fmt_opt model_number
       ++ "**, but I need a **part number** too." ++ NL ++ NL
       ++ "**Example:** 'Is PS11752778 compatible with {model_number}?'" ++ NL ++ NL
       ++ "Or you can search for compatible parts: 'Show me parts for {model_number}'";
     agent := "compatibility";
     r_compatible := None;
     r_part_number := None;
     r_model_number := model_number;
     r_part := None;
     r_error := Some "MISSING_PART_NUMBER" |}.

Definition missing_model_number (part_number : option string) : Reply :=
  {| response :=
       "I found part number **" ++ fmt_opt part_number
       ++ "**, but I need your **model number** too." ++ NL ++ NL
       ++ "**Example:** 'Is {part_number} compatible with WDT780SAEM1?'" ++ NL ++ NL
       ++ "Your model number is on a sticker:" ++ NL
       ++ "- Inside the door" ++ NL
       ++ "- On the back panel" ++ NL
       ++ "- Inside the unit";
     agent := "compatibility";
     r_compatible := None;
     r_part_number := part_number;
     r_model_number := None;
     r_part := None;
     r_error := Some "MISSING_MODEL_NUMBER" |}.

Definition part_not_found (pn mn : string) : Reply :=
  {| response :=
       "I couldn't find part number **" ++ pn ++ "** in our catalog." ++ NL ++ NL
       ++ "**Please check:**" ++ NL
       ++ "1. Part number is correct (format: PS12345678)" ++ NL
       ++ "2. Try searching: 'Show me ice makers' or 'Show me dishwasher parts'" ++ NL ++ NL
       ++ "If you're sure it's correct, this part may not be in our current catalog.";
     agent := "compatibility";
     r_compatible := None;
     r_part_number := Some pn;
     r_model_number := Some mn;
     r_part := None;
     r_error := Some "PART_NOT_FOUND" |}.

Definition fallback_response (result : CheckResult) (pn mn : string) : string :=
  match compatible result with
  | Some true =>
      "✅ Yes! Part " ++ pn ++ " is compatible with model " ++ mn ++ "."
  | _ =>
      "❌ Part " ++ pn ++ " is not listed as compatible with model " ++ mn ++ "."
  end.

Section Agent.
Variable chat_with_system : Client.
Variable db : list Part.

(** The resolution chain at the head of [handle_query]: explicit
    arguments, then the current query, then the history. *)
Definition resolve (user_query : string)
           (part_number model_number : option string)
           (conversation_history : list Message)
  : Exc (option string * option string) :=
  ids <- (if negb (truthy part_number) || negb (truthy model_number) then
            extracted <- extract_part_and_model chat_with_system user_query ;;
            Ok (py_or part_number (ctx_part_number extracted),
                py_or model_number (ctx_model_number extracted))
          else Ok (part_number, model_number)) ;;
  let '(part_number, model_number) := ids in
  match conversation_history with
  | _ :: _ =>
      if negb (truthy part_number) || negb (truthy model_number) then
        let context := extract_from_history conversation_history in
        Ok (py_or part_number (ctx_part_number context),
            py_or model_number (ctx_model_number context))
      else Ok (part_number, model_number)
  | [] => Ok (part_number, model_number)
  end.

(** [handle_query] from the first error check on. *)
Definition answer (user_query : string) (part_number model_number : option string)
  : Exc Reply :=
  if negb (truthy part_number) && negb (truthy model_number) then
    Ok missing_both
  else if negb (truthy part_number) then
    Ok (missing_part_number model_number)
  else if negb (truthy model_number) then
    Ok (missing_model_number part_number)
  else
    match part_number, model_number with
    | Some pn, Some mn =>
        let result := check_compatibility db pn mn in
        if opt_is (error result) "PART_NOT_FOUND" then Ok (part_not_found pn mn)
        else
          response_text <-
            try_except (generate_response result user_query)
                       (fun _ => Ok (fallback_response result pn mn)) ;;
          Ok {| response := response_text;
                agent := "compatibility";
                r_compatible := compatible result;
                r_part_number := Some pn;
                r_model_number := Some mn;
                r_part := part result;
                r_error := None |}
    | _, _ => Raise TypeError
    end.

Definition handle_query (user_query : string)
           (part_number model_number : option string)
           (conversation_history : list Message) : Exc Reply :=
  ids <- resolve user_query part_number model_number conversation_history ;;
  answer user_query (fst ids) (snd ids).

End Agent.

End Compatibility.

(** ** Router agent ([agents/router_agent.py]) *)

Module Router.

Definition duration_keywords : list string :=
  ["how long"; "how much time"; "time estimate"; "duration"; "take to install"].

Definition install_keywords : list string :=
  ["install"; "installation"; "replace"; "how do i"].

Definition valid_categories : list string :=
  ["PRODUCT_SEARCH"; "COMPATIBILITY_CHECK"; "INSTALLATION_HELP";
   "TROUBLESHOOTING"; "ORDER_SUPPORT"; "OUT_OF_SCOPE"].

(** [bool(re.search(r"PS\d+", s, re.IGNORECASE))] *)
Definition has_part_id (s : string) : bool :=
  match Re.search Re.PART_RE s with
  | Some _ => true
  | None => false
  end.

(** The loop over [conversation_history[-3:]] that sets [has_context]. *)
Definition history_has_part (conversation_history : list Message) : bool :=
  match conversation_history with
  | [] => false
  | _ => existsb (fun msg => has_part_id (get_content msg))
                 (last_n 3 conversation_history)
  end.

(** The two pre-routing rules. *)
Definition time_query_with_context (user_message : string)
           (conversation_history : list Message) : bool :=
  if any_in duration_keywords (lower user_message) then
    let has_part_number := has_part_id user_message in
    let has_context := history_has_part conversation_history in
    has_part_number || has_context
  else false.

Definition explicit_install_query (user_message : string) : bool :=
  any_in install_keywords (lower user_message) && has_part_id user_message.

(** The clean-up and validation of the classifier's reply. *)
Definition validate (response : string) : string :=
  let category := upper (strip response) in
  if existsb (String.eqb category) valid_categories
  then category
  else "PRODUCT_SEARCH".

Definition route (chat_with_system : Client) (user_message : string)
           (conversation_history : list Message) : Exc string :=
  if time_query_with_context user_message conversation_history then
    Ok "INSTALLATION_HELP"
  else if explicit_install_query user_message then
    Ok "INSTALLATION_HELP"
  else
    response <- chat_with_system RouterPrompt user_message ;;
    Ok (validate response).

End Router.

(** ** The vector store ([vector_store/embeddings.py])

    [search(query, n_results, category_filter)], as the list of the
    [part_number] metadata of [results["metadatas"][0]], best match
    first. *)
Definition VectorStore : Type := string -> nat -> option string -> list string.

(** The loop that turns search results into part dicts, dropping the
    identifiers the catalog does not have. *)
Definition load_parts (db : list Part) (part_numbers : list string) : list PartDict :=
  flat_map (fun pn => match find_part db pn with
                      | Some p => [to_dict p]
                      | None => []
                      end) part_numbers.

Definition str_of_nat (n : nat) : string :=
  NilEmpty.string_of_uint (Nat.to_uint n).

(** ** Installation agent ([agents/installation_agent.py]) *)

Module Installation.

Definition detect_category (query_lower : string) : option string :=
  if any_in ["dishwasher"; "dish washer"] query_lower then Some "Dishwasher"
  else if any_in ["refrigerator"; "fridge"; "freezer"] query_lower
       then Some "Refrigerator"
       else None.

Record Instructions : Type := mkInstructions {
  i_part : PartDict;
  i_steps : list string;
  i_difficulty : string
}.

Definition get_installation_instructions (db : list Part) (pn : string)
  : option Instructions :=
  match find_part db pn with
  | None => None
  | Some p =>
      Some {| i_part := to_dict p;
              i_steps := match installation_steps p with
                         | Some l => l
                         | None => []
                         end;
              i_difficulty := if truthy (installation_difficulty p)
                              then fmt_opt (installation_difficulty p)
                              else "Unknown" |}
  end.

Definition extract_part_number (chat_with_system : Client) (user_query : string)
  : Exc (option string) :=
  match Re.search Re.PART_RE user_query with
  | Some g => Ok (Some (upper g))
  | None =>
      response <- chat_with_system ExtractPartPrompt user_query ;;
      let part_number := strip response in
      Ok (if String.eqb part_number "NONE" then None else Some part_number)
  end.

(** The loop over [reversed(conversation_history[-4:])]: the first hit
    returns. *)
Fixpoint first_part_in (messages : list Message) : option string :=
  match messages with
  | [] => None
  | message :: rest =>
      match Re.search Re.PART_RE (get_content message) with
      | Some g => Some (upper g)
      | None => first_part_in rest
      end
  end.

Definition extract_part_from_history (conversation_history : list Message)
  : option string :=
  match conversation_history with
  | [] => None
  | _ => first_part_in (rev (last_n 4 conversation_history))
  end.

(** The dict returned by the handlers; an absent key is [None]. *)
Record Reply : Type := mkReply {
  response : string;
  agent : string;
  r_part : option PartDict;
  r_part_number : option string;
  r_steps : option (list string);
  r_difficulty : option string;
  r_estimated_time : option string;
  r_suggested_parts : option (list PartDict);
  r_no_suggestions : bool;
  r_error : option string
}.

(** [time_estimates.get(difficulty, "30-45 minutes")] *)
Definition time_estimate (difficulty : string) : string :=
  if String.eqb difficulty "Easy" then "10-20 minutes"
  else if String.eqb difficulty "Moderate" then "30-60 minutes"
  else if String.eqb difficulty "Difficult" then "1-2 hours"
  else "30-45 minutes".

Definition difficulty_note (difficulty : string) : string :=
  if String.eqb difficulty "Easy" then
    "This is a straightforward repair that most people can complete quickly. You'll mainly be removing the old part and installing the new one."
  else if String.eqb difficulty "Moderate" then
    "This repair requires some disassembly and careful reconnection of components. Take your time to ensure everything is properly connected."
  else if String.eqb difficulty "Difficult" then
    "This is a more complex repair that requires careful attention to detail. Consider taking photos of wire connections before disconnecting."
  else EmptyString.

Definition no_part_number_for_time_estimate : Reply :=
  {| response :=
       "I'd be happy to give you a time estimate! Which part are you asking about?" ++ NL ++ NL
       ++ "**General time estimates by difficulty:**" ++ NL
       ++ "- 🟢 **Easy:** 10-20 minutes (spray arms, baskets, filters, handles)" ++ NL
       ++ "- 🟡 **Moderate:** 30-60 minutes (valves, motors, door parts, thermostats)" ++ NL
       ++ "- 🔴 **Difficult:** 1-2 hours (pumps, control boards, heating elements)" ++ NL ++ NL
       ++ "💡 Tell me the part number or name, and I'll give you a specific estimate!";
     agent := "installation"; r_part := None;
     r_part_number := None; r_steps := None; r_difficulty := None;
     r_estimated_time := None; r_suggested_parts := None;
     r_no_suggestions := false;
     r_error := Some "NO_PART_NUMBER_FOR_TIME_ESTIMATE" |}.

Definition handle_time_estimate_query (db : list Part) (user_query : string)
           (part_number : option string) (conversation_history : list Message)
  : Reply :=
  if negb (truthy part_number) then no_part_number_for_time_estimate
  else
    let pn := str_val part_number in
    match get_installation_instructions db pn with
    | None =>
        {| response := "I couldn't find part number **" ++ pn
                       ++ "** to provide a time estimate." ++ NL ++ NL
                       ++ "Could you double-check the part number?";
           agent := "installation"; r_part := None;
           r_part_number := None; r_steps := None; r_difficulty := None;
           r_estimated_time := None; r_suggested_parts := None;
           r_no_suggestions := false; r_error := Some "PART_NOT_FOUND" |}
    | Some instructions =>
        let part := i_part instructions in
        let difficulty := i_difficulty instructions in
        let steps := i_steps instructions in
        let estimated_time := time_estimate difficulty in
        let text :=
          "**Installation Time for " ++ d_name part ++ "**" ++ NL ++ NL
          ++ "⏱️ **Estimated Time:** " ++ estimated_time ++ NL
          ++ "🔧 **Difficulty:** " ++ difficulty ++ NL
          ++ "📋 **Steps:** " ++ str_of_nat (length steps) ++ " steps to complete" ++ NL ++ NL
          ++ difficulty_note difficulty
          ++ NL ++ NL ++ "💡 **Want detailed instructions?** Ask: 'How do I install "
          ++ pn ++ "?'" in
        {| response := text; agent := "installation"; r_part := Some part;
           r_part_number := None; r_steps := None;
           r_difficulty := Some difficulty;
           r_estimated_time := Some estimated_time;
           r_suggested_parts := None;
           r_no_suggestions := false; r_error := None |}
    end.

(** The numbered lines built with [enumerate(parts, 1)]. *)
Fixpoint suggestion_lines (with_description : bool) (i : nat)
         (parts : list PartDict) : Exc string :=
  match parts with
  | [] => Ok EmptyString
  | part :: rest =>
      description_line <-
        (if with_description then
           match d_description part with
           | Some d => Ok ("   - " ++ substring 0 80 d ++ "..." ++ NL)
           | None => Raise TypeError
           end
         else Ok EmptyString) ;;
      more <- suggestion_lines with_description (S i) rest ;;
      Ok (NL ++ str_of_nat i ++ ". **" ++ d_name part ++ "** (Part #"
          ++ d_part_number part ++ ")" ++ NL
          ++ "   - $" ++ d_price part ++ " | "
          ++ fmt_opt (d_installation_difficulty part) ++ " difficulty" ++ NL
          ++ description_line ++ more)
  end.

Fixpoint numbered_steps (i : nat) (steps : list string) : string :=
  match steps with
  | [] => EmptyString
  | step :: rest => str_of_nat i ++ ". " ++ step ++ NL ++ numbered_steps (S i) rest
  end.

Section Agent.
Variable chat_with_system : Client.
Variable vector_store : option VectorStore.
Variable db : list Part.

Definition find_relevant_parts (user_query : string) (n_results : nat)
  : list PartDict :=
  match vector_store with
  | None => []
  | Some search =>
      let category := detect_category (lower user_query) in
      load_parts db (search user_query n_results category)
  end.

Definition generate_response (instructions : Instructions) (user_query : string)
  : Exc string :=
  let difficulty := i_difficulty instructions in
  chat_with_system
    (InstallationGuidePrompt (i_part instructions) (i_steps instructions)
                             difficulty (time_estimate difficulty))
    user_query.

(** The part resolution at the head of [handle_query]. *)
Definition resolve_part (user_query : string) (part_number : option string)
           (conversation_history : list Message) : Exc (option string) :=
  part_number <- (if negb (truthy part_number)
                  then extract_part_number chat_with_system user_query
                  else Ok part_number) ;;
  match conversation_history with
  | _ :: _ =>
      if negb (truthy part_number)
      then Ok (extract_part_from_history conversation_history)
      else Ok part_number
  | [] => Ok part_number
  end.

Definition no_part_number (user_query : string) : Exc Reply :=
  let relevant_parts := find_relevant_parts user_query 3 in
  match relevant_parts with
  | _ :: _ =>
      lines <- suggestion_lines true 1 relevant_parts ;;
      let suggestions :=
        NL ++ NL ++ "**Here are some parts that might match what you're looking for:**" ++ NL
        ++ lines
        ++ NL ++ "💡 **To get installation instructions, ask:** 'How do I install PS[part number]?'" in
      Ok {| response := "I'd be happy to help with installation! I need the specific **part number** to provide detailed instructions." ++ suggestions;
            agent := "installation"; r_part := None; r_part_number := None;
            r_steps := None; r_difficulty := None; r_estimated_time := None;
            r_suggested_parts := Some relevant_parts;
            r_no_suggestions := false; r_error := Some "NO_PART_NUMBER" |}
  | [] =>
      Ok {| response :=
              "I'd be happy to help with installation! Could you provide the **part number**? It typically looks like **PS** followed by 8 digits." ++ NL ++ NL
              ++ "You can find the part number:" ++ NL
              ++ "- On the part packaging" ++ NL
              ++ "- In your order confirmation" ++ NL
              ++ "- By searching for the part name in our catalog" ++ NL ++ NL
              ++ "Or tell me what part you need (e.g., 'dishwasher spray arm', 'ice maker assembly') and I can help you find it!";
            agent := "installation"; r_part := None; r_part_number := None;
            r_steps := None; r_difficulty := None; r_estimated_time := None;
            r_suggested_parts := None;
            r_no_suggestions := false; r_error := Some "NO_PART_NUMBER" |}
  end.

Definition part_not_found (user_query pn : string) : Exc Reply :=
  let category := detect_category (lower user_query) in
  let search_query := strip (replace_all pn EmptyString user_query) in
  let search_query :=
    match search_query with
    | EmptyString => "part " ++ pn
    | _ => search_query
    end in
  let search_query :=
    match category with
    | Some c => c ++ " " ++ search_query
    | None => search_query
    end in
  let similar_parts := find_relevant_parts search_query 3 in
  let similar_parts :=
    match category, similar_parts with
    | Some c, _ :: _ =>
        firstn 3 (filter (fun p => String.eqb (d_category p) c) similar_parts)
    | _, _ => similar_parts
    end in
  tail <-
    match similar_parts with
    | _ :: _ =>
        lines <- suggestion_lines false 1 similar_parts ;;
        Ok ("**Did you mean one of these parts?**" ++ NL ++ lines
            ++ NL ++ "💡 Ask: 'How do I install PS[correct part number]?'")
    | [] =>
        Ok ("**What you can do:**" ++ NL
            ++ "- Double-check the part number" ++ NL
            ++ "- Search by part name or symptom" ++ NL
            ++ "- Browse available parts by category" ++ NL)
    end ;;
  Ok {| response := "I couldn't find part number **" ++ pn
                    ++ "** in our catalog." ++ NL ++ NL ++ tail;
        agent := "installation"; r_part := None; r_part_number := Some pn;
        r_steps := None; r_difficulty := None; r_estimated_time := None;
        r_suggested_parts := Some similar_parts;
        r_no_suggestions := false; r_error := Some "PART_NOT_FOUND" |}.

Definition no_installation_steps (instructions : Instructions) (pn : string)
  : Reply :=
  let part_info := i_part instructions in
  {| response :=
       "I found **" ++ d_name part_info ++ "** (Part #" ++ pn
       ++ "), but detailed installation instructions are not currently available for this part." ++ NL ++ NL
       ++ "**What this means:**" ++ NL
       ++ "- This is typically a simple replacement part that doesn't require complex installation" ++ NL
       ++ "- You can usually install it by removing the old part and snapping in the new one" ++ NL ++ NL
       ++ "**Need more help?**" ++ NL
       ++ "- Contact PartSelect customer service at 1-800-PARTSELECT" ++ NL
       ++ "- Check YouTube for '" ++ d_name part_info ++ " installation'" ++ NL
       ++ "- Ask: 'What tools do I need for " ++ pn ++ "?'" ++ NL ++ NL
       ++ "💰 **Price:** $" ++ d_price part_info ++ NL
       ++ "🔧 **Difficulty:** " ++ i_difficulty instructions;
     agent := "installation"; r_part := Some part_info;
     r_part_number := Some pn; r_steps := None; r_difficulty := None;
     r_estimated_time := None; r_suggested_parts := None;
     r_no_suggestions := false; r_error := Some "NO_INSTALLATION_STEPS" |}.

Definition fallback_guide (instructions : Instructions) (pn : string) : Reply :=
  let part_info := i_part instructions in
  let steps := i_steps instructions in
  let difficulty := i_difficulty instructions in
  {| response :=
       "**Installation Instructions for " ++ d_name part_info ++ "**" ++ NL ++ NL
       ++ "**Part Number:** " ++ pn ++ NL
       ++ "**Difficulty:** " ++ difficulty ++ NL
       ++ "**Price:** $" ++ d_price part_info ++ NL ++ NL
       ++ "**Steps:**" ++ NL
       ++ numbered_steps 1 steps
       ++ NL ++ "⚠️ **Safety First:** Always disconnect power before starting any repair!";
     agent := "installation"; r_part := Some part_info;
     r_part_number := None; r_steps := Some steps;
     r_difficulty := Some difficulty; r_estimated_time := None;
     r_suggested_parts := None;
     r_no_suggestions := false; r_error := None |}.

Definition handle_query (user_query : string) (part_number : option string)
           (conversation_history : list Message) : Exc Reply :=
  part_number <- resolve_part user_query part_number conversation_history ;;
  if any_in Router.duration_keywords (lower user_query) then
    Ok (handle_time_estimate_query db user_query part_number conversation_history)
  else if negb (truthy part_number) then no_part_number user_query
  else
    let pn := str_val part_number in
    match get_installation_instructions db pn with
    | None => part_not_found user_query pn
    | Some instructions =>
        match i_steps instructions with
        | [] => Ok (no_installation_steps instructions pn)
        | _ :: _ =>
            try_except
              (response_text <- generate_response instructions user_query ;;
               Ok {| response := response_text; agent := "installation";
                     r_part := Some (i_part instructions);
                     r_part_number := None;
                     r_steps := Some (i_steps instructions);
                     r_difficulty := Some (i_difficulty instructions);
                     r_estimated_time := None; r_suggested_parts := None;
                     r_no_suggestions := true; r_error := None |})
              (fun _ => Ok (fallback_guide instructions pn))
        end
    end.

End Agent.

End Installation.

(** ** Product search agent ([agents/product_search_agent.py]) *)

Module ProductSearch.

Definition extract_category_from_query (query : string) : option string :=
  let query_lower := lower query in
  if any_in ["dishwasher"; "dish washer"; "dish-washer"] query_lower
  then Some "Dishwasher"
  else if any_in ["refrigerator"; "fridge"; "freezer"; "ice maker"] query_lower
       then Some "Refrigerator"
       else None.

Definition meta_keywords : list string :=
  ["what types"; "what kind"; "what categories"; "all types"; "all parts";
   "list all"; "show all"; "available types"; "types available";
   "what do you have"; "what's available"; "what is available"].

Definition is_meta_query (query : string) : bool :=
  any_in meta_keywords (lower query).

Definition similar_keywords : list string :=
  ["similar"; "alternative"; "other"; "different"; "like this"].

Definition part_keywords : list string :=
  ["ice maker"; "water inlet valve"; "spray arm"; "pump"; "motor"; "filter";
   "gasket"; "seal"; "door"; "handle"; "shelf"; "drawer"; "light";
   "thermostat"; "compressor"].

Record Context : Type := mkContext {
  ctx_part_number : option string;
  ctx_part_name : option string;
  ctx_category : option string;
  ctx_model_number : option string;
  ctx_keywords : list string
}.

(** [matches[-1].upper()] when [matches] is not empty. *)
Definition last_upper (matches : list string) : option string :=
  match matches with
  | [] => None
  | _ :: _ => Some (upper (last matches EmptyString))
  end.

(** One iteration of the loop of [extract_context_from_history]. *)
Definition scan_message (context : Context) (message : Message) : Context :=
  let content := get_content message in
  let part_number :=
    match last_upper (Re.findall Re.PART_RE content) with
    | Some m => if negb (truthy (ctx_part_number context)) then Some m
                else ctx_part_number context
    | None => ctx_part_number context
    end in
  let model_number :=
    match last_upper (Re.findall Re.MODEL_RE content) with
    | Some m => if negb (truthy (ctx_model_number context)) then Some m
                else ctx_model_number context
    | None => ctx_model_number context
    end in
  let content_lower := lower content in
  let category :=
    if contains "refrigerator" content_lower && negb (truthy (ctx_category context))
    then Some "Refrigerator"
    else if contains "dishwasher" content_lower && negb (truthy (ctx_category context))
         then Some "Dishwasher"
         else ctx_category context in
  let hits := filter (fun keyword => contains (lower keyword) content_lower)
                     part_keywords in
  let part_name :=
    if truthy (ctx_part_name context) then ctx_part_name context
    else match hits with
         | k :: _ => Some k
         | [] => ctx_part_name context
         end in
  mkContext part_number part_name category model_number
            (ctx_keywords context ++ hits)%list.

(** The grouping loop of [get_available_parts_by_category]: a dict keeps
    its keys in the order of their first insertion. *)
Fixpoint group_add (key : string) (d : PartDict)
         (groups : list (string * list PartDict)) : list (string * list PartDict) :=
  match groups with
  | [] => [(key, [d])]
  | (k, l) :: rest =>
      if String.eqb k key then (k, (l ++ [d])%list) :: rest
      else (k, l) :: group_add key d rest
  end.

Record Overview : Type := mkOverview {
  o_category : string;
  o_subcategories : list (string * list PartDict);
  o_total_parts : nat
}.

Definition get_available_parts_by_category (db : list Part)
           (category : option string) : Overview :=
  let all_parts :=
    if truthy category
    then filter (fun p => String.eqb (Catalog.category p) (str_val category)) db
    else db in
  {| o_category := if truthy category then str_val category else "All";
     o_subcategories :=
       fold_left (fun groups p =>
                    group_add (if truthy (subcategory p)
                               then str_val (subcategory p) else "Other")
                              (to_dict p) groups)
                 all_parts [];
     o_total_parts := length all_parts |}.

Definition summary_of_group (g : string * list PartDict) : string :=
  let '(subcategory, parts) := g in
  NL ++ subcategory ++ " (" ++ str_of_nat (length parts) ++ " parts):" ++ NL
  ++ fold_left (fun acc part =>
                  acc ++ "  - " ++ d_name part ++ " (Part #" ++ d_part_number part
                  ++ ") - $" ++ d_price part ++ NL)
               (firstn 2 parts) EmptyString
  ++ (if Nat.ltb 2 (length parts)
      then "  ... and " ++ str_of_nat (length parts - 2) ++ " more" ++ NL
      else EmptyString).

Definition parts_summary (parts_overview : Overview) : string :=
  fold_left (fun acc g => acc ++ summary_of_group g)
            (o_subcategories parts_overview)
            ("Category: " ++ o_category parts_overview ++ NL
             ++ "Total parts: " ++ str_of_nat (o_total_parts parts_overview) ++ NL ++ NL
             ++ "Available by subcategory:" ++ NL).

Definition context_info (context : Context) : string :=
  if truthy (ctx_part_number context) || truthy (ctx_part_name context)
     || truthy (ctx_category context) || truthy (ctx_model_number context)
     || negb (Nat.eqb (length (ctx_keywords context)) 0)
  then
    NL ++ NL ++ "Conversation context:" ++ NL
    ++ (if truthy (ctx_part_number context)
        then "- Previous part discussed: " ++ str_val (ctx_part_number context) ++ NL
        else EmptyString)
    ++ (if truthy (ctx_category context)
        then "- Appliance type: " ++ str_val (ctx_category context) ++ NL
        else EmptyString)
    ++ (match ctx_keywords context with
        | _ :: _ => "- Keywords: " ++ join ", " (firstn 3 (ctx_keywords context)) ++ NL
        | [] => EmptyString
        end)
  else EmptyString.

Record Reply : Type := mkReply {
  response : string;
  parts : list PartDict;
  agent : string
}.

Section Agent.
Variable chat_with_system : Client.
Variable vector_store : VectorStore.
Variable db : list Part.
(** [list(set(l))]: the distinct elements of [l] in the iteration order
    of a [set] of strings, which the program does not determine. *)
Variable list_of_set : list string -> list string.

Definition extract_context_from_history (user_query : string)
           (conversation_history : list Message) : Context :=
  let context := mkContext None None None None [] in
  match conversation_history with
  | [] => context
  | _ =>
      let c := fold_left scan_message (last_n 4 conversation_history) context in
      mkContext (ctx_part_number c) (ctx_part_name c) (ctx_category c)
                (ctx_model_number c) (list_of_set (ctx_keywords c))
  end.

Definition generate_meta_response (parts_overview : Overview)
           (user_query : string) : Exc string :=
  chat_with_system (MetaPrompt (parts_summary parts_overview)) user_query.

Definition standard_search (query : string) (category : option string)
  : list PartDict :=
  load_parts db (vector_store query 5 category).

Definition search_parts (query : string) (category : option string)
           (reference_part_number : option string) : list PartDict :=
  if truthy reference_part_number then
    let ref := str_val reference_part_number in
    match find_part db ref with
    | Some reference_part =>
        let search_query :=
          name reference_part ++ " " ++ Catalog.category reference_part ++ " "
          ++ (if truthy (subcategory reference_part)
              then str_val (subcategory reference_part) else EmptyString) in
        let results :=
          vector_store search_query 6 (Some (Catalog.category reference_part)) in
        let parts :=
          load_parts db (filter (fun pn => negb (String.eqb pn ref)) results) in
        firstn 5 parts
    | None => standard_search query category
    end
  else standard_search query category.

Definition generate_response (user_query : string) (parts : list PartDict)
           (context : Context) : Exc string :=
  match parts with
  | [] => Ok "I couldn't find any parts matching your search. Could you provide more details about what you're looking for?"
  | _ :: _ =>
      chat_with_system (SearchPrompt (firstn 3 parts) (context_info context))
                       user_query
  end.

Definition handle_query (user_query : string) (category : option string)
           (conversation_history : list Message) : Exc Reply :=
  let context := extract_context_from_history user_query conversation_history in
  let category :=
    if negb (truthy category) then extract_category_from_query user_query
    else category in
  let category :=
    if negb (truthy category) && truthy (ctx_category context)
    then ctx_category context else category in
  if is_meta_query user_query then
    let parts_overview := get_available_parts_by_category db category in
    response_text <- generate_meta_response parts_overview user_query ;;
    let sample_parts :=
      flat_map (fun g => firstn 1 (snd g)) (o_subcategories parts_overview) in
    Ok {| response := response_text;
          parts := firstn 5 sample_parts;
          agent := "product_search" |}
  else
    let is_similar_query := any_in similar_keywords (lower user_query) in
    let '(enhanced_query, reference_part) :=
      if is_similar_query && truthy (ctx_part_number context) then
        (user_query, ctx_part_number context)
      else if Nat.leb (count_words user_query) 3
              && negb (Nat.eqb (length (ctx_keywords context)) 0) then
        (user_query ++ " " ++ join " " (firstn 2 (ctx_keywords context)), None)
      else (user_query, None) in
    let parts := search_parts enhanced_query category reference_part in
    response_text <- generate_response user_query parts context ;;
    Ok {| response := response_text;
          parts := firstn 3 parts;
          agent := "product_search" |}.

End Agent.

End ProductSearch.

(** ** Troubleshooting agent ([agents/troubleshooting_agent.py]) *)

Module Troubleshooting.

Definition symptom_keywords : list string :=
  ["not working"; "leaking"; "noisy"; "won't drain"; "not cooling";
   "not heating"; "not spinning"; "making noise"; "not starting"].

Record Context : Type := mkContext {
  ctx_appliance_type : option string;
  ctx_symptoms : list string;
  ctx_previous_parts : list string
}.

Definition mem (x : string) (l : list string) : bool :=
  existsb (String.eqb x) l.

(** [for x in xs: if x not in acc: acc.append(x)] *)
Definition add_new (acc xs : list string) : list string :=
  fold_left (fun acc x => if mem x acc then acc else (acc ++ [x])%list) xs acc.

(** One iteration of the loop of [extract_context_from_history]. *)
Definition scan_message (context : Context) (message : Message) : Context :=
  let content := get_content message in
  let content_lower := lower content in
  let appliance_type :=
    if contains "refrigerator" content_lower || contains "fridge" content_lower
    then Some "Refrigerator"
    else if contains "dishwasher" content_lower then Some "Dishwasher"
         else ctx_appliance_type context in
  let previous_parts :=
    add_new (ctx_previous_parts context)
            (map upper (Re.findall Re.PART_RE content)) in
  let symptoms :=
    add_new (ctx_symptoms context)
            (filter (fun symptom => contains symptom content_lower)
                    symptom_keywords) in
  mkContext appliance_type symptoms previous_parts.

Definition extract_context_from_history (user_query : string)
           (conversation_history : list Message) : Context :=
  let context := mkContext None [] [] in
  match conversation_history with
  | [] => context
  | _ => fold_left scan_message (last_n 4 conversation_history) context
  end.

Definition context_info (context : Context) : string :=
  if truthy (ctx_appliance_type context)
     || negb (Nat.eqb (length (ctx_symptoms context)) 0)
     || negb (Nat.eqb (length (ctx_previous_parts context)) 0)
  then
    NL ++ NL ++ "Conversation context:" ++ NL
    ++ (if truthy (ctx_appliance_type context)
        then "- Appliance: " ++ str_val (ctx_appliance_type context) ++ NL
        else EmptyString)
    ++ (match ctx_symptoms context with
        | _ :: _ => "- Previous symptoms mentioned: "
                    ++ join ", " (firstn 2 (ctx_symptoms context)) ++ NL
        | [] => EmptyString
        end)
  else EmptyString.

Record Reply : Type := mkReply {
  response : string;
  suggested_parts : list PartDict;
  agent : string
}.

(** [', '.join(part.get('common_symptoms', []))] in the list comprehension
    that builds [parts_context]: [to_dict] always sets the key, so the
    default of [get] is never used, and for a part whose [common_symptoms]
    column is NULL the call is [', '.join(None)], a [TypeError].  The
    comprehension runs over [parts[:3]] before the completion service is
    called. *)
Definition symptoms_recorded (part : PartDict) : bool :=
  match d_common_symptoms part with
  | Some _ => true
  | None => false
  end.

Section Agent.
Variable chat_with_system : Client.
Variable vector_store : VectorStore.
Variable db : list Part.

Definition diagnose_problem (user_query : string)
           (appliance_type : option string) : list PartDict :=
  load_parts db (vector_store user_query 5 appliance_type).

Definition generate_response (user_query : string) (parts : list PartDict)
           (context : Context) : Exc string :=
  match parts with
  | [] => Ok "I understand you're having an issue. Could you provide more details about what's happening with your appliance?"
  | _ :: _ =>
      if forallb symptoms_recorded (firstn 3 parts) then
        chat_with_system (DiagnosisPrompt (firstn 3 parts) (context_info context))
                         user_query
      else Raise TypeError
  end.

Definition handle_query (user_query : string)
           (conversation_history : list Message) : Exc Reply :=
  let context := extract_context_from_history user_query conversation_history in
  let appliance_type := ctx_appliance_type context in
  let parts := diagnose_problem user_query appliance_type in
  response_text <- generate_response user_query parts context ;;
  Ok {| response := response_text;
        suggested_parts := firstn 3 parts;
        agent := "troubleshooting" |}.

End Agent.

End Troubleshooting.

(** ** Reference definitions

    These follow the words of the design document, to be compared with the
    loops of the agents. *)

Module Spec.

(** What one turn contributes to the part number: the first match of the
    part pattern in its content, uppercased. *)
Definition part_hit (turn : Message) : option string :=
  option_map upper (Re.search Re.PART_RE (get_content turn)).

(** What one turn contributes to the model number: the first match of the
    model pattern in its content, uppercased, unless that match is a part
    number. *)
Definition model_hit (turn : Message) : option string :=
  match Re.search Re.MODEL_RE (get_content turn) with
  | Some g => if startswith "PS" (upper g) then None else Some (upper g)
  | None => None
  end.

(** The product search agent takes the last match of the turn instead. *)
Definition last_part_hit (turn : Message) : option string :=
  match Re.findall Re.PART_RE (get_content turn) with
  | [] => None
  | g :: gs => Some (upper (last (g :: gs) EmptyString))
  end.

(** "Earliest qualifying turn in the window wins". *)
Fixpoint earliest {A : Type} (hit : Message -> option A) (window : list Message)
  : option A :=
  match window with
  | [] => None
  | turn :: later =>
      match hit turn with
      | Some x => Some x
      | None => earliest hit later
      end
  end.

(** Its mirror image: the latest qualifying turn in the window wins. *)
Fixpoint latest {A : Type} (hit : Message -> option A) (window : list Message)
  : option A :=
  match window with
  | [] => None
  | turn :: later =>
      match latest hit later with
      | Some x => Some x
      | None => hit turn
      end
  end.

(** "Syntactically matches the part-identifier pattern": the whole string
    is [PS] and digits, in either case. *)
Definition is_part_identifier (s : string) : bool :=
  match Re.match_here Re.PART_RE None s with
  | Some g => String.eqb g s
  | None => false
  end.

End Spec.

(** ** Sample data *)

Module Samples.

Definition user_says (text : string) : Message := mkMessage "user" (Some text).

(** The turns of the design document's example: T1 mentions PS100, T2
    mentions PS200. *)
Definition two_turns : list Message :=
  [user_says "Tell me about PS100"; user_says "And what about PS200?"].

Definition end_to_end_query : string :=
  "Is part PS11752778 compatible with my WDT780SAEM1 model?".

Definition failing_client : Client := fun _ _ => Raise RequestException.

Definition echo_client (reply : string) : Client := fun _ _ => Ok reply.

Definition ice_maker : Part :=
  {| id := 1; part_number := "PS11752778"; name := "Ice Maker Assembly";
     category := "Refrigerator"; subcategory := Some "Ice Maker";
     price := "89.99"; description := Some "Replacement ice maker";
     brand := Some "Whirlpool"; image_url := None;
     installation_difficulty := Some "Easy";
     installation_steps := Some ["Unplug the refrigerator"; "Swap the unit"];
     common_symptoms := Some ["not making ice"];
     compatible_models := ["WRS325SDHZ"; "WDT780SAEM1"] |}.

Definition numbered_part (n : nat) (pn : string) : Part :=
  {| id := n; part_number := pn; name := "Water Filter " ++ pn;
     category := "Refrigerator"; subcategory := Some "Filter";
     price := "19.99"; description := Some "Filter";
     brand := None; image_url := None;
     installation_difficulty := None;
     installation_steps := None;
     common_symptoms := None;
     compatible_models := [] |}.

(** The part of the design document's example: PS100, compatible with
    MODEL_A and MODEL_B. *)
Definition ps100 : Part :=
  {| id := 100; part_number := "PS100"; name := "Door Gasket";
     category := "Dishwasher"; subcategory := None;
     price := "24.5"; description := None;
     brand := None; image_url := None;
     installation_difficulty := Some "Moderate";
     installation_steps := None;
     common_symptoms := None;
     compatible_models := ["MODEL_A"; "MODEL_B"] |}.

Definition catalog : list Part :=
  [ice_maker; numbered_part 2 "PS2"; numbered_part 3 "PS3";
   numbered_part 4 "PS4"; numbered_part 5 "PS5"; numbered_part 6 "PS6"].

(** A vector store that ranks the whole catalog the same way for every
    query. *)
Definition every_part : VectorStore :=
  fun _ n _ => firstn n (map part_number catalog).

End Samples.

(** ** The web application ([app.py])

    The chat endpoints keep one history per session in the module-level
    dict [conversations].  A turn is recorded with a [timestamp] key read
    from the clock; no agent reads it, and the model leaves it out.  The
    orchestrator's answer is an input here: [result["response"]] and the
    keys that [generate_followup_questions] reads. *)

Module App.

Definition user_turn (message : string) : Message :=
  mkMessage "user" (Some message).

Definition assistant_turn (text : string) : Message :=
  mkMessage "assistant" (Some text).

(** [conversations]: session id to history; an absent key is [None]. *)
Definition Conversations : Type := string -> option (list Message).

Definition no_conversations : Conversations := fun _ => None.

(** [conversations.get(session_id, [])] *)
Definition get_history (conversations : Conversations) (session_id : string)
  : list Message :=
  match conversations session_id with
  | Some history => history
  | None => []
  end.

(** [conversations[session_id] = history] *)
Definition set_history (conversations : Conversations) (session_id : string)
           (history : list Message) : Conversations :=
  fun k => if String.eqb k session_id then Some history else conversations k.

(** The two appends and the truncation at the end of [chat]. *)
Definition record_exchange (conversation_history : list Message)
           (message response : string) : list Message :=
  last_n 10 (conversation_history
             ++ [user_turn message; assistant_turn response])%list.

(** [accumulated_text] of [chat_stream]: every word of
    [response_text.split(" ")] followed by a space. *)
Definition accumulate (response_text : string) : string :=
  fold_left (fun accumulated_text word => accumulated_text ++ word ++ " ")
            (split_on " " response_text) EmptyString.

(** A request that was answered. *)
Inductive request : Type :=
| Chat (session_id message response : string)
| ChatStream (session_id message response : string)
| ClearConversation (session_id : string).

Definition serve (conversations : Conversations) (r : request) : Conversations :=
  match r with
  | Chat session_id message response =>
      set_history conversations session_id
        (record_exchange (get_history conversations session_id) message response)
  | ChatStream session_id message response =>
      set_history conversations session_id
        (record_exchange (get_history conversations session_id) message
                         (strip (accumulate response)))
  | ClearConversation session_id =>
      fun k => if String.eqb k session_id then None else conversations k
  end.

Definition serve_all (requests : list request) : Conversations :=
  fold_left serve requests no_conversations.

(** The keys of the orchestrator's answer that
    [generate_followup_questions] reads; a missing key has the default of
    its [get]. *)
Record ChatResult : Type := mkChatResult {
  res_category : string;
  res_agent : string;
  res_parts : list PartDict;
  res_part_number : option string;
  res_suggested_parts : list PartDict
}.

Definition default_suggestions : list string :=
  ["Show me popular refrigerator parts";
   "Find dishwasher replacement parts";
   "How do I troubleshoot my appliance?"].

Definition generate_followup_questions (user_query : string) (result : ChatResult)
  : list string :=
  let category := res_category result in
  let parts := res_parts result in
  let suggestions :=
    if String.eqb category "PRODUCT_SEARCH"
       && negb (Nat.eqb (length parts) 0) then
      match parts with
      | part :: _ =>
          ["How do I install " ++ d_part_number part ++ "?";
           "Is " ++ d_part_number part ++ " compatible with my appliance?";
           "What are common issues with " ++ d_name part ++ "?"]
      | [] => []
      end
    else if String.eqb category "COMPATIBILITY_CHECK" then
      if truthy (res_part_number result) then
        ["How do I install part " ++ str_val (res_part_number result) ++ "?";
         "Show me similar parts";
         "What tools do I need for installation?"]
      else []
    else if String.eqb category "INSTALLATION_HELP" then
      ["What if the part doesn't fit?";
       "How long does installation take?";
       "Do I need special tools?"]
    else if String.eqb category "TROUBLESHOOTING" then
      match res_suggested_parts result with
      | part :: _ =>
          ["Tell me more about " ++ d_name part;
           "How do I install " ++ d_part_number part ++ "?";
           "Show me installation videos"]
      | [] => []
      end
    else [] in
  let suggestions :=
    match suggestions with
    | [] => default_suggestions
    | _ :: _ => suggestions
    end in
  firstn 3 suggestions.

End App.

(** ** Shapes of identifiers and histories *)

Module Shape.

Fixpoint all_chars (cls : ascii -> bool) (s : string) : bool :=
  match s with
  | EmptyString => true
  | String c s' => cls c && all_chars cls s'
  end.

(** The letters PS, then one digit or more. *)
Definition is_part_number (s : string) : bool :=
  match s with
  | String c1 (String c2 digits) =>
      Ascii.eqb c1 "P" && Ascii.eqb c2 "S"
      && Nat.leb 1 (String.length digits) && all_chars is_digit digits
  | _ => false
  end.

Definition upper_or_digit (c : ascii) : bool := is_upper_char c || is_digit c.

(** Seven characters or more, capital letters and digits only, the first
    two of them letters. *)
Definition is_model_number (s : string) : bool :=
  Nat.leb 7 (String.length s) && all_chars upper_or_digit s
  && match s with
     | String c1 (String c2 _) => is_upper_char c1 && is_upper_char c2
     | _ => false
     end.

(** A token of the reply protocol: not empty, no white space in it. *)
Definition is_token (s : string) : bool :=
  negb (String.eqb s EmptyString) && all_chars (fun c => negb (is_space c)) s.

(** User and assistant turns in alternation, a user turn first. *)
Fixpoint alternates (history : list Message) : bool :=
  match history with
  | [] => true
  | u :: rest =>
      match rest with
      | a :: rest' =>
          String.eqb (role u) "user" && String.eqb (role a) "assistant"
          && alternates rest'
      | [] => false
      end
  end.

(** The text starts with P, S and a digit, the letters in either case. *)
Definition starts_part (s : string) : bool :=
  match s with
  | String c1 (String c2 (String c3 _)) =>
      Re.ci "P" c1 && Re.ci "S" c2 && is_digit c3
  | _ => false
  end.

(** The text has P, S and a digit in a row somewhere. *)
Fixpoint mentions_part (s : string) : bool :=
  starts_part s ||
  match s with
  | EmptyString => false
  | String _ s' => mentions_part s'
  end.

(** The appliance a turn names, as the troubleshooting agent reads it ... *)
Definition appliance_mention (turn : Message) : option string :=
  let text := lower (get_content turn) in
  if contains "refrigerator" text || contains "fridge" text
  then Some "Refrigerator"
  else if contains "dishwasher" text then Some "Dishwasher" else None.

(** ... and as the product search agent reads it. *)
Definition category_mention (turn : Message) : option string :=
  let text := lower (get_content turn) in
  if contains "refrigerator" text then Some "Refrigerator"
  else if contains "dishwasher" text then Some "Dishwasher" else None.

(** The key under which [get_available_parts_by_category] files a part:
    [part.subcategory or "Other"]. *)
Definition subcategory_key (d : PartDict) : string :=
  if truthy (d_subcategory d) then str_val (d_subcategory d) else "Other".

Definition group_sizes (groups : list (string * list PartDict)) : list nat :=
  map (fun g => length (snd g)) groups.

End Shape.

(** * Properties *)

(** ** Strings and patterns *)

Section StringFacts.

Lemma upper_char_idem (c : ascii) : upper_char (upper_char c) = upper_char c.
Proof.
  destruct c as [[] [] [] [] [] [] [] []]; reflexivity.
Qed.

Lemma upper_idem (s : string) : upper (upper s) = upper s.
Proof.
  induction s as [|c s IH]; simpl; [reflexivity|].
  unfold upper in *; simpl. now rewrite upper_char_idem, IH.
Qed.

Lemma upper_nonempty (s : string) : s <> EmptyString -> upper s <> EmptyString.
Proof.
  destruct s; [congruence | discriminate].
Qed.

Lemma truthy_nonempty (s : string) : s <> EmptyString -> truthy (Some s) = true.
Proof.
  destruct s; [congruence | reflexivity].
Qed.





(** [l[-n:]] is the end of [l], of length [n] at most. *)
Lemma last_n_suffix {A : Type} (n : nat) (l : list A) :
  (exists earlier, l = (earlier ++ last_n n l)%list)
  /\ length (last_n n l) = Nat.min n (length l).
Proof.
  unfold last_n. split.
  - exists (firstn (length l - n) l). symmetry. apply firstn_skipn.
  - rewrite length_skipn. lia.
Qed.

(** The patterns on sample texts: the search is case-insensitive and
    leftmost; the model pattern needs a word boundary on both sides, takes
    the whole run of letters and digits, and so also matches an ordinary
    word of seven letters or more. *)
Example pattern_samples :
  Re.search Re.PART_RE "Is ps11752778 compatible?" = Some "ps11752778"
  /\ Re.search Re.PART_RE "PS and P5 are no part numbers" = None
  /\ Re.search Re.MODEL_RE "my WDT780SAEM1 model" = Some "WDT780SAEM1"
  /\ Re.search Re.MODEL_RE "my WDT780SAEM1_x and KDFE104HPS" = Some "KDFE104HPS"
  /\ Re.search Re.MODEL_RE "A1234567 or AB1234" = None
  /\ Re.search Re.MODEL_RE "Is it compatible?" = Some "compatible"
  /\ Re.findall Re.PART_RE "PS1 and ps22, PS333PS4 PS" = ["PS1"; "ps22"; "PS333"; "PS4"].
Proof.
  repeat split; vm_compute; reflexivity.
Qed.

(** A repetition that must take a character matches a non-empty text. *)
Lemma rep_pos_nonempty cls k lo hi prev s g :
  Re.rep cls k (S lo) hi prev s = Some g -> g <> EmptyString.
Proof.
  destruct s as [|c s]; simpl; [discriminate|].
  destruct (cls c && Re.may_take hi); [|discriminate].
  destruct (Re.rep cls k lo (Re.dec hi) (Some c) s); [|discriminate].
  intros H. inversion H. discriminate.
Qed.

Lemma part_match_nonempty prev s g :
  Re.match_here Re.PART_RE prev s = Some g -> g <> EmptyString.
Proof.
  unfold Re.PART_RE, Re.once. cbn [Re.match_here]. apply rep_pos_nonempty.
Qed.

Lemma model_match_nonempty prev s g :
  Re.match_here Re.MODEL_RE prev s = Some g -> g <> EmptyString.
Proof.
  unfold Re.MODEL_RE. cbn [Re.match_here].
  destruct (Re.at_boundary prev s); [|discriminate].
  apply rep_pos_nonempty.
Qed.

Lemma search_from_match p prev s g :
  Re.search_from p prev s = Some g ->
  exists prev' s', Re.match_here p prev' s' = Some g.
Proof.
  revert prev. induction s as [|c s IH]; intros prev; cbn [Re.search_from].
  - destruct (Re.match_here p prev EmptyString) eqn:E; [|discriminate].
    intros H. inversion H. subst. eauto.
  - destruct (Re.match_here p prev (String c s)) eqn:E.
    + intros H. inversion H. subst. eauto.
    + apply IH.
Qed.

Lemma part_search_nonempty s g :
  Re.search Re.PART_RE s = Some g -> g <> EmptyString.
Proof.
  intros H. apply search_from_match in H. destruct H as [prev [s' H]].
  eapply part_match_nonempty; eauto.
Qed.

Lemma model_search_nonempty s g :
  Re.search Re.MODEL_RE s = Some g -> g <> EmptyString.
Proof.
  intros H. apply search_from_match in H. destruct H as [prev [s' H]].
  eapply model_match_nonempty; eauto.
Qed.

Lemma part_hit_truthy turn x :
  Spec.part_hit turn = Some x -> truthy (Some x) = true.
Proof.
  unfold Spec.part_hit.
  destruct (Re.search Re.PART_RE (get_content turn)) eqn:E; [|discriminate].
  intros H. inversion H. subst.
  apply truthy_nonempty, upper_nonempty. eapply part_search_nonempty; eauto.
Qed.

Lemma model_hit_truthy turn x :
  Spec.model_hit turn = Some x -> truthy (Some x) = true.
Proof.
  unfold Spec.model_hit.
  destruct (Re.search Re.MODEL_RE (get_content turn)) eqn:E; [|discriminate].
  destruct (startswith "PS" (upper s)); [discriminate|].
  intros H. inversion H. subst.
  apply truthy_nonempty, upper_nonempty. eapply model_search_nonempty; eauto.
Qed.

(** A string that is a part identifier starts with PS once uppercased. *)
Lemma part_identifier_starts_PS (s : string) :
  Spec.is_part_identifier s = true -> startswith "PS" (upper s) = true.
Proof.
  unfold Spec.is_part_identifier, Re.PART_RE, Re.once. cbn [Re.match_here].
  destruct s as [|c1 s]; [discriminate|].
  cbn [Re.rep Re.may_take Re.dec option_map pred Nat.eqb].
  destruct (Re.ci "P" c1) eqn:E1; cbn [andb]; [|discriminate].
  destruct s as [|c2 s]; [discriminate|].
  cbn [Re.rep Re.may_take Re.dec option_map pred Nat.eqb andb].
  rewrite andb_false_r.
  destruct (Re.ci "S" c2) eqn:E2; cbn [andb]; [|discriminate].
  intros _. unfold Re.ci in E1, E2.
  apply Ascii.eqb_eq in E1. apply Ascii.eqb_eq in E2.
  change (upper (String c1 (String c2 s)))
    with (String (upper_char c1) (String (upper_char c2) (upper s))).
  rewrite E1, E2. reflexivity.
Qed.

End StringFacts.

(** ** Matches are never empty *)

Section Matches.

Lemma findall_part_nonempty s : forall prev skip m,
  In m (Re.findall_from Re.PART_RE prev s skip) -> m <> EmptyString.
Proof.
  induction s as [|c s IH]; intros prev skip m; cbn [Re.findall_from].
  - destruct skip; [|contradiction].
    destruct (Re.match_here Re.PART_RE prev EmptyString) as [g|] eqn:E;
      [|contradiction].
    intros [H|[]]. subst. eapply part_match_nonempty; eauto.
  - destruct skip as [|n]; [|apply IH].
    destruct (Re.match_here Re.PART_RE prev (String c s)) as [g|] eqn:E;
      [|apply IH].
    intros [H|H]; [|eapply IH; eauto].
    subst. eapply part_match_nonempty; eauto.
Qed.

Lemma last_In {A : Type} (l : list A) (d : A) : l <> [] -> In (last l d) l.
Proof.
  induction l as [|x l IH]; [congruence|]. intros _.
  destruct l as [|y l]; [now left|].
  right. apply IH. discriminate.
Qed.

Lemma last_upper_part_truthy content m :
  ProductSearch.last_upper (Re.findall Re.PART_RE content) = Some m ->
  truthy (Some m) = true.
Proof.
  unfold ProductSearch.last_upper, Re.findall.
  destruct (Re.findall_from Re.PART_RE None content 0) as [|g gs] eqn:E;
    [discriminate|].
  intros H.
  assert (Hm : m = upper (last (g :: gs) EmptyString)) by congruence.
  subst m. apply truthy_nonempty, upper_nonempty.
  apply (findall_part_nonempty content None 0). rewrite E.
  apply last_In. discriminate.
Qed.

Lemma scan_part_truthy window : forall context,
  (forall x, ProductSearch.ctx_part_number context = Some x ->
             truthy (Some x) = true) ->
  forall x,
    ProductSearch.ctx_part_number
      (fold_left ProductSearch.scan_message window context) = Some x ->
    truthy (Some x) = true.
Proof.
  induction window as [|t window IH]; intros context Hctx; cbn [fold_left];
    [exact Hctx|].
  apply IH. intros x. unfold ProductSearch.scan_message.
  cbn [ProductSearch.ctx_part_number].
  destruct (ProductSearch.last_upper (Re.findall Re.PART_RE (get_content t)))
    as [m|] eqn:E; [|apply Hctx].
  destruct (negb (truthy (ProductSearch.ctx_part_number context))); [|apply Hctx].
  intros H. inversion H. subst. eapply last_upper_part_truthy; eauto.
Qed.

(** A part number recovered from the history is never empty. *)
Lemma context_part_truthy list_of_set user_query conversation_history x :
  ProductSearch.ctx_part_number
    (ProductSearch.extract_context_from_history list_of_set user_query conversation_history)
  = Some x ->
  truthy (Some x) = true.
Proof.
  unfold ProductSearch.extract_context_from_history.
  destruct conversation_history as [|m rest]; [discriminate|].
  cbn [ProductSearch.ctx_part_number]. apply scan_part_truthy. discriminate.
Qed.


Lemma product_scan_part context turn :
  ProductSearch.ctx_part_number (ProductSearch.scan_message context turn)
  = if truthy (ProductSearch.ctx_part_number context)
    then ProductSearch.ctx_part_number context
    else match Spec.last_part_hit turn with
         | Some x => Some x
         | None => ProductSearch.ctx_part_number context
         end.
Proof.
  unfold ProductSearch.scan_message, Spec.last_part_hit, ProductSearch.last_upper.
  cbn [ProductSearch.ctx_part_number].
  destruct (Re.findall Re.PART_RE (get_content turn));
    destruct (truthy (ProductSearch.ctx_part_number context)); reflexivity.
Qed.

Lemma last_part_hit_truthy turn x :
  Spec.last_part_hit turn = Some x -> truthy (Some x) = true.
Proof.
  intros H. apply (last_upper_part_truthy (get_content turn)).
  rewrite <- H. unfold ProductSearch.last_upper, Spec.last_part_hit.
  destruct (Re.findall Re.PART_RE (get_content turn)); reflexivity.
Qed.

Lemma product_fold_scan_part window : forall context,
  ProductSearch.ctx_part_number context = None ->
  ProductSearch.ctx_part_number (fold_left ProductSearch.scan_message window context)
  = Spec.earliest Spec.last_part_hit window.
Proof.
  induction window as [|turn window IH]; intros context Hnone;
    cbn [fold_left Spec.earliest].
  - exact Hnone.
  - destruct (Spec.last_part_hit turn) as [x|] eqn:Hit.
    + assert (Hx : ProductSearch.ctx_part_number
                     (ProductSearch.scan_message context turn) = Some x).
      { rewrite product_scan_part, Hnone, Hit. reflexivity. }
      clear IH. revert Hx. generalize (ProductSearch.scan_message context turn).
      induction window as [|t window IH]; intros c Hx; cbn [fold_left]; [exact Hx|].
      apply IH. rewrite product_scan_part, Hx.
      now rewrite (last_part_hit_truthy turn x Hit).
    + apply IH. rewrite product_scan_part, Hnone, Hit. reflexivity.
Qed.

End Matches.

(** ** Entity extraction *)

Section Extraction.

Import Compatibility.

(** History scanning never keeps a model number that starts with PS. *)
Lemma scan_message_model_not_PS context message :
  (forall x, ctx_model_number context = Some x -> startswith "PS" x = false) ->
  forall x, ctx_model_number (scan_message context message) = Some x ->
            startswith "PS" x = false.
Proof.
  intros Hctx x. unfold scan_message.
  set (context1 := if negb (truthy (ctx_part_number context)) then _ else _).
  assert (H1 : ctx_model_number context1 = ctx_model_number context).
  { subst context1. destruct (negb (truthy (ctx_part_number context))); [|reflexivity].
    destruct (Re.search Re.PART_RE (get_content message)); reflexivity. }
  destruct (negb (truthy (ctx_model_number context1))).
  - destruct (Re.search Re.MODEL_RE (get_content message)) as [g|].
    + destruct (startswith "PS" (upper g)) eqn:E; cbn [negb].
      * rewrite H1. apply Hctx.
      * cbn [ctx_model_number]. intros H. inversion H. now subst.
    + rewrite H1. apply Hctx.
  - rewrite H1. apply Hctx.
Qed.

Lemma fold_scan_model_not_PS window : forall context,
  (forall x, ctx_model_number context = Some x -> startswith "PS" x = false) ->
  forall x, ctx_model_number (fold_left scan_message window context) = Some x ->
            startswith "PS" x = false.
Proof.
  induction window as [|m window IH]; intros context Hctx; cbn [fold_left].
  - exact Hctx.
  - apply IH. now apply scan_message_model_not_PS.
Qed.

(** The exclusion invariant holds on the history path: the model number
    recovered from the history is never a part identifier. *)
Lemma extract_from_history_excludes_parts history x :
  ctx_model_number (extract_from_history history) = Some x ->
  Spec.is_part_identifier x = false.
Proof.
  intros H.
  assert (Hps : startswith "PS" x = false).
  { revert H. unfold extract_from_history. destruct history as [|m rest].
    - discriminate.
    - apply fold_scan_model_not_PS. discriminate. }
  assert (Hup : upper x = x).
  { revert H. unfold extract_from_history. destruct history as [|m rest].
    - discriminate.
    - generalize (last_n 4 (m :: rest)). intros window.
      assert (G : forall context,
                 (forall y, ctx_model_number context = Some y -> upper y = y) ->
                 ctx_model_number (fold_left scan_message window context) = Some x ->
                 upper x = x).
      { induction window as [|t window IH]; intros context Hc; cbn [fold_left].
        - apply Hc.
        - apply IH. intros y. unfold scan_message.
          set (context1 := if negb (truthy (ctx_part_number context)) then _ else _).
          assert (H1 : ctx_model_number context1 = ctx_model_number context).
          { subst context1.
            destruct (negb (truthy (ctx_part_number context))); [|reflexivity].
            destruct (Re.search Re.PART_RE (get_content t)); reflexivity. }
          destruct (negb (truthy (ctx_model_number context1))).
          + destruct (Re.search Re.MODEL_RE (get_content t)) as [g|].
            * destruct (negb (startswith "PS" (upper g))).
              -- cbn [ctx_model_number]. intros E. inversion E. apply upper_idem.
              -- rewrite H1. apply Hc.
            * rewrite H1. apply Hc.
          + rewrite H1. apply Hc. }
      apply G. discriminate. }
  destruct (Spec.is_part_identifier x) eqn:E; [|reflexivity].
  apply part_identifier_starts_PS in E. rewrite Hup in E. congruence.
Qed.

(** X5.  Single-message extraction has no exclusion step: when both
    patterns match, their first matches are returned as they are, and the
    completion service is not asked. *)
Lemma extract_part_and_model_no_exclusion :
  forall (chat_with_system : Client) (user_query g_part g_model : string),
    Re.search Re.PART_RE user_query = Some g_part ->
    Re.search Re.MODEL_RE user_query = Some g_model ->
    extract_part_and_model chat_with_system user_query
    = Ok (mkContext (Some (upper g_part)) (Some (upper g_model))).
Proof.
  intros chat_with_system user_query g_part g_model Hpart Hmodel.
  unfold extract_part_and_model. rewrite Hpart, Hmodel. cbn [option_map].
  rewrite (truthy_nonempty _ (upper_nonempty _ (part_search_nonempty _ _ Hpart))).
  rewrite (truthy_nonempty _ (upper_nonempty _ (model_search_nonempty _ _ Hmodel))).
  reflexivity.
Qed.

(** C1 (code defect).  On the design document's own end-to-end query,
    single-message extraction returns the part identifier PS11752778 as the
    model number, whatever the completion service would answer: the first
    match of the model pattern is the part number, and
    [extract_part_and_model] has no exclusion step. *)
Theorem extract_part_and_model_keeps_part_as_model :
  forall chat_with_system : Client,
    extract_part_and_model chat_with_system Samples.end_to_end_query
    = Ok (mkContext (Some "PS11752778") (Some "PS11752778"))
    /\ Spec.is_part_identifier "PS11752778" = true.
Proof.
  intros chat_with_system. split; vm_compute; reflexivity.
Qed.

(** The defect reaches the verdict: the catalog lists WDT780SAEM1 for the
    part, and the handler answers that the part is not compatible. *)
Example end_to_end_verdict :
  forall chat_with_system : Client,
    option_map r_compatible
      (match handle_query chat_with_system Samples.catalog
                          Samples.end_to_end_query None None [] with
       | Ok r => Some r
       | Raise _ => None
       end) = Some (Some false).
Proof.
  intros. vm_compute. reflexivity.
Qed.

(** The loop of the compatibility agent keeps, per field, the hit of the
    earliest turn that has one. *)
Lemma scan_message_part context turn :
  ctx_part_number (scan_message context turn)
  = if truthy (ctx_part_number context) then ctx_part_number context
    else match Spec.part_hit turn with
         | Some x => Some x
         | None => ctx_part_number context
         end.
Proof.
  unfold scan_message, Spec.part_hit.
  set (context1 := if negb (truthy (ctx_part_number context)) then _ else _).
  assert (H1 : ctx_part_number context1
               = if truthy (ctx_part_number context) then ctx_part_number context
                 else match option_map upper (Re.search Re.PART_RE (get_content turn)) with
                      | Some x => Some x
                      | None => ctx_part_number context
                      end).
  { subst context1. destruct (truthy (ctx_part_number context)); cbn [negb]; [reflexivity|].
    destruct (Re.search Re.PART_RE (get_content turn)); reflexivity. }
  rewrite <- H1.
  destruct (negb (truthy (ctx_model_number context1))); [|reflexivity].
  destruct (Re.search Re.MODEL_RE (get_content turn)) as [g|]; [|reflexivity].
  destruct (negb (startswith "PS" (upper g))); reflexivity.
Qed.

Lemma scan_message_model context turn :
  ctx_model_number (scan_message context turn)
  = if truthy (ctx_model_number context) then ctx_model_number context
    else match Spec.model_hit turn with
         | Some x => Some x
         | None => ctx_model_number context
         end.
Proof.
  unfold scan_message, Spec.model_hit.
  set (context1 := if negb (truthy (ctx_part_number context)) then _ else _).
  assert (H1 : ctx_model_number context1 = ctx_model_number context).
  { subst context1. destruct (negb (truthy (ctx_part_number context))); [|reflexivity].
    destruct (Re.search Re.PART_RE (get_content turn)); reflexivity. }
  rewrite H1.
  destruct (truthy (ctx_model_number context)); cbn [negb]; [exact H1|].
  destruct (Re.search Re.MODEL_RE (get_content turn)) as [g|]; [|exact H1].
  destruct (startswith "PS" (upper g)); cbn [negb]; [exact H1|reflexivity].
Qed.

Lemma fold_scan_part window : forall context,
  ctx_part_number context = None ->
  ctx_part_number (fold_left scan_message window context)
  = Spec.earliest Spec.part_hit window.
Proof.
  induction window as [|turn window IH]; intros context Hnone; cbn [fold_left Spec.earliest].
  - exact Hnone.
  - destruct (Spec.part_hit turn) as [x|] eqn:Hit.
    + assert (Hx : ctx_part_number (scan_message context turn) = Some x).
      { rewrite scan_message_part, Hnone, Hit. reflexivity. }
      clear IH. revert Hx. generalize (scan_message context turn).
      induction window as [|t window IH]; intros c Hx; cbn [fold_left]; [exact Hx|].
      apply IH. rewrite scan_message_part, Hx.
      now rewrite (part_hit_truthy turn x Hit).
    + apply IH. rewrite scan_message_part, Hnone, Hit. reflexivity.
Qed.

Lemma fold_scan_model window : forall context,
  ctx_model_number context = None ->
  ctx_model_number (fold_left scan_message window context)
  = Spec.earliest Spec.model_hit window.
Proof.
  induction window as [|turn window IH]; intros context Hnone; cbn [fold_left Spec.earliest].
  - exact Hnone.
  - destruct (Spec.model_hit turn) as [x|] eqn:Hit.
    + assert (Hx : ctx_model_number (scan_message context turn) = Some x).
      { rewrite scan_message_model, Hnone, Hit. reflexivity. }
      clear IH. revert Hx. generalize (scan_message context turn).
      induction window as [|t window IH]; intros c Hx; cbn [fold_left]; [exact Hx|].
      apply IH. rewrite scan_message_model, Hx.
      now rewrite (model_hit_truthy turn x Hit).
    + apply IH. rewrite scan_message_model, Hnone, Hit. reflexivity.
Qed.



(** The product search agent also reads the last four turns in
    chronological order: its part number comes from the earliest turn of
    the window in which the part pattern matches. *)
Lemma product_search_history_scan :
  forall (list_of_set : list string -> list string) (user_query : string)
         (history : list Message),
    ProductSearch.ctx_part_number
      (ProductSearch.extract_context_from_history list_of_set user_query history)
    = Spec.earliest Spec.last_part_hit (last_n 4 history).
Proof.
  intros list_of_set user_query history.
  unfold ProductSearch.extract_context_from_history.
  destruct history as [|m rest]; [reflexivity|].
  cbn [ProductSearch.ctx_part_number]. now apply product_fold_scan_part.
Qed.


(** The example of the design document on the compatibility agent and on
    the product search agent. *)
Example compatibility_history_earliest_wins :
  ctx_part_number (extract_from_history Samples.two_turns) = Some "PS100"
  /\ ProductSearch.ctx_part_number
       (ProductSearch.extract_context_from_history (fun l => l) "similar parts"
                                                   Samples.two_turns)
     = Some "PS100".
Proof.
  split; vm_compute; reflexivity.
Qed.

(** Turns before the last four are not read. *)
Example history_window_is_four_turns :
  ctx_part_number
    (extract_from_history
       (Samples.user_says "I have PS1" :: repeat (Samples.user_says "ok") 4))
  = None
  /\ Installation.extract_part_from_history
       (Samples.user_says "I have PS1" :: repeat (Samples.user_says "ok") 4)
     = None.
Proof.
  split; vm_compute; reflexivity.
Qed.


End Extraction.

(** ** Completion failures inside the handlers *)

Section CompletionFailure.

(** C3 (code defect).  The troubleshooting handler calls
    [generate_response] outside any [try]: once the search has found
    candidate parts, and their symptoms are recorded so that the prompt can
    be built and the completion service is called, a failure of the
    service is raised to the caller and the candidates are lost. *)
Theorem troubleshooting_raises_on_completion_failure :
  forall (vector_store : VectorStore) (db : list Part) (user_query : string)
         (conversation_history : list Message) (e : exn),
    Troubleshooting.diagnose_problem vector_store db user_query
      (Troubleshooting.ctx_appliance_type
         (Troubleshooting.extract_context_from_history user_query conversation_history))
    <> [] ->
    forallb Troubleshooting.symptoms_recorded
            (firstn 3
               (Troubleshooting.diagnose_problem vector_store db user_query
                  (Troubleshooting.ctx_appliance_type
                     (Troubleshooting.extract_context_from_history
                        user_query conversation_history))))
    = true ->
    Troubleshooting.handle_query (fun _ _ => Raise e) vector_store db
                                 user_query conversation_history
    = Raise e.
Proof.
  intros vector_store db user_query conversation_history e Hparts Hsymptoms.
  unfold Troubleshooting.handle_query, Troubleshooting.generate_response.
  destruct (Troubleshooting.diagnose_problem _ _ _ _) as [|d ds]; [congruence|].
  rewrite Hsymptoms. reflexivity.
Qed.

(** The failing input: a candidate part with recorded symptoms is found,
    and the completion service is down. *)
Lemma troubleshooting_raises_on_completion_failure_witness :
  Troubleshooting.diagnose_problem (fun _ _ _ => ["PS11752778"]) Samples.catalog
                                   "my ice maker is not working" None
  = [to_dict Samples.ice_maker]
  /\ d_common_symptoms (to_dict Samples.ice_maker) = Some ["not making ice"]
  /\ Troubleshooting.handle_query Samples.failing_client
                                  (fun _ _ _ => ["PS11752778"]) Samples.catalog
                                  "my ice maker is not working" []
     = Raise RequestException.
Proof.
  split; [vm_compute; reflexivity|]. split; [reflexivity|].
  apply (troubleshooting_raises_on_completion_failure
           (fun _ _ _ => ["PS11752778"]) Samples.catalog
           "my ice maker is not working" [] RequestException).
  - vm_compute. discriminate.
  - vm_compute. reflexivity.
Defined.

(** X20.  The product search handler has the same shape: with no history,
    a search that is no meta-query and finds a part hands the failure of
    the completion service on to its caller. *)
Lemma product_search_raises_on_completion_failure :
  forall (vector_store : VectorStore) (db : list Part)
         (list_of_set : list string -> list string)
         (user_query : string) (category : option string) (e : exn),
    ProductSearch.is_meta_query user_query = false ->
    ProductSearch.standard_search vector_store db user_query
      (if negb (truthy category)
       then ProductSearch.extract_category_from_query user_query
       else category) <> [] ->
    ProductSearch.handle_query (fun _ _ => Raise e) vector_store db list_of_set
                               user_query category []
    = Raise e.
Proof.
  intros vector_store db list_of_set user_query category e Hmeta Hparts.
  unfold ProductSearch.handle_query.
  cbn [ProductSearch.extract_context_from_history ProductSearch.ctx_category
       ProductSearch.ctx_part_number ProductSearch.ctx_keywords length].
  rewrite Hmeta.
  cbn [truthy andb Nat.eqb negb].
  rewrite !andb_false_r.
  set (cat := if negb (truthy category) then _ else category) in *.
  change (ProductSearch.search_parts vector_store db user_query cat None)
    with (ProductSearch.standard_search vector_store db user_query cat).
  unfold ProductSearch.generate_response.
  destruct (ProductSearch.standard_search vector_store db user_query cat); [congruence|].
  reflexivity.
Qed.

(** X15.  The installation handler does fall back: once the part and its
    steps are known, it answers from a template when the completion
    service fails, and the answer carries the recorded steps. *)
Lemma installation_falls_back_to_template :
  forall (vector_store : option VectorStore) (db : list Part)
         (user_query pn : string) (conversation_history : list Message)
         (instructions : Installation.Instructions) (e : exn),
    pn <> EmptyString ->
    any_in Router.duration_keywords (lower user_query) = false ->
    Installation.get_installation_instructions db pn = Some instructions ->
    Installation.i_steps instructions <> [] ->
    Installation.handle_query (fun _ _ => Raise e) vector_store db
                              user_query (Some pn) conversation_history
    = Ok (Installation.fallback_guide instructions pn)
    /\ Installation.r_steps (Installation.fallback_guide instructions pn)
       = Some (Installation.i_steps instructions).
Proof.
  intros vector_store db user_query pn conversation_history instructions e
         Hpn Hkw Hins Hsteps.
  split; [|reflexivity].
  unfold Installation.handle_query, Installation.resolve_part.
  rewrite (truthy_nonempty pn Hpn). cbn [negb bind].
  assert (Hres : (match conversation_history with
                  | [] => Ok (Some pn)
                  | _ :: _ => if false
                              then Ok (Installation.extract_part_from_history
                                         conversation_history)
                              else Ok (Some pn)
                  end) = Ok (Some pn)).
  { destruct conversation_history; reflexivity. }
  rewrite (truthy_nonempty pn Hpn) in *. cbn [negb].
  rewrite Hres. cbn [bind]. rewrite Hkw.
  rewrite (truthy_nonempty pn Hpn). cbn [negb str_val]. rewrite Hins.
  destruct (Installation.i_steps instructions) eqn:E; [congruence|].
  reflexivity.
Qed.

End CompletionFailure.

(** ** Routing *)

Section Routing.

Import Router.

Lemma valid_category_In (category : string) :
  existsb (String.eqb category) valid_categories = true
  <-> In category valid_categories.
Proof.
  rewrite existsb_exists. split.
  - intros [x [Hin Hx]]. apply String.eqb_eq in Hx. now subst.
  - intros Hin. exists category. split; [assumption | apply String.eqb_refl].
Qed.

Lemma validate_valid (response : string) :
  In (validate response) valid_categories.
Proof.
  unfold validate.
  destruct (existsb (String.eqb (upper (strip response))) valid_categories) eqn:E.
  - now apply valid_category_In.
  - simpl. auto.
Qed.

Lemma validate_unrecognised (response : string) :
  ~ In (upper (strip response)) valid_categories ->
  validate response = "PRODUCT_SEARCH".
Proof.
  intros Hnot. unfold validate.
  destruct (existsb (String.eqb (upper (strip response))) valid_categories) eqn:E;
    [|reflexivity].
  apply valid_category_In in E. contradiction.
Qed.





(** The two examples of the design document. *)
Example route_bare_duration_question :
  has_part_id "how long does installation take" = false
  /\ route Samples.failing_client "how long does installation take" []
     = Raise RequestException
  /\ route (Samples.echo_client "TROUBLESHOOTING")
           "how long does installation take" []
     = Ok "TROUBLESHOOTING".
Proof.
  repeat split; vm_compute; reflexivity.
Qed.

Example route_duration_with_context :
  route Samples.failing_client "How long will it take?"
        [Samples.user_says "I ordered ps11752778"]
  = Ok "INSTALLATION_HELP".
Proof.
  vm_compute. reflexivity.
Qed.

(** C5.  Whatever the completion service replies, the router returns one
    of the six intents, and a reply that is not one of the six tokens once
    stripped and uppercased comes out as PRODUCT_SEARCH. *)
Theorem route_total :
  forall (chat_with_system : Client) (user_message : string)
         (conversation_history : list Message) (reply : string),
    chat_with_system RouterPrompt user_message = Ok reply ->
    (exists category,
        route chat_with_system user_message conversation_history = Ok category
        /\ (category = "PRODUCT_SEARCH" \/ category = "COMPATIBILITY_CHECK"
            \/ category = "INSTALLATION_HELP" \/ category = "TROUBLESHOOTING"
            \/ category = "ORDER_SUPPORT" \/ category = "OUT_OF_SCOPE"))
    /\ (time_query_with_context user_message conversation_history = false ->
        explicit_install_query user_message = false ->
        (In (upper (strip reply)) valid_categories ->
         route chat_with_system user_message conversation_history
         = Ok (upper (strip reply)))
        /\ (~ In (upper (strip reply)) valid_categories ->
            route chat_with_system user_message conversation_history
            = Ok "PRODUCT_SEARCH")).
Proof.
  intros chat_with_system user_message conversation_history reply Hreply.
  unfold route. rewrite Hreply. cbn [bind]. split.
  - destruct (time_query_with_context user_message conversation_history);
      [eexists; split; [reflexivity | tauto]|].
    destruct (explicit_install_query user_message);
      [eexists; split; [reflexivity | tauto]|].
    exists (validate reply). split; [reflexivity|].
    pose proof (validate_valid reply) as Hin. simpl in Hin.
    intuition congruence.
  - intros Ht Hi. rewrite Ht, Hi. split.
    + intros Hin. unfold validate.
      apply valid_category_In in Hin. now rewrite Hin.
    + intros Hnot. now rewrite validate_unrecognised.
Qed.

Lemma route_total_witness :
  Samples.echo_client "I think PRODUCT_SEARCH fits" RouterPrompt
                      "my fridge is broken"
  = Ok "I think PRODUCT_SEARCH fits"
  /\ route (Samples.echo_client "I think PRODUCT_SEARCH fits")
           "my fridge is broken" []
     = Ok "PRODUCT_SEARCH".
Proof.
  split; [reflexivity|].
  destruct (route_total (Samples.echo_client "I think PRODUCT_SEARCH fits")
                        "my fridge is broken" [] "I think PRODUCT_SEARCH fits"
                        eq_refl) as [_ Hrest].
  apply Hrest; [vm_compute; reflexivity | vm_compute; reflexivity |].
  vm_compute. intros H.
  repeat (destruct H as [H|H]; [discriminate|]). exact H.
Defined.

Example route_lowercase_reply :
  route (Samples.echo_client (" troubleshooting" ++ NL)) "my fridge is broken" []
  = Ok "TROUBLESHOOTING".
Proof.
  vm_compute. reflexivity.
Qed.

End Routing.

(** ** The compatibility handler *)

Section CompatibilityHandler.

Import Compatibility.

Lemma find_part_absent (db : list Part) (pn : string) :
  (forall p, In p db -> part_number p <> pn) -> find_part db pn = None.
Proof.
  unfold find_part. induction db as [|p db IH]; intros Habs; cbn [find]; [reflexivity|].
  destruct (String.eqb (part_number p) pn) eqn:E.
  - apply String.eqb_eq in E. exfalso. apply (Habs p); [now left | assumption].
  - apply IH. intros q Hq. apply Habs. now right.
Qed.

Lemma find_part_found (db : list Part) (pn : string) (p : Part) :
  find_part db pn = Some p -> In p db /\ part_number p = pn.
Proof.
  unfold find_part. intros H. apply find_some in H. destruct H as [Hin Heq].
  split; [assumption | now apply String.eqb_eq].
Qed.

(** Membership of the uppercased model number in the uppercased list. *)
Lemma ci_member (mn : string) (models : list string) :
  existsb (String.eqb (upper mn)) (map upper models) = true
  <-> exists m, In m models /\ upper m = upper mn.
Proof.
  rewrite existsb_exists. split.
  - intros [x [Hin Hx]]. apply in_map_iff in Hin. destruct Hin as [m [Hm Hin]].
    apply String.eqb_eq in Hx. exists m. split; [assumption | congruence].
  - intros [m [Hin Hm]]. exists (upper m). split.
    + now apply in_map.
    + rewrite Hm. apply String.eqb_refl.
Qed.

(** C6.  An identifier the catalog does not have gives PART_NOT_FOUND, no
    verdict, and a message that carries the identifier.  For a part of the
    catalog the verdict is true exactly when the model number is in the
    part's list of compatible models up to case, and a negative verdict
    comes with the first five models of that list. *)
Theorem check_compatibility_verdict :
  forall (db : list Part) (pn mn : string),
    let result := check_compatibility db pn mn in
    ((forall p, In p db -> part_number p <> pn) ->
     compatible result = None
     /\ error result = Some "PART_NOT_FOUND"
     /\ explanation result = "Part number " ++ pn ++ " not found in our database.")
    /\ (forall p, find_part db pn = Some p ->
         error result = None
         /\ (compatible result = Some true
             <-> exists m, In m (compatible_models p) /\ upper m = upper mn)
         /\ (compatible result <> Some true ->
             compatible result = Some false
             /\ suggested_models result = Some (firstn 5 (compatible_models p))
             /\ length (firstn 5 (compatible_models p)) <= 5)).
Proof.
  intros db pn mn result. subst result. unfold check_compatibility. split.
  - intros Habs. rewrite (find_part_absent db pn Habs). repeat split.
  - intros p Hfound. rewrite Hfound.
    destruct (existsb (String.eqb (upper mn)) (map upper (compatible_models p))) eqn:E.
    + apply ci_member in E. cbn [error compatible].
      split; [reflexivity|]. split; [tauto|]. intros Hne. now contradiction Hne.
    + cbn [error compatible suggested_models].
      split; [reflexivity|]. split; [split|].
      * discriminate.
      * intros Hex. apply ci_member in Hex. congruence.
      * intros _. repeat split. apply firstn_le_length.
Qed.

Lemma check_compatibility_verdict_witness :
  find_part [Samples.ps100] "PS100" = Some Samples.ps100
  /\ compatible (check_compatibility [Samples.ps100] "PS100" "MODEL_C") = Some false
  /\ suggested_models (check_compatibility [Samples.ps100] "PS100" "MODEL_C")
     = Some ["MODEL_A"; "MODEL_B"].
Proof.
  split; [reflexivity|].
  destruct (check_compatibility_verdict [Samples.ps100] "PS100" "MODEL_C")
    as [_ Hfound].
  destruct (Hfound Samples.ps100 eq_refl) as [_ [_ Hneg]].
  destruct Hneg as [Hfalse [Hmodels _]]; [vm_compute; discriminate|].
  split; [exact Hfalse | exact Hmodels].
Defined.

(** The examples of the design document. *)
Example check_ps100 :
  compatible (check_compatibility [Samples.ps100] "PS100" "MODEL_A") = Some true
  /\ compatible (check_compatibility [Samples.ps100] "PS100" "model_b") = Some true
  /\ compatible (check_compatibility [Samples.ps100] "PS100" "MODEL_C") = Some false
  /\ suggested_models (check_compatibility [Samples.ps100] "PS100" "MODEL_C")
     = Some ["MODEL_A"; "MODEL_B"]
  /\ compatible (check_compatibility [Samples.ps100] "PS_UNKNOWN" "MODEL_A") = None
  /\ error (check_compatibility [Samples.ps100] "PS_UNKNOWN" "MODEL_A")
     = Some "PART_NOT_FOUND".
Proof.
  repeat split; vm_compute; reflexivity.
Qed.

(** C7.  When the resolution chain ends with an identifier missing, the
    handler answers without a verdict, with a code that tells which
    identifier is missing and a text to show; the answer is the same
    whatever the catalog holds. *)
Theorem handle_query_missing_entities :
  forall (chat_with_system : Client) (user_query : string)
         (part_number model_number : option string)
         (conversation_history : list Message) (pn mn : option string),
    resolve chat_with_system user_query part_number model_number
            conversation_history = Ok (pn, mn) ->
    truthy pn && truthy mn = false ->
    exists reply,
      (forall db : list Part,
          handle_query chat_with_system db user_query part_number model_number
                       conversation_history = Ok reply)
      /\ r_compatible reply = None
      /\ response reply <> EmptyString
      /\ (truthy pn = false -> truthy mn = false ->
          r_error reply = Some "MISSING_BOTH")
      /\ (truthy pn = false -> truthy mn = true ->
          r_error reply = Some "MISSING_PART_NUMBER")
      /\ (truthy pn = true -> truthy mn = false ->
          r_error reply = Some "MISSING_MODEL_NUMBER").
Proof.
  intros chat_with_system user_query part_number model_number
         conversation_history pn mn Hres Hmiss.
  unfold handle_query. rewrite Hres. cbn [bind fst snd]. unfold answer.
  destruct (truthy pn) eqn:Hp, (truthy mn) eqn:Hm; cbn [negb andb];
    try discriminate.
  - exists (missing_model_number pn). repeat split; try discriminate.
  - exists (missing_part_number mn). repeat split; try discriminate.
  - exists missing_both. repeat split; try discriminate.
Qed.

Lemma handle_query_missing_entities_witness :
  resolve (Samples.echo_client ("PART_NUMBER: NONE" ++ NL ++ "MODEL_NUMBER: NONE"))
          "Does it fit?" None None []
  = Ok (None, None)
  /\ exists reply,
      (forall db : list Part,
          handle_query
            (Samples.echo_client ("PART_NUMBER: NONE" ++ NL ++ "MODEL_NUMBER: NONE"))
            db "Does it fit?" None None [] = Ok reply)
      /\ r_error reply = Some "MISSING_BOTH".
Proof.
  split; [vm_compute; reflexivity|].
  destruct (handle_query_missing_entities
              (Samples.echo_client ("PART_NUMBER: NONE" ++ NL ++ "MODEL_NUMBER: NONE"))
              "Does it fit?" None None [] None None)
    as [reply [Hreply [_ [_ [Hboth _]]]]];
    [vm_compute; reflexivity | reflexivity |].
  exists reply. split; [exact Hreply | now apply Hboth].
Defined.

(** The resolution itself may fail: the completion call of
    [extract_part_and_model] is not wrapped in a [try]. *)
Example resolution_failure_is_raised :
  handle_query Samples.failing_client [] "Does it fit?" None None []
  = Raise RequestException.
Proof.
  vm_compute. reflexivity.
Qed.

Lemma generate_response_pure (result : CheckResult) :
  exists text, forall user_query, generate_response result user_query = Ok text.
Proof.
  unfold generate_response.
  destruct (opt_is (error result) "PART_NOT_FOUND"); [eexists; reflexivity|].
  destruct (compatible result) as [[|]|]; eexists; reflexivity.
Qed.

(** C10.  With both identifiers given as arguments the answer is a
    function of the identifiers and the catalog: it is the same for every
    completion service (a failing one included), every query text and
    every history, and its verdict is that of [check_compatibility]. *)
Theorem explicit_identifiers_decide :
  forall (db : list Part) (pn mn : string),
    pn <> EmptyString -> mn <> EmptyString ->
    exists reply,
      r_compatible reply = compatible (check_compatibility db pn mn)
      /\ forall (chat_with_system : Client) (user_query : string)
                (conversation_history : list Message),
          handle_query chat_with_system db user_query (Some pn) (Some mn)
                       conversation_history = Ok reply.
Proof.
  intros db pn mn Hpn Hmn.
  pose proof (truthy_nonempty pn Hpn) as Tp.
  pose proof (truthy_nonempty mn Hmn) as Tm.
  assert (Hres : forall chat_with_system user_query conversation_history,
             resolve chat_with_system user_query (Some pn) (Some mn)
                     conversation_history = Ok (Some pn, Some mn)).
  { intros. unfold resolve. rewrite Tp, Tm. cbn [negb orb bind].
    destruct conversation_history; [reflexivity|].
    rewrite Tp, Tm. reflexivity. }
  destruct (generate_response_pure (check_compatibility db pn mn)) as [text Htext].
  destruct (opt_is (error (check_compatibility db pn mn)) "PART_NOT_FOUND") eqn:E.
  - exists (part_not_found pn mn). split.
    + cbn [r_compatible part_not_found]. revert E. unfold check_compatibility.
      destruct (find_part db pn); [|reflexivity].
      destruct (existsb _ _); discriminate.
    + intros. unfold handle_query. rewrite Hres. cbn [bind fst snd].
      unfold answer. rewrite Tp, Tm. cbn [negb andb]. now rewrite E.
  - eexists. split.
    2:{ intros. unfold handle_query. rewrite Hres. cbn [bind fst snd].
        unfold answer. rewrite Tp, Tm. cbn [negb andb]. rewrite E, Htext.
        cbn [try_except bind]. reflexivity. }
    reflexivity.
Qed.

Lemma explicit_identifiers_decide_witness :
  "PS11752778" <> EmptyString /\ "WDT780SAEM1" <> EmptyString
  /\ exists reply,
      r_compatible reply = Some true
      /\ handle_query Samples.failing_client Samples.catalog
                      "Will it fit?" (Some "PS11752778") (Some "WDT780SAEM1") []
         = Ok reply
      /\ handle_query (Samples.echo_client "PART_NUMBER: PS2") Samples.catalog
                      "Is PS100 compatible with MODEL_A?"
                      (Some "PS11752778") (Some "WDT780SAEM1") Samples.two_turns
         = Ok reply.
Proof.
  split; [discriminate|]. split; [discriminate|].
  destruct (explicit_identifiers_decide Samples.catalog "PS11752778" "WDT780SAEM1")
    as [reply [Hverdict Hsame]]; [discriminate | discriminate |].
  exists reply. split; [|split; apply Hsame].
  rewrite Hverdict. vm_compute. reflexivity.
Defined.

End CompatibilityHandler.

(** ** The installation handler *)

Section InstallationHandler.

Import Installation.

Lemma time_estimate_other (difficulty : string) :
  difficulty <> "Easy" -> difficulty <> "Moderate" -> difficulty <> "Difficult" ->
  time_estimate difficulty = "30-45 minutes".
Proof.
  intros H1 H2 H3. unfold time_estimate.
  apply String.eqb_neq in H1, H2, H3. now rewrite H1, H2, H3.
Qed.

(** C9.  A duration question about a part of the catalog gets its time
    estimate from the part's installation difficulty by the fixed table,
    with 30-45 minutes for any other value. *)
Theorem time_estimate_from_difficulty :
  forall (chat_with_system : Client) (vector_store : option VectorStore)
         (db : list Part) (user_query : string) (part_number : option string)
         (conversation_history : list Message) (pn : string) (p : Part),
    any_in Router.duration_keywords (lower user_query) = true ->
    resolve_part chat_with_system user_query part_number conversation_history
    = Ok (Some pn) ->
    pn <> EmptyString ->
    find_part db pn = Some p ->
    exists reply,
      handle_query chat_with_system vector_store db user_query part_number
                   conversation_history = Ok reply
      /\ r_error reply = None
      /\ (installation_difficulty p = Some "Easy" ->
          r_estimated_time reply = Some "10-20 minutes")
      /\ (installation_difficulty p = Some "Moderate" ->
          r_estimated_time reply = Some "30-60 minutes")
      /\ (installation_difficulty p = Some "Difficult" ->
          r_estimated_time reply = Some "1-2 hours")
      /\ (installation_difficulty p <> Some "Easy" ->
          installation_difficulty p <> Some "Moderate" ->
          installation_difficulty p <> Some "Difficult" ->
          r_estimated_time reply = Some "30-45 minutes").
Proof.
  intros chat_with_system vector_store db user_query part_number
         conversation_history pn p Hkw Hres Hpn Hfound.
  unfold handle_query. rewrite Hres. cbn [bind]. rewrite Hkw.
  unfold handle_time_estimate_query, get_installation_instructions.
  rewrite (truthy_nonempty pn Hpn). cbn [negb str_val]. rewrite Hfound.
  eexists. split; [reflexivity|]. cbn [r_error r_estimated_time i_difficulty].
  split; [reflexivity|].
  split; [intros H; rewrite H; reflexivity|].
  split; [intros H; rewrite H; reflexivity|].
  split; [intros H; rewrite H; reflexivity|].
  intros H1 H2 H3. f_equal.
  destruct (installation_difficulty p) as [[|c d]|]; cbn [truthy fmt_opt];
    try reflexivity.
  apply time_estimate_other; congruence.
Qed.

Lemma time_estimate_from_difficulty_witness :
  any_in Router.duration_keywords (lower "How long to install PS11752778?") = true
  /\ exists reply,
      handle_query Samples.failing_client None Samples.catalog
                   "How long to install PS11752778?" None [] = Ok reply
      /\ r_estimated_time reply = Some "10-20 minutes".
Proof.
  split; [vm_compute; reflexivity|].
  destruct (time_estimate_from_difficulty
              Samples.failing_client None Samples.catalog
              "How long to install PS11752778?" None []
              "PS11752778" Samples.ice_maker)
    as [reply [Hreply [_ [Heasy _]]]];
    [vm_compute; reflexivity | vm_compute; reflexivity | discriminate
     | vm_compute; reflexivity |].
  exists reply. split; [exact Hreply | now apply Heasy].
Defined.

(** A part whose difficulty is not recorded gets the default. *)
Example time_estimate_unrecorded_difficulty :
  option_map r_estimated_time
    (ok_value (handle_query Samples.failing_client None Samples.catalog
                            "time estimate for PS2 please" None []))
  = Some (Some "30-45 minutes").
Proof.
  vm_compute. reflexivity.
Qed.

End InstallationHandler.

(** ** The product search handler *)

Section ProductSearchHandler.

Import ProductSearch.

Lemma In_firstn {A : Type} (n : nat) (l : list A) (x : A) :
  In x (firstn n l) -> In x l.
Proof.
  intros H. rewrite <- (firstn_skipn n l). apply in_or_app. now left.
Qed.

Lemma load_parts_excludes (db : list Part) (ref : string) (results : list string)
      (d : PartDict) :
  In d (load_parts db (filter (fun pn => negb (String.eqb pn ref)) results)) ->
  d_part_number d <> ref.
Proof.
  unfold load_parts. intros H. apply in_flat_map in H.
  destruct H as [pn [Hpn Hd]]. apply filter_In in Hpn. destruct Hpn as [_ Hne].
  destruct (find_part db pn) as [p|] eqn:E; [|contradiction].
  destruct Hd as [Hd|[]]. subst d. cbn [to_dict d_part_number].
  apply find_part_found in E. destruct E as [_ E]. rewrite E.
  apply negb_true_iff, String.eqb_neq in Hne. exact Hne.
Qed.

(** C8, as the code has it.  For a query that is not a meta-query, has one
    of the similar/alternative keywords, and comes with a history from
    which a part number of the catalog was recovered: the search text is
    the reference part's name, category and subcategory; the reference part
    is dropped from the candidates; [search_parts] keeps the first five;
    and the handler returns the first three of those, with the text that
    [generate_response] produces for them. *)
Theorem similar_query_alternatives :
  forall (chat_with_system : Client) (vector_store : VectorStore)
         (db : list Part) (list_of_set : list string -> list string)
         (user_query : string) (category : option string)
         (conversation_history : list Message) (ref : string) (p : Part),
    is_meta_query user_query = false ->
    any_in similar_keywords (lower user_query) = true ->
    ctx_part_number
      (extract_context_from_history list_of_set user_query conversation_history)
    = Some ref ->
    find_part db ref = Some p ->
    let search_query :=
      name p ++ " " ++ Catalog.category p ++ " "
      ++ match subcategory p with Some sub => sub | None => EmptyString end in
    let alternatives :=
      firstn 5 (load_parts db
                  (filter (fun pn => negb (String.eqb pn ref))
                          (vector_store search_query 6 (Some (Catalog.category p))))) in
    (forall d, In d alternatives -> d_part_number d <> ref)
    /\ length alternatives <= 5
    /\ length (firstn 3 alternatives) <= 3
    /\ handle_query chat_with_system vector_store db list_of_set
                    user_query category conversation_history
       = (response_text <-
            generate_response chat_with_system user_query alternatives
              (extract_context_from_history list_of_set user_query
                                            conversation_history) ;;
          Ok {| response := response_text;
                parts := firstn 3 alternatives;
                agent := "product_search" |}).
Proof.
  intros chat_with_system vector_store db list_of_set user_query category
         conversation_history ref p Hmeta Hsim Href Hfound search_query alternatives.
  pose proof (context_part_truthy _ _ _ _ Href) as Tref.
  split; [|split; [|split]].
  - intros d Hd. subst alternatives. apply In_firstn in Hd.
    eapply load_parts_excludes; eauto.
  - apply firstn_le_length.
  - apply firstn_le_length.
  - unfold handle_query. rewrite Hmeta, Hsim, Href, Tref. cbn [andb].
    unfold search_parts. rewrite Tref. cbn [str_val]. rewrite Hfound.
    assert (Hq : name p ++ " " ++ Catalog.category p ++ " "
                 ++ (if truthy (subcategory p) then str_val (subcategory p)
                     else EmptyString) = search_query).
    { subst search_query. destruct (subcategory p) as [[|c sub]|]; reflexivity. }
    rewrite Hq. reflexivity.
Qed.

Lemma similar_query_alternatives_witness :
  is_meta_query "show me similar parts" = false
  /\ option_map (fun r => map d_part_number (parts r))
       (ok_value (handle_query (Samples.echo_client "Here are some alternatives.")
                               Samples.every_part Samples.catalog (fun l => l)
                               "show me similar parts" None
                               [Samples.user_says "I bought PS11752778"]))
     = Some ["PS2"; "PS3"; "PS4"].
Proof.
  split; [vm_compute; reflexivity|].
  destruct (similar_query_alternatives
              (Samples.echo_client "Here are some alternatives.")
              Samples.every_part Samples.catalog (fun l => l)
              "show me similar parts" None
              [Samples.user_says "I bought PS11752778"]
              "PS11752778" Samples.ice_maker)
    as [_ [_ [_ Hreply]]];
    [vm_compute; reflexivity | vm_compute; reflexivity | vm_compute; reflexivity
     | vm_compute; reflexivity |].
  rewrite Hreply. vm_compute. reflexivity.
Defined.

(** C8, counterexample.  A query that has a similar keyword and a meta
    phrase takes the meta branch, and the reference part itself is in the
    answer; and where [search_parts] finds five alternatives the handler
    returns three. *)
Lemma similar_query_not_always_alternatives :
  any_in similar_keywords (lower "show all similar parts") = true
  /\ option_map (fun r => map d_part_number (parts r))
       (ok_value (handle_query (Samples.echo_client "Overview.")
                               Samples.every_part Samples.catalog (fun l => l)
                               "show all similar parts" None
                               [Samples.user_says "I bought PS11752778"]))
     = Some ["PS11752778"; "PS2"]
  /\ map d_part_number
       (search_parts Samples.every_part Samples.catalog "show me similar parts"
                     None (Some "PS11752778"))
     = ["PS2"; "PS3"; "PS4"; "PS5"; "PS6"]
  /\ option_map (fun r => map d_part_number (parts r))
       (ok_value (handle_query (Samples.echo_client "Here are some alternatives.")
                               Samples.every_part Samples.catalog (fun l => l)
                               "show me similar parts" None
                               [Samples.user_says "I bought PS11752778"]))
     = Some ["PS2"; "PS3"; "PS4"].
Proof.
  repeat split; vm_compute; reflexivity.
Qed.

End ProductSearchHandler.

(** ** What a pattern match looks like *)

Section PatternShapes.

Lemma all_chars_app cls (s1 s2 : string) :
  Shape.all_chars cls (s1 ++ s2)
  = Shape.all_chars cls s1 && Shape.all_chars cls s2.
Proof.
  induction s1 as [|c s1 IH]; cbn [append Shape.all_chars]; [reflexivity|].
  now rewrite IH, andb_assoc.
Qed.

Lemma all_chars_weaken (cls1 cls2 : ascii -> bool) (s : string) :
  (forall c, cls1 c = true -> cls2 c = true) ->
  Shape.all_chars cls1 s = true -> Shape.all_chars cls2 s = true.
Proof.
  intros Hw. induction s as [|c s IH]; cbn [Shape.all_chars]; [reflexivity|].
  rewrite !andb_true_iff. intros [Hc Hs]. split; [now apply Hw | now apply IH].
Qed.

Lemma all_chars_upper (cls1 cls2 : ascii -> bool) (s : string) :
  (forall c, cls1 c = true -> cls2 (upper_char c) = true) ->
  Shape.all_chars cls1 s = true -> Shape.all_chars cls2 (upper s) = true.
Proof.
  intros Hw. induction s as [|c s IH]; [reflexivity|].
  change (upper (String c s)) with (String (upper_char c) (upper s)).
  cbn [Shape.all_chars]. rewrite !andb_true_iff.
  intros [Hc Hs]. split; [now apply Hw | now apply IH].
Qed.

Lemma upper_app (s1 s2 : string) : upper (s1 ++ s2) = upper s1 ++ upper s2.
Proof.
  induction s1 as [|c s1 IH]; [reflexivity|].
  change (upper (String c s1 ++ s2))
    with (String (upper_char c) (upper (s1 ++ s2))).
  now rewrite IH.
Qed.

Lemma upper_length (s : string) : String.length (upper s) = String.length s.
Proof.
  induction s as [|c s IH]; [reflexivity|].
  change (upper (String c s)) with (String (upper_char c) (upper s)).
  cbn [String.length]. now rewrite IH.
Qed.

Lemma app_length (s1 s2 : string) :
  String.length (s1 ++ s2) = String.length s1 + String.length s2.
Proof.
  induction s1 as [|c s1 IH]; cbn [append String.length]; [reflexivity|].
  now rewrite IH.
Qed.

Lemma digit_upper (c : ascii) : is_digit c = true -> upper_char c = c.
Proof.
  destruct c as [[] [] [] [] [] [] [] []]; vm_compute; congruence.
Qed.

Lemma digits_upper (s : string) :
  Shape.all_chars is_digit s = true -> upper s = s.
Proof.
  induction s as [|c s IH]; [reflexivity|].
  cbn [Shape.all_chars]. rewrite andb_true_iff. intros [Hc Hs].
  change (upper (String c s)) with (String (upper_char c) (upper s)).
  now rewrite (digit_upper c Hc), (IH Hs).
Qed.

Lemma alpha_upper (c : ascii) :
  is_alpha c = true -> is_upper_char (upper_char c) = true.
Proof.
  destruct c as [[] [] [] [] [] [] [] []]; vm_compute; congruence.
Qed.

Lemma alnum_upper (c : ascii) :
  is_alnum c = true -> Shape.upper_or_digit (upper_char c) = true.
Proof.
  destruct c as [[] [] [] [] [] [] [] []]; vm_compute; congruence.
Qed.

(** What a greedy repetition returns: characters of the class, within the
    bounds, then what the continuation matched on the rest. *)
Lemma rep_inv cls k s : forall lo hi prev g,
  Re.rep cls k lo hi prev s = Some g ->
  exists g1 g2 rest prev',
    g = g1 ++ g2 /\ s = g1 ++ rest
    /\ Shape.all_chars cls g1 = true
    /\ lo <= String.length g1
    /\ (forall n, hi = Some n -> String.length g1 <= n)
    /\ k prev' rest = Some g2.
Proof.
  induction s as [|c s IH]; intros lo hi prev g; cbn [Re.rep].
  - destruct lo; cbn [Nat.eqb]; [|discriminate].
    intros H. exists EmptyString, g, EmptyString, prev.
    repeat split; auto. intros n _. cbn. lia.
  - assert (Hstop : (if Nat.eqb lo 0 then k prev (String c s) else None) = Some g ->
                    exists g1 g2 rest prev',
                      g = g1 ++ g2 /\ String c s = g1 ++ rest
                      /\ Shape.all_chars cls g1 = true
                      /\ lo <= String.length g1
                      /\ (forall n, hi = Some n -> String.length g1 <= n)
                      /\ k prev' rest = Some g2).
    { destruct lo; cbn [Nat.eqb]; [|discriminate].
      intros H. exists EmptyString, g, (String c s), prev.
      repeat split; auto. intros n _. cbn. lia. }
    destruct (cls c && Re.may_take hi) eqn:E; [|exact Hstop].
    destruct (Re.rep cls k (pred lo) (Re.dec hi) (Some c) s) as [m|] eqn:R;
      [|exact Hstop].
    intros H. inversion H. subst g. clear H Hstop.
    apply andb_true_iff in E. destruct E as [Hc Htake].
    destruct (IH _ _ _ _ R) as [g1 [g2 [rest [prev' [Hm [Hs [Hall [Hlo [Hhi Hk]]]]]]]]].
    exists (String c g1), g2, rest, prev'.
    cbn [append Shape.all_chars String.length]. rewrite Hc, Hall.
    repeat split; try congruence; try lia.
    intros n Hn. subst hi. destruct n as [|n]; [discriminate|].
    specialize (Hhi n eq_refl). lia.
Qed.

Lemma one_char (g : string) :
  1 <= String.length g -> String.length g <= 1 ->
  exists c, g = String c EmptyString.
Proof.
  destruct g as [|c [|c' g]]; cbn [String.length]; intros; try lia.
  now exists c.
Qed.

(** A match of the part pattern is P, S and digits; uppercased it is a
    part number. *)
Lemma part_match_shape prev s g :
  Re.match_here Re.PART_RE prev s = Some g ->
  Shape.is_part_number (upper g) = true.
Proof.
  unfold Re.PART_RE, Re.once. cbn [Re.match_here]. intros H.
  apply rep_inv in H.
  destruct H as [g1 [g2 [r1 [p1 [Hg [_ [Hc1 [Hlo1 [Hhi1 H]]]]]]]]].
  apply rep_inv in H.
  destruct H as [h1 [h2 [r2 [p2 [Hg2 [_ [Hc2 [Hlo2 [Hhi2 H]]]]]]]]].
  apply rep_inv in H.
  destruct H as [d [e [r3 [p3 [Hh2 [_ [Hd [Hlo3 [_ He]]]]]]]]].
  cbn in He. inversion He. subst e. clear He.
  destruct (one_char g1 Hlo1 (Hhi1 1 eq_refl)) as [c1 E1].
  destruct (one_char h1 Hlo2 (Hhi2 1 eq_refl)) as [c2 E2].
  subst. cbn [append Shape.all_chars] in *.
  rewrite andb_true_r in Hc1, Hc2.
  unfold Re.ci in Hc1, Hc2.
  apply Ascii.eqb_eq in Hc1. apply Ascii.eqb_eq in Hc2.
  assert (Hd' : d ++ EmptyString = d).
  { clear. induction d as [|c d IH]; cbn; [reflexivity | now rewrite IH]. }
  rewrite Hd'.
  change (upper (String c1 (String c2 d)))
    with (String (upper_char c1) (String (upper_char c2) (upper d))).
  rewrite Hc1, Hc2, (digits_upper d Hd).
  unfold Shape.is_part_number.
  change (upper_char "P") with "P"%char. change (upper_char "S") with "S"%char.
  cbn [Ascii.eqb Bool.eqb andb]. rewrite Hd.
  destruct d; [cbn in Hlo3; lia | reflexivity].
Qed.

Lemma part_search_shape s g :
  Re.search Re.PART_RE s = Some g -> Shape.is_part_number (upper g) = true.
Proof.
  intros H. apply search_from_match in H. destruct H as [prev [s' H]].
  eapply part_match_shape; eauto.
Qed.

(** A match of the model pattern is seven characters or more, letters and
    digits, the first two of them letters. *)
Lemma model_match_shape prev s g :
  Re.match_here Re.MODEL_RE prev s = Some g ->
  Shape.is_model_number (upper g) = true.
Proof.
  unfold Re.MODEL_RE. cbn [Re.match_here].
  destruct (Re.at_boundary prev s); [|discriminate]. intros H.
  apply rep_inv in H.
  destruct H as [a [g2 [r1 [p1 [Hg [_ [Ha [Hlo1 [_ H]]]]]]]]].
  apply rep_inv in H.
  destruct H as [b [e [r2 [p2 [Hg2 [_ [Hb [Hlo2 [_ He]]]]]]]]].
  cbn [Re.match_here] in He.
  destruct (Re.at_boundary p2 r2); [|discriminate].
  inversion He. subst e g2 g. clear He.
  assert (Hb' : b ++ EmptyString = b).
  { clear. induction b as [|c b IH]; cbn; [reflexivity | now rewrite IH]. }
  rewrite Hb'. unfold Shape.is_model_number.
  rewrite upper_length, app_length, upper_app, all_chars_app.
  assert (Hlen : Nat.leb 7 (String.length a + String.length b) = true)
    by (apply Nat.leb_le; lia).
  rewrite Hlen.
  rewrite (all_chars_upper is_alpha Shape.upper_or_digit a)
    by (auto; intros c Hc; unfold Shape.upper_or_digit;
        now rewrite (alpha_upper c Hc)).
  rewrite (all_chars_upper is_alnum Shape.upper_or_digit b alnum_upper Hb).
  cbn [andb].
  destruct a as [|c1 [|c2 a]]; cbn [String.length] in Hlo1; try lia.
  cbn [Shape.all_chars] in Ha.
  apply andb_true_iff in Ha. destruct Ha as [H1 Ha].
  apply andb_true_iff in Ha. destruct Ha as [H2 _].
  change (upper (String c1 (String c2 a)) ++ upper b)
    with (String (upper_char c1) (String (upper_char c2) (upper a ++ upper b))).
  cbv iota. now rewrite (alpha_upper c1 H1), (alpha_upper c2 H2).
Qed.

Lemma model_search_shape s g :
  Re.search Re.MODEL_RE s = Some g -> Shape.is_model_number (upper g) = true.
Proof.
  intros H. apply search_from_match in H. destruct H as [prev [s' H]].
  eapply model_match_shape; eauto.
Qed.

End PatternShapes.

(** ** Identifiers found by pattern *)

Section FoundIdentifiers.

Lemma rep_zero_total cls k s : forall hi prev,
  (forall p r, k p r <> None) -> Re.rep cls k 0 hi prev s <> None.
Proof.
  induction s as [|c s IH]; intros hi prev Hk; cbn [Re.rep Nat.eqb]; [apply Hk|].
  destruct (cls c && Re.may_take hi); [|apply Hk].
  destruct (Re.rep cls k (pred 0) (Re.dec hi) (Some c) s); [discriminate | apply Hk].
Qed.

(** The part pattern matches at a position exactly when P, S and a digit
    stand there. *)
Lemma part_match_here_iff prev s :
  Re.match_here Re.PART_RE prev s <> None <-> Shape.starts_part s = true.
Proof.
  split.
  - intros H. destruct (Re.match_here Re.PART_RE prev s) as [g|] eqn:E;
      [clear H | congruence].
    revert E. unfold Re.PART_RE, Re.once. cbn [Re.match_here]. intros H.
    apply rep_inv in H.
    destruct H as [g1 [g2 [r1 [p1 [_ [Hs1 [Hc1 [Hlo1 [Hhi1 H]]]]]]]]].
    apply rep_inv in H.
    destruct H as [h1 [h2 [r2 [p2 [_ [Hs2 [Hc2 [Hlo2 [Hhi2 H]]]]]]]]].
    apply rep_inv in H.
    destruct H as [d [e [r3 [p3 [_ [Hs3 [Hd [Hlo3 _]]]]]]]].
    destruct (one_char g1 Hlo1 (Hhi1 1 eq_refl)) as [c1 E1].
    destruct (one_char h1 Hlo2 (Hhi2 1 eq_refl)) as [c2 E2].
    destruct d as [|c3 d]; [cbn in Hlo3; lia|].
    subst. cbn [append Shape.all_chars Shape.starts_part] in *.
    rewrite andb_true_r in Hc1, Hc2.
    apply andb_true_iff in Hd. destruct Hd as [Hd _].
    now rewrite Hc1, Hc2, Hd.
  - unfold Shape.starts_part.
    destruct s as [|c1 [|c2 [|c3 rest]]]; try discriminate.
    rewrite !andb_true_iff. intros [[H1 H2] H3].
    unfold Re.PART_RE, Re.once.
    cbn [Re.match_here Re.rep Re.may_take Re.dec option_map pred Nat.eqb].
    rewrite H1, H2, H3. cbn [andb]. rewrite !andb_false_r.
    match goal with
    | |- context [Re.rep ?cls ?k 0 None ?p ?r] =>
        destruct (Re.rep cls k 0 None p r) eqn:E
    end.
    + discriminate.
    + exfalso. revert E. apply rep_zero_total. discriminate.
Qed.

Lemma part_search_from_iff s : forall prev,
  Re.search_from Re.PART_RE prev s <> None <-> Shape.mentions_part s = true.
Proof.
  induction s as [|c s IH]; intros prev; cbn [Re.search_from Shape.mentions_part].
  - rewrite orb_false_r.
    destruct (Re.match_here Re.PART_RE prev EmptyString) eqn:E.
    + split; [intros _ | discriminate].
      apply (part_match_here_iff prev EmptyString). congruence.
    + split; [congruence | discriminate].
  - destruct (Re.match_here Re.PART_RE prev (String c s)) eqn:E.
    + split; [intros _ | discriminate].
      apply orb_true_iff. left.
      apply (part_match_here_iff prev (String c s)). congruence.
    + assert (Hs : Shape.starts_part (String c s) = false).
      { destruct (Shape.starts_part (String c s)) eqn:S; [|reflexivity].
        apply (part_match_here_iff prev) in S. congruence. }
      rewrite Hs. cbn [orb]. apply IH.
Qed.

(** The part-identifier test of the router and of the agents is true
    exactly on the texts that have P, S and a digit in a row, the letters
    in either case. *)
Lemma has_part_id_iff_mentions_part :
  forall s : string, Router.has_part_id s = Shape.mentions_part s.
Proof.
  intros s. unfold Router.has_part_id, Re.search.
  pose proof (part_search_from_iff s None) as H.
  destruct (Re.search_from Re.PART_RE None s);
    destruct (Shape.mentions_part s); try reflexivity.
  - exfalso. assert (F : false = true) by (apply H; discriminate). discriminate.
  - exfalso. apply (proj2 H); reflexivity.
Qed.

Lemma earliest_some {A : Type} (hit : Message -> option A) (window : list Message)
      (x : A) :
  Spec.earliest hit window = Some x ->
  exists turn, In turn window /\ hit turn = Some x.
Proof.
  induction window as [|t window IH]; cbn [Spec.earliest]; [discriminate|].
  destruct (hit t) as [y|] eqn:E.
  - intros H. inversion H. subst. exists t. split; [now left | assumption].
  - intros H. destruct (IH H) as [turn [Hin Hturn]].
    exists turn. split; [now right | assumption].
Qed.

Lemma part_hit_shape turn x :
  Spec.part_hit turn = Some x -> Shape.is_part_number x = true.
Proof.
  unfold Spec.part_hit.
  destruct (Re.search Re.PART_RE (get_content turn)) as [g|] eqn:E; [|discriminate].
  intros H. inversion H. subst. eapply part_search_shape; eauto.
Qed.

Lemma part_number_starts_PS (x : string) :
  Shape.is_part_number x = true -> startswith "PS" x = true.
Proof.
  unfold Shape.is_part_number. destruct x as [|c1 [|c2 ds]]; try discriminate.
  rewrite !andb_true_iff. intros [[[H1 H2] _] _].
  apply Ascii.eqb_eq in H1. apply Ascii.eqb_eq in H2. subst. reflexivity.
Qed.

Lemma model_hit_shape turn x :
  Spec.model_hit turn = Some x ->
  Shape.is_model_number x = true /\ Shape.is_part_number x = false.
Proof.
  unfold Spec.model_hit.
  destruct (Re.search Re.MODEL_RE (get_content turn)) as [g|] eqn:E; [|discriminate].
  destruct (startswith "PS" (upper g)) eqn:P; [discriminate|].
  intros H. inversion H. subst. split.
  - eapply model_search_shape; eauto.
  - destruct (Shape.is_part_number (upper g)) eqn:Q; [|reflexivity].
    apply part_number_starts_PS in Q. congruence.
Qed.

Lemma first_part_in_shape window x :
  Installation.first_part_in window = Some x -> Shape.is_part_number x = true.
Proof.
  induction window as [|t window IH]; cbn [Installation.first_part_in];
    [discriminate|].
  destruct (Re.search Re.PART_RE (get_content t)) as [g|] eqn:E; [|exact IH].
  intros H. inversion H. subst. eapply part_search_shape; eauto.
Qed.

(** X4.  What the compatibility and installation agents recover from a
    history is well formed: a part number is PS and digits, a model number
    is seven or more capital letters and digits starting with two letters,
    and is no part number. *)
Theorem history_identifiers_well_formed :
  forall history : list Message,
    (forall x, Compatibility.ctx_part_number
                 (Compatibility.extract_from_history history) = Some x ->
               Shape.is_part_number x = true)
    /\ (forall x, Compatibility.ctx_model_number
                    (Compatibility.extract_from_history history) = Some x ->
                  Shape.is_model_number x = true
                  /\ Shape.is_part_number x = false)
    /\ (forall x, Installation.extract_part_from_history history = Some x ->
                  Shape.is_part_number x = true).
Proof.
  intros history.
  unfold Compatibility.extract_from_history, Installation.extract_part_from_history.
  destruct history as [|m rest].
  - repeat split; discriminate.
  - split; [|split].
    + intros x. rewrite fold_scan_part by reflexivity. intros H.
      apply earliest_some in H. destruct H as [t [_ H]].
      eapply part_hit_shape; eauto.
    + intros x. rewrite fold_scan_model by reflexivity. intros H.
      apply earliest_some in H. destruct H as [t [_ H]].
      eapply model_hit_shape; eauto.
    + intros x. apply first_part_in_shape.
Qed.

(** Only the first match of the model pattern in a turn is looked at: a
    model number that follows a long part number in the same turn is not
    recovered. *)
Example history_identifiers_sample :
  Compatibility.extract_from_history
    [Samples.user_says "my wrs325sdhz fridge: will ps11739232 fit?"]
  = Compatibility.mkContext (Some "PS11739232") (Some "WRS325SDHZ")
  /\ Compatibility.extract_from_history
       [Samples.user_says "will ps11739232 fit my wrs325sdhz fridge?"]
     = Compatibility.mkContext (Some "PS11739232") None.
Proof.
  split; vm_compute; reflexivity.
Qed.

(** X11.  A query that mentions a part number is answered by the pattern
    alone: the completion service is not asked, and the result is a well
    formed part number. *)
Theorem extract_part_number_by_pattern :
  forall (chat_with_system : Client) (user_query : string),
    Shape.mentions_part user_query = true ->
    exists x,
      Installation.extract_part_number chat_with_system user_query = Ok (Some x)
      /\ Shape.is_part_number x = true.
Proof.
  intros chat_with_system user_query Hm.
  rewrite <- has_part_id_iff_mentions_part in Hm.
  unfold Router.has_part_id in Hm. unfold Installation.extract_part_number.
  destruct (Re.search Re.PART_RE user_query) as [g|] eqn:E; [|discriminate].
  exists (upper g). split; [reflexivity|]. eapply part_search_shape; eauto.
Qed.

Lemma extract_part_number_by_pattern_witness :
  Shape.mentions_part "how do i install ps11752778?" = true
  /\ exists x,
      Installation.extract_part_number Samples.failing_client
                                       "how do i install ps11752778?"
      = Ok (Some x)
      /\ Shape.is_part_number x = true.
Proof.
  split; [vm_compute; reflexivity|].
  apply (extract_part_number_by_pattern
           Samples.failing_client "how do i install ps11752778?").
  vm_compute. reflexivity.
Defined.

End FoundIdentifiers.

(** ** The contexts built from a history *)

Section HistoryContexts.

Lemma findall_match p s : forall prev skip m,
  In m (Re.findall_from p prev s skip) ->
  exists prev' s', Re.match_here p prev' s' = Some m.
Proof.
  induction s as [|c s IH]; intros prev skip m; cbn [Re.findall_from].
  - destruct skip; [|contradiction].
    destruct (Re.match_here p prev EmptyString) as [g|] eqn:E; [|contradiction].
    intros [H|[]]. subst. eauto.
  - destruct skip as [|n]; [|apply IH].
    destruct (Re.match_here p prev (String c s)) as [g|] eqn:E; [|apply IH].
    intros [H|H]; [subst; eauto | eapply IH; eauto].
Qed.

Lemma findall_part_shape content g :
  In g (Re.findall Re.PART_RE content) -> Shape.is_part_number (upper g) = true.
Proof.
  intros H. apply findall_match in H. destruct H as [prev [s H]].
  eapply part_match_shape; eauto.
Qed.

Lemma last_part_hit_shape turn x :
  Spec.last_part_hit turn = Some x -> Shape.is_part_number x = true.
Proof.
  unfold Spec.last_part_hit.
  destruct (Re.findall Re.PART_RE (get_content turn)) as [|g gs] eqn:E;
    [discriminate|].
  intros H.
  assert (Hx : x = upper (last (g :: gs) EmptyString)) by congruence.
  subst x. apply (findall_part_shape (get_content turn)).
  rewrite E. apply last_In. discriminate.
Qed.

Lemma mem_In (x : string) (l : list string) :
  Troubleshooting.mem x l = true <-> In x l.
Proof.
  unfold Troubleshooting.mem. rewrite existsb_exists. split.
  - intros [y [Hin Hy]]. apply String.eqb_eq in Hy. now subst.
  - intros Hin. exists x. split; [assumption | apply String.eqb_refl].
Qed.

Lemma NoDup_snoc (l : list string) (x : string) :
  NoDup l -> ~ In x l -> NoDup (l ++ [x])%list.
Proof.
  induction l as [|y l IH]; intros Hnd Hnot; cbn [app].
  - constructor; [intros [] | constructor].
  - inversion Hnd as [|? ? Hy Hl]. subst. constructor.
    + intros Hin. apply in_app_or in Hin. destruct Hin as [Hin|[Hin|[]]].
      * contradiction.
      * subst. apply Hnot. now left.
    + apply IH; [assumption|]. intros Hin. apply Hnot. now right.
Qed.

Lemma add_new_NoDup (xs : list string) : forall acc,
  NoDup acc -> NoDup (Troubleshooting.add_new acc xs).
Proof.
  unfold Troubleshooting.add_new.
  induction xs as [|x xs IH]; intros acc Hnd; cbn [fold_left]; [assumption|].
  apply IH. destruct (Troubleshooting.mem x acc) eqn:E; [assumption|].
  apply NoDup_snoc; [assumption|]. intros Hin. apply mem_In in Hin. congruence.
Qed.

Lemma add_new_In (xs : list string) : forall acc y,
  In y (Troubleshooting.add_new acc xs) <-> In y acc \/ In y xs.
Proof.
  unfold Troubleshooting.add_new.
  induction xs as [|x xs IH]; intros acc y; cbn [fold_left].
  - split; [now left | intros [H|[]]; assumption].
  - rewrite IH. destruct (Troubleshooting.mem x acc) eqn:E.
    + apply mem_In in E. split.
      * intros [H|H]; [now left | right; now right].
      * intros [H|[H|H]]; [now left | subst; now left | now right].
    + split.
      * intros [H|H]; [|right; now right].
        apply in_app_or in H. destruct H as [H|[H|[]]];
          [now left | right; now left].
      * intros [H|[H|H]].
        -- left. apply in_or_app. now left.
        -- left. apply in_or_app. right. now left.
        -- now right.
Qed.

(** The troubleshooting context over a window. *)
Lemma troubleshooting_fold_parts window : forall context,
  NoDup (Troubleshooting.ctx_previous_parts context) ->
  NoDup (Troubleshooting.ctx_previous_parts
           (fold_left Troubleshooting.scan_message window context))
  /\ forall x,
      In x (Troubleshooting.ctx_previous_parts
              (fold_left Troubleshooting.scan_message window context))
      <-> In x (Troubleshooting.ctx_previous_parts context)
          \/ exists turn g, In turn window
                            /\ In g (Re.findall Re.PART_RE (get_content turn))
                            /\ x = upper g.
Proof.
  induction window as [|t window IH]; intros context Hnd; cbn [fold_left].
  - split; [assumption|]. intros x. split; [now left|].
    intros [H|[turn [g [[] _]]]]. assumption.
  - destruct (IH (Troubleshooting.scan_message context t)) as [Hnd' Hin'].
    { cbn [Troubleshooting.scan_message Troubleshooting.ctx_previous_parts].
      now apply add_new_NoDup. }
    split; [assumption|]. intros x. rewrite Hin'.
    cbn [Troubleshooting.scan_message Troubleshooting.ctx_previous_parts].
    rewrite add_new_In, in_map_iff. split.
    + intros [[H|[g [Hg Hin]]]|[turn [g [Hin [Hg Hx]]]]].
      * now left.
      * right. exists t, g. repeat split; [now left | assumption | congruence].
      * right. exists turn, g. repeat split; [now right | assumption | assumption].
    + intros [H|[turn [g [[Ht|Hin] [Hg Hx]]]]].
      * left. now left.
      * subst turn. left. right. exists g. split; [congruence | assumption].
      * right. exists turn, g. repeat split; assumption.
Qed.

Lemma troubleshooting_fold_symptoms window : forall context,
  NoDup (Troubleshooting.ctx_symptoms context) ->
  incl (Troubleshooting.ctx_symptoms context) Troubleshooting.symptom_keywords ->
  NoDup (Troubleshooting.ctx_symptoms
           (fold_left Troubleshooting.scan_message window context))
  /\ incl (Troubleshooting.ctx_symptoms
             (fold_left Troubleshooting.scan_message window context))
          Troubleshooting.symptom_keywords.
Proof.
  induction window as [|t window IH]; intros context Hnd Hincl; cbn [fold_left].
  - now split.
  - apply IH;
      cbn [Troubleshooting.scan_message Troubleshooting.ctx_symptoms].
    + now apply add_new_NoDup.
    + intros y Hy. apply add_new_In in Hy. destruct Hy as [Hy|Hy].
      * now apply Hincl.
      * apply filter_In in Hy. tauto.
Qed.

Lemma troubleshooting_fold_appliance window : forall context,
  Troubleshooting.ctx_appliance_type
    (fold_left Troubleshooting.scan_message window context)
  = match Spec.latest Shape.appliance_mention window with
    | Some x => Some x
    | None => Troubleshooting.ctx_appliance_type context
    end.
Proof.
  induction window as [|t window IH]; intros context;
    cbn [fold_left Spec.latest]; [reflexivity|].
  rewrite IH.
  destruct (Spec.latest Shape.appliance_mention window); [reflexivity|].
  cbn [Troubleshooting.scan_message Troubleshooting.ctx_appliance_type].
  unfold Shape.appliance_mention.
  destruct (contains "refrigerator" (lower (get_content t))
            || contains "fridge" (lower (get_content t))); [reflexivity|].
  destruct (contains "dishwasher" (lower (get_content t))); reflexivity.
Qed.

(** X17.  The context the troubleshooting agent builds from a history: the
    appliance type is that of the latest turn of the last four that names
    one; the part numbers are exactly those found in these turns,
    uppercased and well formed, each listed once; the symptoms are
    keywords of the fixed list, each listed once. *)
Theorem troubleshooting_context :
  forall (user_query : string) (conversation_history : list Message),
    let context :=
      Troubleshooting.extract_context_from_history user_query
                                                   conversation_history in
    Troubleshooting.ctx_appliance_type context
    = Spec.latest Shape.appliance_mention (last_n 4 conversation_history)
    /\ NoDup (Troubleshooting.ctx_previous_parts context)
    /\ (forall x, In x (Troubleshooting.ctx_previous_parts context) <->
                  exists turn g,
                    In turn (last_n 4 conversation_history)
                    /\ In g (Re.findall Re.PART_RE (get_content turn))
                    /\ x = upper g)
    /\ (forall x, In x (Troubleshooting.ctx_previous_parts context) ->
                  Shape.is_part_number x = true)
    /\ NoDup (Troubleshooting.ctx_symptoms context)
    /\ incl (Troubleshooting.ctx_symptoms context)
            Troubleshooting.symptom_keywords.
Proof.
  intros user_query conversation_history context. subst context.
  unfold Troubleshooting.extract_context_from_history.
  destruct conversation_history as [|m rest].
  - cbn. repeat split; try constructor; try contradiction.
    intros [turn [g [[] _]]].
  - set (window := last_n 4 (m :: rest)).
    set (start := Troubleshooting.mkContext None [] []).
    destruct (troubleshooting_fold_parts window start) as [Hnd Hin];
      [constructor|].
    destruct (troubleshooting_fold_symptoms window start) as [Hsn Hsi];
      [constructor | intros x [] |].
    assert (Hiff : forall x,
               In x (Troubleshooting.ctx_previous_parts
                       (fold_left Troubleshooting.scan_message window start))
               <-> exists turn g,
                     In turn window
                     /\ In g (Re.findall Re.PART_RE (get_content turn))
                     /\ x = upper g).
    { intros x. rewrite Hin. cbn [Troubleshooting.ctx_previous_parts start].
      split; [intros [[]|H]; exact H | intros H; now right]. }
    split; [|split; [|split; [|split; [|split]]]]; try assumption.
    + rewrite troubleshooting_fold_appliance.
      destruct (Spec.latest Shape.appliance_mention window); reflexivity.
    + intros x Hx. apply Hiff in Hx. destruct Hx as [turn [g [_ [Hg Hx]]]].
      subst x. eapply findall_part_shape; eauto.
Qed.

Example troubleshooting_context_sample :
  Troubleshooting.extract_context_from_history "what now?"
    [Samples.user_says "my dishwasher is leaking, I tried ps1 and PS22";
     Samples.user_says "the fridge is noisy too, ps1 did not help"]
  = Troubleshooting.mkContext (Some "Refrigerator") ["leaking"; "noisy"]
                              ["PS1"; "PS22"].
Proof.
  vm_compute. reflexivity.
Qed.

Lemma product_scan_category context turn :
  ProductSearch.ctx_category (ProductSearch.scan_message context turn)
  = if truthy (ProductSearch.ctx_category context)
    then ProductSearch.ctx_category context
    else match Shape.category_mention turn with
         | Some x => Some x
         | None => ProductSearch.ctx_category context
         end.
Proof.
  unfold ProductSearch.scan_message, Shape.category_mention.
  cbn [ProductSearch.ctx_category].
  destruct (truthy (ProductSearch.ctx_category context)); cbn [negb];
    rewrite ?andb_false_r, ?andb_true_r; [reflexivity|].
  destruct (contains "refrigerator" (lower (get_content turn))); [reflexivity|].
  destruct (contains "dishwasher" (lower (get_content turn))); reflexivity.
Qed.

Lemma category_mention_truthy turn x :
  Shape.category_mention turn = Some x -> truthy (Some x) = true.
Proof.
  unfold Shape.category_mention.
  destruct (contains "refrigerator" (lower (get_content turn)));
    [intros H; inversion H; reflexivity|].
  destruct (contains "dishwasher" (lower (get_content turn)));
    [intros H; inversion H; reflexivity | discriminate].
Qed.

Lemma product_fold_scan_category window : forall context,
  ProductSearch.ctx_category context = None ->
  ProductSearch.ctx_category (fold_left ProductSearch.scan_message window context)
  = Spec.earliest Shape.category_mention window.
Proof.
  induction window as [|turn window IH]; intros context Hnone;
    cbn [fold_left Spec.earliest].
  - exact Hnone.
  - destruct (Shape.category_mention turn) as [x|] eqn:Hit.
    + assert (Hx : ProductSearch.ctx_category
                     (ProductSearch.scan_message context turn) = Some x).
      { rewrite product_scan_category, Hnone, Hit. reflexivity. }
      clear IH. revert Hx. generalize (ProductSearch.scan_message context turn).
      induction window as [|t window IH]; intros c Hx; cbn [fold_left]; [exact Hx|].
      apply IH. rewrite product_scan_category, Hx.
      now rewrite (category_mention_truthy turn x Hit).
    + apply IH. rewrite product_scan_category, Hnone, Hit. reflexivity.
Qed.

(** X16.  The context the product search agent builds from a history: the
    part number is a well formed one, and the appliance category is that
    of the earliest turn of the last four that names one (where the
    troubleshooting agent takes the latest). *)
Theorem product_search_context :
  forall (list_of_set : list string -> list string) (user_query : string)
         (conversation_history : list Message),
    let context :=
      ProductSearch.extract_context_from_history list_of_set user_query
                                                 conversation_history in
    (forall x, ProductSearch.ctx_part_number context = Some x ->
               Shape.is_part_number x = true)
    /\ ProductSearch.ctx_category context
       = Spec.earliest Shape.category_mention (last_n 4 conversation_history).
Proof.
  intros list_of_set user_query conversation_history context. subst context.
  unfold ProductSearch.extract_context_from_history.
  destruct conversation_history as [|m rest].
  - split; [discriminate | reflexivity].
  - cbn [ProductSearch.ctx_part_number ProductSearch.ctx_category]. split.
    + intros x. rewrite product_fold_scan_part by reflexivity. intros H.
      apply earliest_some in H. destruct H as [t [_ H]].
      eapply last_part_hit_shape; eauto.
    + now apply product_fold_scan_category.
Qed.

Example appliance_type_earliest_or_latest :
  ProductSearch.ctx_category
    (ProductSearch.extract_context_from_history (fun l => l) "filters?"
       [Samples.user_says "my dishwasher leaks";
        Samples.user_says "and the refrigerator hums"])
  = Some "Dishwasher"
  /\ Troubleshooting.ctx_appliance_type
       (Troubleshooting.extract_context_from_history "filters?"
          [Samples.user_says "my dishwasher leaks";
           Samples.user_says "and the refrigerator hums"])
     = Some "Refrigerator".
Proof.
  split; vm_compute; reflexivity.
Qed.

End HistoryContexts.

(** ** The reply protocol of the compatibility agent *)

Section ReplyProtocol.

Import Compatibility.

Lemma extract_part_and_model_no_exclusion_witness :
  Re.search Re.PART_RE "does ps11739232 fit wrs325sdhz?" = Some "ps11739232"
  /\ Re.search Re.MODEL_RE "does a WRS325SDHZ take PS12?" = Some "WRS325SDHZ"
  /\ extract_part_and_model Samples.failing_client "does a WRS325SDHZ take PS12?"
     = Ok (mkContext (Some "PS12") (Some "WRS325SDHZ")).
Proof.
  split; [vm_compute; reflexivity|]. split; [vm_compute; reflexivity|].
  apply (extract_part_and_model_no_exclusion
           Samples.failing_client "does a WRS325SDHZ take PS12?"
           "PS12" "WRS325SDHZ");
    vm_compute; reflexivity.
Defined.

Lemma parse_line_keeps_part ep em line :
  truthy ep = true -> exists em', parse_line (ep, em) line = (ep, em').
Proof.
  intros Hp. unfold parse_line. rewrite Hp. cbn [negb]. rewrite andb_false_r.
  destruct (startswith "PART_NUMBER:" line); [eauto|].
  destruct (startswith "MODEL_NUMBER:" line); [|eauto].
  destruct (negb (String.eqb (value_of line) "NONE") && negb (truthy em)); eauto.
Qed.

Lemma parse_line_keeps_model ep em line :
  truthy em = true -> exists ep', parse_line (ep, em) line = (ep', em).
Proof.
  intros Hm. unfold parse_line. rewrite Hm. cbn [negb]. rewrite andb_false_r.
  destruct (startswith "PART_NUMBER:" line).
  - destruct (negb (String.eqb (value_of line) "NONE") && negb (truthy ep)); eauto.
  - destruct (startswith "MODEL_NUMBER:" line); eauto.
Qed.

Lemma fold_parse_keeps_part lines : forall ep em,
  truthy ep = true -> fst (fold_left parse_line lines (ep, em)) = ep.
Proof.
  induction lines as [|line lines IH]; intros ep em Hp; cbn [fold_left];
    [reflexivity|].
  destruct (parse_line_keeps_part ep em line Hp) as [em' E]. rewrite E.
  now apply IH.
Qed.

Lemma fold_parse_keeps_model lines : forall ep em,
  truthy em = true -> snd (fold_left parse_line lines (ep, em)) = em.
Proof.
  induction lines as [|line lines IH]; intros ep em Hm; cbn [fold_left];
    [reflexivity|].
  destruct (parse_line_keeps_model ep em line Hm) as [ep' E]. rewrite E.
  now apply IH.
Qed.

(** X6.  The completion fallback of single-message extraction only adds:
    whatever the service replies, an identifier found by pattern is the one
    returned. *)
Theorem extract_keeps_pattern_matches :
  forall (chat_with_system : Client) (user_query : string) (context : Context),
    extract_part_and_model chat_with_system user_query = Ok context ->
    (forall g, Re.search Re.PART_RE user_query = Some g ->
               ctx_part_number context = Some (upper g))
    /\ (forall g, Re.search Re.MODEL_RE user_query = Some g ->
                  ctx_model_number context = Some (upper g)).
Proof.
  intros chat_with_system user_query context. unfold extract_part_and_model.
  destruct (truthy (option_map upper (Re.search Re.PART_RE user_query))
            && truthy (option_map upper (Re.search Re.MODEL_RE user_query))).
  - intros H. inversion H. cbn [ctx_part_number ctx_model_number].
    split; intros g Hg; rewrite Hg; reflexivity.
  - destruct (chat_with_system ExtractPartAndModelPrompt user_query) as [r|e];
      cbn [bind]; [|discriminate].
    destruct (fold_left parse_line (split_on LF (strip r))
                        (option_map upper (Re.search Re.PART_RE user_query),
                         option_map upper (Re.search Re.MODEL_RE user_query)))
      as [ep em] eqn:E.
    intros H. inversion H. cbn [ctx_part_number ctx_model_number]. split.
    + intros g Hg. rewrite Hg in E. cbn [option_map] in E.
      change ep with (fst (ep, em)). rewrite <- E.
      apply fold_parse_keeps_part.
      apply truthy_nonempty, upper_nonempty. eapply part_search_nonempty; eauto.
    + intros g Hg. rewrite Hg in E. cbn [option_map] in E.
      change em with (snd (ep, em)). rewrite <- E.
      apply fold_parse_keeps_model.
      apply truthy_nonempty, upper_nonempty. eapply model_search_nonempty; eauto.
Qed.

Lemma extract_keeps_pattern_matches_witness :
  extract_part_and_model
    (Samples.echo_client ("PART_NUMBER: PS999" ++ NL ++ "MODEL_NUMBER: WDT780SAEM1"))
    "Is PS123 ok?"
  = Ok (mkContext (Some "PS123") (Some "WDT780SAEM1"))
  /\ ctx_part_number (mkContext (Some "PS123") (Some "WDT780SAEM1"))
     = Some (upper "PS123").
Proof.
  split; [vm_compute; reflexivity|].
  apply (extract_keeps_pattern_matches
           (Samples.echo_client
              ("PART_NUMBER: PS999" ++ NL ++ "MODEL_NUMBER: WDT780SAEM1"))
           "Is PS123 ok?"); vm_compute; reflexivity.
Defined.

Lemma append_assoc (a b c : string) : (a ++ b) ++ c = a ++ (b ++ c).
Proof.
  induction a as [|x a IH]; cbn [append]; [reflexivity | now rewrite IH].
Qed.

Lemma token_parts (t : string) :
  Shape.is_token t = true ->
  t <> EmptyString
  /\ Shape.all_chars (fun c => negb (is_space c)) t = true.
Proof.
  unfold Shape.is_token. rewrite andb_true_iff, negb_true_iff.
  intros [H1 H2]. split; [|assumption]. now apply String.eqb_neq.
Qed.

Lemma nospace_lstrip (t : string) :
  Shape.all_chars (fun c => negb (is_space c)) t = true -> lstrip t = t.
Proof.
  destruct t as [|c t]; [reflexivity|]. cbn [Shape.all_chars lstrip].
  rewrite andb_true_iff, negb_true_iff. intros [Hc _]. now rewrite Hc.
Qed.

Lemma nospace_rstrip (t : string) :
  Shape.all_chars (fun c => negb (is_space c)) t = true -> rstrip t = t.
Proof.
  induction t as [|c t IH]; [reflexivity|]. cbn [Shape.all_chars rstrip].
  rewrite andb_true_iff, negb_true_iff. intros [Hc Ht]. rewrite (IH Ht), Hc.
  destruct t; reflexivity.
Qed.

Lemma rstrip_app (x m : string) :
  rstrip m = m -> m <> EmptyString -> rstrip (x ++ m) = x ++ m.
Proof.
  intros Hm Hne. induction x as [|c x IH]; cbn [append]; [assumption|].
  cbn [rstrip]. rewrite IH.
  destruct (x ++ m) eqn:E; [|reflexivity].
  destruct x; cbn in E; congruence.
Qed.

Lemma strip_app_token (c : ascii) (x m : string) :
  is_space c = false -> rstrip m = m -> m <> EmptyString ->
  strip (String c x ++ m) = String c x ++ m.
Proof.
  intros Hc Hm Hne. unfold strip. cbn [append lstrip]. rewrite Hc.
  change (String c (x ++ m)) with (String c x ++ m). now apply rstrip_app.
Qed.

Lemma nospace_no_LF (t : string) :
  Shape.all_chars (fun c => negb (is_space c)) t = true ->
  Shape.all_chars (fun c => negb (Ascii.eqb c LF)) t = true.
Proof.
  apply all_chars_weaken. intros c.
  destruct c as [[] [] [] [] [] [] [] []]; vm_compute; congruence.
Qed.

Lemma split_on_no_sep (sep : ascii) (x : string) :
  Shape.all_chars (fun c => negb (Ascii.eqb c sep)) x = true ->
  split_on sep x = [x].
Proof.
  induction x as [|c x IH]; [reflexivity|]. cbn [Shape.all_chars split_on].
  rewrite andb_true_iff, negb_true_iff. intros [Hc Hx].
  now rewrite Hc, (IH Hx).
Qed.

Lemma split_on_app (sep : ascii) (x y : string) :
  Shape.all_chars (fun c => negb (Ascii.eqb c sep)) x = true ->
  split_on sep (x ++ String sep y) = x :: split_on sep y.
Proof.
  induction x as [|c x IH]; cbn [append Shape.all_chars split_on].
  - intros _. now rewrite Ascii.eqb_refl.
  - rewrite andb_true_iff, negb_true_iff. intros [Hc Hx].
    now rewrite Hc, (IH Hx).
Qed.

Lemma value_of_field (field t : string) :
  Shape.all_chars (fun c => negb (Ascii.eqb c COLON)) field = true ->
  Shape.all_chars (fun c => negb (is_space c)) t = true ->
  value_of (field ++ ": " ++ t) = t.
Proof.
  intros Hf Ht. unfold value_of.
  assert (Ha : after_first COLON (field ++ ": " ++ t) = Some (" " ++ t)).
  { clear Ht. induction field as [|c field IH]; [reflexivity|].
    cbn [Shape.all_chars] in Hf. apply andb_true_iff in Hf.
    destruct Hf as [Hc Hf]. apply negb_true_iff in Hc.
    cbn [append after_first]. rewrite Hc. now apply IH. }
  rewrite Ha. unfold strip. cbn [append lstrip].
  change (is_space " ") with true. cbv iota.
  now rewrite (nospace_lstrip t Ht), (nospace_rstrip t Ht).
Qed.

(** X7.  The reply protocol round trip.  When the patterns find nothing in
    the query and the service answers in the two-line format with two
    tokens, extraction returns these tokens, and the token NONE counts as
    nothing. *)
Theorem reply_protocol_round_trip :
  forall (chat_with_system : Client) (user_query p m : string),
    Re.search Re.PART_RE user_query = None ->
    Re.search Re.MODEL_RE user_query = None ->
    Shape.is_token p = true ->
    Shape.is_token m = true ->
    chat_with_system ExtractPartAndModelPrompt user_query
    = Ok ("PART_NUMBER: " ++ p ++ NL ++ "MODEL_NUMBER: " ++ m) ->
    extract_part_and_model chat_with_system user_query
    = Ok (mkContext (if String.eqb p "NONE" then None else Some p)
                    (if String.eqb m "NONE" then None else Some m)).
Proof.
  intros chat_with_system user_query p m Hpart Hmodel Tp Tm Hreply.
  apply token_parts in Tp. destruct Tp as [Hp Sp].
  apply token_parts in Tm. destruct Tm as [Hm Sm].
  unfold extract_part_and_model. rewrite Hpart, Hmodel, Hreply.
  cbn [option_map truthy andb bind].
  assert (Hstrip : strip ("PART_NUMBER: " ++ p ++ NL ++ "MODEL_NUMBER: " ++ m)
                   = ("PART_NUMBER: " ++ p) ++ String LF ("MODEL_NUMBER: " ++ m)).
  { transitivity
      (strip (String "P" ("ART_NUMBER: " ++ p ++ NL ++ "MODEL_NUMBER: ") ++ m)).
    - f_equal. unfold NL. cbn [append]. now rewrite !append_assoc.
    - rewrite strip_app_token;
        [| reflexivity | now apply nospace_rstrip | assumption].
      unfold NL. cbn [append]. now rewrite !append_assoc. }
  rewrite Hstrip.
  rewrite split_on_app.
  2:{ rewrite all_chars_app. rewrite (nospace_no_LF p Sp). reflexivity. }
  rewrite split_on_no_sep.
  2:{ rewrite all_chars_app. rewrite (nospace_no_LF m Sm). reflexivity. }
  cbn [fold_left].
  assert (V1 : value_of ("PART_NUMBER: " ++ p) = p).
  { apply (value_of_field "PART_NUMBER" p); [reflexivity | assumption]. }
  assert (V2 : value_of ("MODEL_NUMBER: " ++ m) = m).
  { apply (value_of_field "MODEL_NUMBER" m); [reflexivity | assumption]. }
  assert (L1 : parse_line (None, None) ("PART_NUMBER: " ++ p)
               = (if String.eqb p "NONE" then None else Some p, None)).
  { unfold parse_line.
    change (startswith "PART_NUMBER:" ("PART_NUMBER: " ++ p)) with true.
    cbv iota. rewrite V1. cbn [truthy negb]. rewrite andb_true_r.
    destruct (String.eqb p "NONE"); reflexivity. }
  rewrite L1.
  set (ep := if String.eqb p "NONE" then None else Some p).
  assert (L2 : parse_line (ep, None) ("MODEL_NUMBER: " ++ m)
               = (ep, if String.eqb m "NONE" then None else Some m)).
  { unfold parse_line.
    change (startswith "PART_NUMBER:" ("MODEL_NUMBER: " ++ m)) with false.
    change (startswith "MODEL_NUMBER:" ("MODEL_NUMBER: " ++ m)) with true.
    cbv iota. rewrite V2. cbn [truthy negb]. rewrite andb_true_r.
    destruct (String.eqb m "NONE"); reflexivity. }
  rewrite L2. reflexivity.
Qed.

Lemma reply_protocol_round_trip_witness :
  Shape.is_token "PS11752778" = true
  /\ extract_part_and_model
       (Samples.echo_client ("PART_NUMBER: PS11752778" ++ NL ++ "MODEL_NUMBER: NONE"))
       "Does it fit?"
     = Ok (mkContext (Some "PS11752778") None).
Proof.
  split; [vm_compute; reflexivity|].
  apply (reply_protocol_round_trip
           (Samples.echo_client
              ("PART_NUMBER: PS11752778" ++ NL ++ "MODEL_NUMBER: NONE"))
           "Does it fit?" "PS11752778" "NONE");
    vm_compute; reflexivity.
Defined.

End ReplyProtocol.

(** ** More on the compatibility handler *)

Section CompatibilityReplies.

Import Compatibility.

Lemma check_found_or_not (db : list Part) (pn mn : string) :
  (opt_is (error (check_compatibility db pn mn)) "PART_NOT_FOUND" = true
   /\ find_part db pn = None)
  \/ (opt_is (error (check_compatibility db pn mn)) "PART_NOT_FOUND" = false
      /\ compatible (check_compatibility db pn mn) <> None
      /\ part (check_compatibility db pn mn) <> None).
Proof.
  unfold check_compatibility. destruct (find_part db pn) as [p|].
  - right. destruct (existsb _ _); repeat split; discriminate.
  - left. split; reflexivity.
Qed.

Lemma generate_response_text (result : CheckResult) :
  opt_is (error result) "PART_NOT_FOUND" = false ->
  exists text,
    (forall user_query, generate_response result user_query = Ok text)
    /\ text <> EmptyString.
Proof.
  intros E. unfold generate_response. rewrite E.
  destruct (compatible result) as [[|]|];
    (eexists; split; [reflexivity | cbn [append]; discriminate]).
Qed.

(** X8.  Once the identifiers are resolved the compatibility handler always
    returns, with a text to show; it gives a verdict exactly when it
    reports no error, and then also the part and both identifiers. *)
Theorem compatibility_reply_after_resolution :
  forall (chat_with_system : Client) (db : list Part) (user_query : string)
         (part_number model_number : option string)
         (conversation_history : list Message)
         (ids : option string * option string),
    resolve chat_with_system user_query part_number model_number
            conversation_history = Ok ids ->
    exists reply,
      handle_query chat_with_system db user_query part_number model_number
                   conversation_history = Ok reply
      /\ agent reply = "compatibility"
      /\ response reply <> EmptyString
      /\ (r_error reply = None <-> r_compatible reply <> None)
      /\ (r_error reply = None ->
          r_part reply <> None
          /\ truthy (r_part_number reply) = true
          /\ truthy (r_model_number reply) = true).
Proof.
  intros chat_with_system db user_query part_number model_number
         conversation_history [pn mn] Hres.
  unfold handle_query. rewrite Hres. cbn [bind fst snd]. unfold answer.
  destruct pn as [[|c1 p]|]; destruct mn as [[|c2 m]|]; cbn [truthy negb andb];
    try (eexists; split; [reflexivity|];
         repeat split; try discriminate; try congruence;
         cbn; intros H; congruence).
  destruct (check_found_or_not db (String c1 p) (String c2 m))
    as [[E _]|[E [Hc Hp]]]; rewrite E.
  - eexists. split; [reflexivity|].
    repeat split; try discriminate; try congruence.
    cbn. intros H. congruence.
  - destruct (generate_response_text _ E) as [text [Htext Hne]].
    rewrite Htext. cbn [try_except bind]. eexists. split; [reflexivity|].
    cbn [agent response r_error r_compatible r_part r_part_number
         r_model_number truthy].
    repeat split; try assumption; try reflexivity.
    intros _. assumption.
Qed.

Lemma compatibility_reply_after_resolution_witness :
  resolve Samples.failing_client "is it ok?" (Some "PS404") (Some "WDT780SAEM1") []
  = Ok (Some "PS404", Some "WDT780SAEM1")
  /\ exists reply,
      handle_query Samples.failing_client Samples.catalog "is it ok?"
                   (Some "PS404") (Some "WDT780SAEM1") [] = Ok reply
      /\ response reply <> EmptyString.
Proof.
  split; [reflexivity|].
  destruct (compatibility_reply_after_resolution
              Samples.failing_client Samples.catalog "is it ok?"
              (Some "PS404") (Some "WDT780SAEM1") []
              (Some "PS404", Some "WDT780SAEM1") eq_refl)
    as [reply [Hreply [_ [Hne _]]]].
  exists reply. split; assumption.
Defined.

Lemma py_or_keeps (a b : option string) : truthy a = true -> py_or a b = a.
Proof.
  intros H. unfold py_or. now rewrite H.
Qed.

(** X9.  The resolution chain never replaces an identifier that an earlier
    stage gave: an explicit argument is kept, and reading the history does
    not change an identifier that was resolved without it. *)
Theorem resolve_keeps_earlier_stages :
  forall (chat_with_system : Client) (user_query : string)
         (part_number model_number : option string)
         (conversation_history : list Message) (a b : option string),
    resolve chat_with_system user_query part_number model_number
            conversation_history = Ok (a, b) ->
    (truthy part_number = true -> a = part_number)
    /\ (truthy model_number = true -> b = model_number)
    /\ (forall a0 b0,
           resolve chat_with_system user_query part_number model_number []
           = Ok (a0, b0) ->
           (truthy a0 = true -> a = a0) /\ (truthy b0 = true -> b = b0)).
Proof.
  intros chat_with_system user_query part_number model_number
         conversation_history a b.
  unfold resolve.
  destruct (if negb (truthy part_number) || negb (truthy model_number)
            then _ else Ok (part_number, model_number))
    as [[a1 b1]|e] eqn:Stage; cbn [bind]; [|discriminate].
  assert (Hfirst : (truthy part_number = true -> a1 = part_number)
                   /\ (truthy model_number = true -> b1 = model_number)).
  { revert Stage.
    destruct (negb (truthy part_number) || negb (truthy model_number)).
    - destruct (extract_part_and_model chat_with_system user_query) as [ext|e];
        cbn [bind]; [|discriminate].
      intros H. inversion H. subst. split; intros T; now apply py_or_keeps.
    - intros H. inversion H. split; reflexivity. }
  intros Hres.
  assert (Hlast : (truthy a1 = true -> a = a1) /\ (truthy b1 = true -> b = b1)).
  { revert Hres. destruct conversation_history as [|m rest].
    - intros H. inversion H. split; reflexivity.
    - destruct (negb (truthy a1) || negb (truthy b1)).
      + intros H. inversion H. subst. split; intros T; now apply py_or_keeps.
      + intros H. inversion H. split; reflexivity. }
  destruct Hfirst as [F1 F2]. destruct Hlast as [L1 L2].
  split; [|split].
  - intros T. pose proof (F1 T) as E1. rewrite <- E1 in T.
    rewrite (L1 T). exact E1.
  - intros T. pose proof (F2 T) as E2. rewrite <- E2 in T.
    rewrite (L2 T). exact E2.
  - intros a0 b0 H0. inversion H0. subst a0 b0. split; assumption.
Qed.

Lemma resolve_keeps_earlier_stages_witness :
  resolve Samples.failing_client "is PS100 fine with my ABCDE12345?"
          (Some "PS7") None Samples.two_turns
  = Ok (Some "PS7", Some "ABCDE12345")
  /\ forall a b,
      resolve Samples.failing_client "is PS100 fine with my ABCDE12345?"
              (Some "PS7") None Samples.two_turns = Ok (a, b) ->
      a = Some "PS7".
Proof.
  split; [vm_compute; reflexivity|].
  intros a b H.
  apply (resolve_keeps_earlier_stages _ _ _ _ _ _ _ H). reflexivity.
Defined.

End CompatibilityReplies.

(** ** More on routing *)

Section RoutingRules.

Import Router.

(** X1.  The second pre-rule.  A message with an installation keyword and a
    part number is routed to INSTALLATION_HELP for every history and every
    completion service, so without asking it. *)
Theorem route_explicit_install :
  forall (chat_with_system : Client) (user_message : string)
         (conversation_history : list Message),
    any_in install_keywords (lower user_message) = true ->
    Shape.mentions_part user_message = true ->
    route chat_with_system user_message conversation_history
    = Ok "INSTALLATION_HELP".
Proof.
  intros chat_with_system user_message conversation_history Hkw Hpart.
  rewrite <- has_part_id_iff_mentions_part in Hpart.
  unfold route, explicit_install_query. rewrite Hkw, Hpart. cbn [andb].
  destruct (time_query_with_context user_message conversation_history);
    reflexivity.
Qed.

Lemma route_explicit_install_witness :
  any_in install_keywords (lower "How do I install PS11752778") = true
  /\ route Samples.failing_client "How do I install PS11752778" []
     = Ok "INSTALLATION_HELP".
Proof.
  split; [vm_compute; reflexivity|].
  apply (route_explicit_install Samples.failing_client
                                "How do I install PS11752778" []);
    vm_compute; reflexivity.
Defined.

(** X2.  No pre-rule fires without a part number: when neither the message
    nor one of the last three turns mentions one, the route is the
    validated answer of the classifier, whatever keywords the message
    has. *)
Theorem route_without_part_context :
  forall (chat_with_system : Client) (user_message : string)
         (conversation_history : list Message),
    Shape.mentions_part user_message = false ->
    (forall turn, In turn (last_n 3 conversation_history) ->
                  Shape.mentions_part (get_content turn) = false) ->
    route chat_with_system user_message conversation_history
    = (response <- chat_with_system RouterPrompt user_message ;;
       Ok (validate response)).
Proof.
  intros chat_with_system user_message conversation_history Hmsg Hhist.
  rewrite <- has_part_id_iff_mentions_part in Hmsg.
  assert (Hctx : history_has_part conversation_history = false).
  { unfold history_has_part. destruct conversation_history as [|m rest];
      [reflexivity|].
    destruct (existsb _ _) eqn:E; [|reflexivity].
    apply existsb_exists in E. destruct E as [turn [Hin Hturn]].
    rewrite has_part_id_iff_mentions_part, (Hhist turn Hin) in Hturn.
    discriminate. }
  unfold route, time_query_with_context, explicit_install_query.
  rewrite Hmsg, Hctx, andb_false_r.
  destruct (any_in duration_keywords (lower user_message)); reflexivity.
Qed.

Lemma route_without_part_context_witness :
  Shape.mentions_part "how long does it take to replace a door seal?" = false
  /\ route (Samples.echo_client "installation_help")
           "how long does it take to replace a door seal?"
           [Samples.user_says "hello"]
     = Ok "INSTALLATION_HELP"
  /\ route Samples.failing_client
           "how long does it take to replace a door seal?"
           [Samples.user_says "hello"]
     = Raise RequestException.
Proof.
  split; [vm_compute; reflexivity|].
  split;
    (rewrite route_without_part_context;
     [reflexivity | vm_compute; reflexivity
      | intros turn [H|[]]; subst; vm_compute; reflexivity]).
Defined.

Lemma last_n_short {A : Type} (n : nat) (l : list A) :
  length l <= n -> last_n n l = l.
Proof.
  intros H. unfold last_n. replace (length l - n) with 0 by lia. reflexivity.
Qed.

Lemma last_n_idem {A : Type} (n : nat) (l : list A) :
  last_n n (last_n n l) = last_n n l.
Proof.
  apply last_n_short. rewrite (proj2 (last_n_suffix n l)). lia.
Qed.

(** X3.  The router reads the history through its last three turns only. *)
Theorem route_reads_last_three :
  forall (chat_with_system : Client) (user_message : string)
         (conversation_history : list Message),
    route chat_with_system user_message conversation_history
    = route chat_with_system user_message (last_n 3 conversation_history).
Proof.
  intros chat_with_system user_message conversation_history.
  assert (H : history_has_part conversation_history
              = history_has_part (last_n 3 conversation_history)).
  { unfold history_has_part. rewrite last_n_idem.
    destruct conversation_history as [|m rest]; [reflexivity|].
    destruct (last_n 3 (m :: rest)) eqn:E; reflexivity. }
  unfold route, time_query_with_context. now rewrite H.
Qed.

End RoutingRules.

(** ** More on the installation handler *)

Section InstallationReplies.

Import Installation.

Lemma suggestion_lines_plain (parts : list PartDict) : forall i,
  exists text, suggestion_lines false i parts = Ok text.
Proof.
  induction parts as [|d parts IH]; intros i; cbn [suggestion_lines bind].
  - eauto.
  - destruct (IH (S i)) as [more Hmore]. rewrite Hmore. cbn [bind]. eauto.
Qed.

Lemma suggestion_lines_described (parts : list PartDict) : forall i,
  (forall d, In d parts -> d_description d <> None) ->
  exists text, suggestion_lines true i parts = Ok text.
Proof.
  induction parts as [|d parts IH]; intros i Hall; cbn [suggestion_lines].
  - eauto.
  - destruct (d_description d) as [text|] eqn:E.
    + destruct (IH (S i)) as [more Hmore];
        [intros d' Hd'; apply Hall; now right|].
      rewrite Hmore. cbn [bind]. eauto.
    + exfalso. apply (Hall d); [now left | assumption].
Qed.

Lemma suggestion_lines_undescribed (parts : list PartDict) : forall i,
  (exists d, In d parts /\ d_description d = None) ->
  suggestion_lines true i parts = Raise TypeError.
Proof.
  induction parts as [|d parts IH]; intros i [d0 [Hin Hnone]];
    cbn [suggestion_lines]; [contradiction|].
  destruct (d_description d) as [text|] eqn:E; [|reflexivity].
  cbn [bind]. rewrite IH; [reflexivity|].
  destruct Hin as [Hin|Hin]; [subst; congruence|]. eauto.
Qed.

Lemma resolve_part_explicit (chat_with_system : Client) (user_query pn : string)
      (conversation_history : list Message) :
  pn <> EmptyString ->
  resolve_part chat_with_system user_query (Some pn) conversation_history
  = Ok (Some pn).
Proof.
  intros Hpn. unfold resolve_part. rewrite (truthy_nonempty pn Hpn).
  cbn [negb bind]. destruct conversation_history; [reflexivity|].
  now rewrite (truthy_nonempty pn Hpn).
Qed.

(** X12.  With the part number given, and for a question that is not about
    duration, the installation handler always returns, whatever the
    completion service does.  An unknown part gives PART_NOT_FOUND with the
    number; a part without recorded steps gives NO_INSTALLATION_STEPS with
    the part; a part with steps gives no error and the part, its steps and
    its difficulty. *)
Theorem installation_reply_for_part :
  forall (chat_with_system : Client) (vector_store : option VectorStore)
         (db : list Part) (user_query pn : string)
         (conversation_history : list Message),
    pn <> EmptyString ->
    any_in Router.duration_keywords (lower user_query) = false ->
    exists reply,
      handle_query chat_with_system vector_store db user_query (Some pn)
                   conversation_history = Ok reply
      /\ agent reply = "installation"
      /\ (find_part db pn = None ->
          r_error reply = Some "PART_NOT_FOUND" /\ r_part_number reply = Some pn)
      /\ (forall p, find_part db pn = Some p ->
                    installation_steps p = None \/ installation_steps p = Some [] ->
                    r_error reply = Some "NO_INSTALLATION_STEPS"
                    /\ r_part reply = Some (to_dict p)
                    /\ r_steps reply = None)
      /\ (forall p step steps,
             find_part db pn = Some p ->
             installation_steps p = Some (step :: steps) ->
             r_error reply = None
             /\ r_part reply = Some (to_dict p)
             /\ r_steps reply = Some (step :: steps)).
Proof.
  intros chat_with_system vector_store db user_query pn conversation_history
         Hpn Hkw.
  unfold handle_query. rewrite (resolve_part_explicit _ _ _ _ Hpn).
  cbn [bind]. rewrite Hkw, (truthy_nonempty pn Hpn). cbn [negb str_val].
  unfold get_installation_instructions.
  destruct (find_part db pn) as [p|] eqn:Hfound.
  - cbn [i_steps].
    destruct (installation_steps p) as [[|step steps]|] eqn:Hsteps.
    + eexists. split; [reflexivity|]. split; [reflexivity|].
      split; [discriminate|]. split.
      * intros p' Hp' _. inversion Hp'. subst. repeat split.
      * intros p' st sts Hp' Hs. inversion Hp'. subst. congruence.
    + unfold generate_response. cbn [i_difficulty i_part i_steps].
      destruct (chat_with_system _ user_query) as [text|e];
        cbn [bind try_except];
        (eexists; split; [reflexivity|]; split; [reflexivity|];
         split; [discriminate|]; split;
         [ intros p' Hp' [Hs|Hs]; inversion Hp'; subst; congruence
         | intros p' st sts Hp' Hs; inversion Hp'; subst;
           rewrite Hsteps in Hs; inversion Hs; subst; repeat split ]).
    + eexists. split; [reflexivity|]. split; [reflexivity|].
      split; [discriminate|]. split.
      * intros p' Hp' _. inversion Hp'. subst. repeat split.
      * intros p' st sts Hp' Hs. inversion Hp'. subst. congruence.
  - unfold part_not_found.
    match goal with
    | |- context [suggestion_lines false 1 ?l] =>
        destruct (suggestion_lines_plain l 1) as [lines Hlines]; rewrite Hlines
    end.
    match goal with
    | |- context [match ?l with [] => _ | _ :: _ => _ end] =>
        destruct l eqn:Hl
    end;
      cbn [bind];
      (eexists; split; [reflexivity|]; split; [reflexivity|];
       split; [intros _; split; reflexivity|]; split;
       [intros p' Hp'; discriminate | intros p' st sts Hp'; discriminate]).
Qed.

Lemma installation_reply_for_part_witness :
  "PS11752778" <> EmptyString
  /\ any_in Router.duration_keywords (lower "install PS11752778") = false
  /\ exists reply,
      handle_query Samples.failing_client None Samples.catalog
                   "install PS11752778" (Some "PS11752778") [] = Ok reply
      /\ r_steps reply = Some ["Unplug the refrigerator"; "Swap the unit"].
Proof.
  split; [discriminate|]. split; [vm_compute; reflexivity|].
  destruct (installation_reply_for_part
              Samples.failing_client None Samples.catalog
              "install PS11752778" "PS11752778" [])
    as [reply [Hreply [_ [_ [_ Hsteps]]]]];
    [discriminate | vm_compute; reflexivity |].
  exists reply. split; [exact Hreply|].
  apply (Hsteps Samples.ice_maker "Unplug the refrigerator" ["Swap the unit"]);
    reflexivity.
Defined.

(** X13.  Without a part number, and for a question that is not about
    duration, the handler suggests the parts the similarity search found.
    The suggestion text takes the first 80 characters of each description:
    when one of the suggested parts has no description the handler raises
    a TypeError; otherwise it answers NO_PART_NUMBER with the suggested
    parts. *)
Theorem installation_reply_without_part :
  forall (chat_with_system : Client) (vector_store : option VectorStore)
         (db : list Part) (user_query : string) (part_number unresolved : option string)
         (conversation_history : list Message),
    any_in Router.duration_keywords (lower user_query) = false ->
    resolve_part chat_with_system user_query part_number conversation_history
    = Ok unresolved ->
    truthy unresolved = false ->
    let suggested := find_relevant_parts vector_store db user_query 3 in
    ((exists d, In d suggested /\ d_description d = None) ->
     handle_query chat_with_system vector_store db user_query part_number
                  conversation_history = Raise TypeError)
    /\ ((forall d, In d suggested -> d_description d <> None) ->
        exists reply,
          handle_query chat_with_system vector_store db user_query part_number
                       conversation_history = Ok reply
          /\ r_error reply = Some "NO_PART_NUMBER"
          /\ r_suggested_parts reply
             = match suggested with [] => None | _ :: _ => Some suggested end).
Proof.
  intros chat_with_system vector_store db user_query part_number unresolved
         conversation_history Hkw Hres Hun suggested.
  unfold handle_query. rewrite Hres. cbn [bind]. rewrite Hkw, Hun. cbn [negb].
  unfold no_part_number. fold suggested. split.
  - intros Hex. destruct suggested as [|d ds] eqn:E.
    + destruct Hex as [d [[] _]].
    + now rewrite (suggestion_lines_undescribed (d :: ds) 1 Hex).
  - intros Hall. destruct suggested as [|d ds] eqn:E.
    + eexists. repeat split.
    + destruct (suggestion_lines_described (d :: ds) 1 Hall) as [lines Hlines].
      rewrite Hlines. cbn [bind]. eexists. repeat split.
Qed.

Lemma installation_reply_without_part_witness :
  resolve_part (Samples.echo_client "NONE") "how do I fit the gasket?" None []
  = Ok None
  /\ handle_query (Samples.echo_client "NONE") (Some (fun _ _ _ => ["PS100"]))
                  [Samples.ps100] "how do I fit the gasket?" None []
     = Raise TypeError.
Proof.
  split; [vm_compute; reflexivity|].
  apply (installation_reply_without_part
           (Samples.echo_client "NONE") (Some (fun _ _ _ => ["PS100"]))
           [Samples.ps100] "how do I fit the gasket?" None None []);
    [vm_compute; reflexivity | vm_compute; reflexivity | reflexivity |].
  exists (to_dict Samples.ps100). split; [now left | reflexivity].
Defined.

(** X14.  A duration question is answered by the time estimate branch before
    any other check: the similarity search is not used, a part without
    recorded steps still gets its estimate, and the only errors are a
    missing part number and an unknown part. *)
Theorem duration_question_reply :
  forall (chat_with_system : Client) (vector_store : option VectorStore)
         (db : list Part) (user_query : string)
         (part_number resolved : option string)
         (conversation_history : list Message),
    any_in Router.duration_keywords (lower user_query) = true ->
    resolve_part chat_with_system user_query part_number conversation_history
    = Ok resolved ->
    exists reply,
      (forall vs : option VectorStore,
          handle_query chat_with_system vs db user_query part_number
                       conversation_history = Ok reply)
      /\ (truthy resolved = false ->
          r_error reply = Some "NO_PART_NUMBER_FOR_TIME_ESTIMATE")
      /\ (truthy resolved = true -> find_part db (str_val resolved) = None ->
          r_error reply = Some "PART_NOT_FOUND")
      /\ (forall p, truthy resolved = true ->
                    find_part db (str_val resolved) = Some p ->
                    r_error reply = None
                    /\ r_part reply = Some (to_dict p)
                    /\ r_estimated_time reply <> None)
      /\ (r_error reply = None <-> r_estimated_time reply <> None).
Proof.
  intros chat_with_system vector_store db user_query part_number resolved
         conversation_history Hkw Hres.
  exists (handle_time_estimate_query db user_query resolved conversation_history).
  split.
  - intros vs. unfold handle_query. rewrite Hres. cbn [bind]. now rewrite Hkw.
  - unfold handle_time_estimate_query, get_installation_instructions.
    destruct (truthy resolved); cbn [negb].
    + destruct (find_part db (str_val resolved)) as [p|].
      * cbn [r_error r_part r_estimated_time i_part].
        repeat split; try discriminate; try congruence.
      * cbn [r_error r_part r_estimated_time].
        repeat split; try discriminate; try congruence.
    + cbn [r_error r_part r_estimated_time no_part_number_for_time_estimate].
      repeat split; try discriminate; try congruence.
Qed.

Lemma duration_question_reply_witness :
  any_in Router.duration_keywords (lower "how long for PS100?") = true
  /\ exists reply,
      handle_query Samples.failing_client None [Samples.ps100]
                   "how long for PS100?" None [] = Ok reply
      /\ r_error reply = None.
Proof.
  split; [vm_compute; reflexivity|].
  destruct (duration_question_reply
              Samples.failing_client None [Samples.ps100]
              "how long for PS100?" None (Some "PS100") [])
    as [reply [Hreply [_ [_ [Hfound _]]]]];
    [vm_compute; reflexivity | vm_compute; reflexivity |].
  exists reply. split; [apply Hreply|].
  apply (Hfound Samples.ps100); reflexivity.
Defined.

End InstallationReplies.

(** ** What the search handlers return *)

Section SearchReplies.

Lemma load_parts_from_catalog (db : list Part) (part_numbers : list string)
      (d : PartDict) :
  In d (load_parts db part_numbers) ->
  exists p, In p db /\ d = to_dict p /\ In (part_number p) part_numbers.
Proof.
  unfold load_parts. intros H. apply in_flat_map in H.
  destruct H as [pn [Hpn Hd]].
  destruct (find_part db pn) as [p|] eqn:E; [|contradiction].
  destruct Hd as [Hd|[]]. apply find_part_found in E. destruct E as [Hin Heq].
  exists p. repeat split; [assumption | now symmetry | now rewrite Heq].
Qed.

Lemma load_parts_filter_nil (db : list Part) (f : string -> bool)
      (part_numbers : list string) :
  load_parts db part_numbers = [] -> load_parts db (filter f part_numbers) = [].
Proof.
  unfold load_parts. induction part_numbers as [|pn pns IH]; cbn [flat_map filter];
    [reflexivity|].
  intros H. apply app_eq_nil in H. destruct H as [H1 H2].
  destruct (f pn); cbn [flat_map]; [rewrite H1|]; now apply IH.
Qed.

Lemma search_parts_from_catalog (vector_store : VectorStore) (db : list Part)
      (query : string) (category reference : option string) (d : PartDict) :
  In d (ProductSearch.search_parts vector_store db query category reference) ->
  exists p, In p db /\ d = to_dict p.
Proof.
  unfold ProductSearch.search_parts, ProductSearch.standard_search.
  intros H.
  assert (G : forall l, In d (load_parts db l) -> exists p, In p db /\ d = to_dict p).
  { intros l Hl. apply load_parts_from_catalog in Hl.
    destruct Hl as [p [Hp [Hd _]]]. eauto. }
  destruct (truthy reference); [|eapply G; eauto].
  destruct (find_part db (str_val reference)); [|eapply G; eauto].
  apply In_firstn in H. eapply G; eauto.
Qed.

Lemma group_add_members (key : string) (d : PartDict)
      (groups : list (string * list PartDict)) (x : PartDict) :
  (exists g, In g (ProductSearch.group_add key d groups) /\ In x (snd g))
  -> x = d \/ exists g, In g groups /\ In x (snd g).
Proof.
  induction groups as [|[k l] groups IH]; cbn [ProductSearch.group_add].
  - intros [g [[Hg|[]] Hx]]. subst g. destruct Hx as [Hx|[]]. now left.
  - destruct (String.eqb k key).
    + intros [g [[Hg|Hg] Hx]].
      * subst g. cbn [snd] in Hx. apply in_app_or in Hx.
        destruct Hx as [Hx|[Hx|[]]]; [|now left].
        right. exists (k, l). split; [now left | assumption].
      * right. exists g. split; [now right | assumption].
    + intros [g [[Hg|Hg] Hx]].
      * right. exists g. split; [now left | assumption].
      * destruct IH as [H|[g' [Hg' Hx']]]; [eauto | now left |].
        right. exists g'. split; [now right | assumption].
Qed.

Lemma overview_members (db : list Part) (category : option string) (x : PartDict) :
  (exists g, In g (ProductSearch.o_subcategories
                     (ProductSearch.get_available_parts_by_category db category))
             /\ In x (snd g)) ->
  exists p, In p db /\ x = to_dict p.
Proof.
  unfold ProductSearch.get_available_parts_by_category.
  cbn [ProductSearch.o_subcategories].
  set (all_parts := if truthy category then _ else db).
  assert (Hsub : incl all_parts db).
  { subst all_parts. destruct (truthy category); [|apply incl_refl].
    intros p Hp. apply filter_In in Hp. tauto. }
  revert Hsub. generalize all_parts. clear all_parts. intros all_parts Hsub.
  assert (G : forall groups,
             (forall y, (exists g, In g groups /\ In y (snd g)) ->
                        exists p, In p db /\ y = to_dict p) ->
             (exists g,
                 In g (fold_left
                         (fun groups p =>
                            ProductSearch.group_add
                              (if truthy (subcategory p)
                               then str_val (subcategory p) else "Other")
                              (to_dict p) groups) all_parts groups)
                 /\ In x (snd g)) ->
             exists p, In p db /\ x = to_dict p).
  { induction all_parts as [|q qs IH]; intros groups Hg; cbn [fold_left].
    - apply Hg.
    - apply IH; [intros p Hp; apply Hsub; now right|].
      intros y Hy. apply group_add_members in Hy. destruct Hy as [Hy|Hy].
      + exists q. split; [apply Hsub; now left | assumption].
      + now apply Hg. }
  apply G. intros y [g [[] _]].
Qed.

Lemma Ok_inj {A : Type} (x y : A) : @Ok A x = Ok y -> x = y.
Proof.
  intros H. congruence.
Qed.

(** X18.  Whatever the product search handler returns was read from the
    catalog: every part of the answer is the record of a catalog part; the
    answer has at most five parts, and at most three outside the meta
    branch. *)
Theorem product_search_parts_from_catalog :
  forall (chat_with_system : Client) (vector_store : VectorStore)
         (db : list Part) (list_of_set : list string -> list string)
         (user_query : string) (category : option string)
         (conversation_history : list Message) (reply : ProductSearch.Reply),
    ProductSearch.handle_query chat_with_system vector_store db list_of_set
                               user_query category conversation_history
    = Ok reply ->
    (forall d, In d (ProductSearch.parts reply) ->
               exists p, In p db /\ d = to_dict p)
    /\ length (ProductSearch.parts reply) <= 5
    /\ (ProductSearch.is_meta_query user_query = false ->
        length (ProductSearch.parts reply) <= 3)
    /\ ProductSearch.agent reply = "product_search".
Proof.
  intros chat_with_system vector_store db list_of_set user_query category
         conversation_history reply.
  unfold ProductSearch.handle_query.
  destruct (ProductSearch.is_meta_query user_query).
  - destruct (ProductSearch.generate_meta_response _ _ _) as [text|e];
      cbn [bind]; [|discriminate].
    intros H. apply Ok_inj in H. subst reply.
    cbv [ProductSearch.parts ProductSearch.agent].
    split; [|split; [|split]]; try reflexivity; try discriminate.
    + intros d Hd. apply In_firstn in Hd. apply in_flat_map in Hd.
      destruct Hd as [g [Hg Hd]]. apply In_firstn in Hd.
      eapply overview_members. eauto.
    + apply firstn_le_length.
  - match goal with
    | |- context [let '(eq, rp) := ?c in _] => destruct c as [enhanced ref]
    end.
    destruct (ProductSearch.generate_response _ _ _ _) as [text|e];
      cbn [bind]; [|discriminate].
    intros H. apply Ok_inj in H. subst reply.
    cbv [ProductSearch.parts ProductSearch.agent].
    split; [|split; [|split]]; try reflexivity.
    + intros d Hd. apply In_firstn in Hd.
      eapply search_parts_from_catalog; eauto.
    + apply Nat.le_trans with 3; [apply firstn_le_length | lia].
    + intros _. apply firstn_le_length.
Qed.

Lemma product_search_parts_from_catalog_witness :
  ProductSearch.handle_query (Samples.echo_client "Here you are.")
                             Samples.every_part Samples.catalog (fun l => l)
                             "water filter" None []
  = Ok {| ProductSearch.response := "Here you are.";
          ProductSearch.parts :=
            [to_dict Samples.ice_maker;
             to_dict (Samples.numbered_part 2 "PS2");
             to_dict (Samples.numbered_part 3 "PS3")];
          ProductSearch.agent := "product_search" |}
  /\ length [to_dict Samples.ice_maker;
             to_dict (Samples.numbered_part 2 "PS2");
             to_dict (Samples.numbered_part 3 "PS3")] <= 5.
Proof.
  split; [vm_compute; reflexivity|].
  apply (product_search_parts_from_catalog
           (Samples.echo_client "Here you are.")
           Samples.every_part Samples.catalog (fun l => l)
           "water filter" None []
           {| ProductSearch.response := "Here you are.";
              ProductSearch.parts :=
                [to_dict Samples.ice_maker;
                 to_dict (Samples.numbered_part 2 "PS2");
                 to_dict (Samples.numbered_part 3 "PS3")];
              ProductSearch.agent := "product_search" |}).
  vm_compute. reflexivity.
Defined.

(** X19.  When the search brings back no part of the catalog, a product
    search that is no meta-query answers with a fixed request for details
    and an empty part list, and does so without the completion service. *)
Theorem product_search_nothing_found :
  forall (chat_with_system : Client) (vector_store : VectorStore)
         (db : list Part) (list_of_set : list string -> list string)
         (user_query : string) (category : option string)
         (conversation_history : list Message),
    ProductSearch.is_meta_query user_query = false ->
    (forall query n filter, load_parts db (vector_store query n filter) = []) ->
    ProductSearch.handle_query chat_with_system vector_store db list_of_set
                               user_query category conversation_history
    = Ok {| ProductSearch.response :=
              "I couldn't find any parts matching your search. Could you provide more details about what you're looking for?";
            ProductSearch.parts := [];
            ProductSearch.agent := "product_search" |}.
Proof.
  intros chat_with_system vector_store db list_of_set user_query category
         conversation_history Hmeta Hnone.
  assert (Hsearch : forall q c r,
             ProductSearch.search_parts vector_store db q c r = []).
  { intros q c r. unfold ProductSearch.search_parts, ProductSearch.standard_search.
    destruct (truthy r); [|apply Hnone].
    destruct (find_part db (str_val r)); [|apply Hnone].
    rewrite load_parts_filter_nil; [reflexivity | apply Hnone]. }
  unfold ProductSearch.handle_query. rewrite Hmeta.
  match goal with
  | |- context [let '(eq, rp) := ?c in _] => destruct c as [enhanced ref]
  end.
  rewrite Hsearch. reflexivity.
Qed.

Lemma product_search_nothing_found_witness :
  ProductSearch.is_meta_query "spray arm" = false
  /\ ProductSearch.handle_query Samples.failing_client (fun _ _ _ => [])
                                Samples.catalog (fun l => l) "spray arm" None []
     = Ok {| ProductSearch.response :=
               "I couldn't find any parts matching your search. Could you provide more details about what you're looking for?";
             ProductSearch.parts := [];
             ProductSearch.agent := "product_search" |}.
Proof.
  split; [vm_compute; reflexivity|].
  apply (product_search_nothing_found
           Samples.failing_client (fun _ _ _ => []) Samples.catalog (fun l => l)
           "spray arm" None []); [vm_compute; reflexivity | reflexivity].
Defined.

(** X23.  The troubleshooting handler has no error code.  When the search
    brings back no part of the catalog it answers with a fixed request for
    details, without the completion service; when it returns, its
    suggestions are at most three parts of the catalog. *)
Theorem troubleshooting_reply :
  forall (chat_with_system : Client) (vector_store : VectorStore)
         (db : list Part) (user_query : string)
         (conversation_history : list Message),
    ((forall query n filter, load_parts db (vector_store query n filter) = []) ->
     Troubleshooting.handle_query chat_with_system vector_store db user_query
                                  conversation_history
     = Ok {| Troubleshooting.response :=
               "I understand you're having an issue. Could you provide more details about what's happening with your appliance?";
             Troubleshooting.suggested_parts := [];
             Troubleshooting.agent := "troubleshooting" |})
    /\ (forall reply,
           Troubleshooting.handle_query chat_with_system vector_store db
                                        user_query conversation_history
           = Ok reply ->
           length (Troubleshooting.suggested_parts reply) <= 3
           /\ (forall d, In d (Troubleshooting.suggested_parts reply) ->
                         exists p, In p db /\ d = to_dict p)
           /\ Troubleshooting.agent reply = "troubleshooting").
Proof.
  intros chat_with_system vector_store db user_query conversation_history.
  unfold Troubleshooting.handle_query, Troubleshooting.diagnose_problem. split.
  - intros Hnone. rewrite Hnone. reflexivity.
  - intros reply.
    destruct (Troubleshooting.generate_response _ _ _ _) as [text|e];
      cbn [bind]; [|discriminate].
    intros H. apply Ok_inj in H. subst reply.
    cbv [Troubleshooting.suggested_parts Troubleshooting.agent].
    split; [apply firstn_le_length|]. split; [|reflexivity].
    intros d Hd. apply In_firstn in Hd. apply load_parts_from_catalog in Hd.
    destruct Hd as [p [Hp [Hd _]]]. eauto.
Qed.

Example troubleshooting_no_candidates :
  Troubleshooting.handle_query Samples.failing_client (fun _ _ _ => ["PS0"])
                               Samples.catalog "my oven is cold" []
  = Ok {| Troubleshooting.response :=
            "I understand you're having an issue. Could you provide more details about what's happening with your appliance?";
          Troubleshooting.suggested_parts := [];
          Troubleshooting.agent := "troubleshooting" |}.
Proof.
  vm_compute. reflexivity.
Qed.

End SearchReplies.

(** ** The overview of the catalog *)

Section CatalogOverview.
Import ProductSearch.

Lemma group_add_keys_in (key : string) (d : PartDict)
      (groups : list (string * list PartDict)) (x : string) :
  In x (map fst (group_add key d groups)) -> x = key \/ In x (map fst groups).
Proof.
  induction groups as [|[k l] rest IH]; cbn [group_add].
  - intros [H|[]]. now left.
  - destruct (String.eqb k key); cbn [map fst].
    + intros H. now right.
    + intros [H|H]; [right; now left|].
      destruct (IH H) as [E|E]; [now left | right; now right].
Qed.

Lemma group_add_NoDup (key : string) (d : PartDict)
      (groups : list (string * list PartDict)) :
  NoDup (map fst groups) -> NoDup (map fst (group_add key d groups)).
Proof.
  induction groups as [|[k l] rest IH]; cbn [group_add].
  - intros _. constructor; [intros [] | constructor].
  - destruct (String.eqb k key) eqn:E; cbn [map fst]; intros H;
      [assumption|].
    inversion H as [|? ? Hk Hrest]; subst. constructor; [|now apply IH].
    intros Hin. apply group_add_keys_in in Hin. destruct Hin as [Hin|Hin].
    + subst k. rewrite String.eqb_refl in E. discriminate.
    + contradiction.
Qed.

Lemma group_add_sizes (key : string) (d : PartDict)
      (groups : list (string * list PartDict)) :
  list_sum (Shape.group_sizes (group_add key d groups))
  = S (list_sum (Shape.group_sizes groups)).
Proof.
  unfold Shape.group_sizes.
  induction groups as [|[k l] rest IH]; cbn [group_add]; [reflexivity|].
  destruct (String.eqb k key); cbn [map snd]; unfold list_sum in *;
    cbn [fold_right].
  - rewrite length_app. cbn [length]. lia.
  - rewrite IH. lia.
Qed.

Lemma group_add_well_grouped (P : PartDict -> Prop) (key : string) (d : PartDict)
      (groups : list (string * list PartDict)) :
  Shape.subcategory_key d = key -> P d ->
  (forall g, In g groups ->
             snd g <> []
             /\ forall x, In x (snd g) -> Shape.subcategory_key x = fst g /\ P x) ->
  forall g, In g (group_add key d groups) ->
            snd g <> []
            /\ forall x, In x (snd g) -> Shape.subcategory_key x = fst g /\ P x.
Proof.
  intros Hk Hd.
  induction groups as [|[k l] rest IH]; cbn [group_add]; intros Hg g Hin.
  - destruct Hin as [Hin|[]]. subst g. cbn [fst snd]. split; [discriminate|].
    intros x [Hx|[]]. subst x. now split.
  - destruct (String.eqb k key) eqn:E.
    + destruct Hin as [Hin|Hin].
      * subst g. cbn [fst snd]. apply String.eqb_eq in E. split.
        { destruct l; discriminate. }
        intros x Hx. apply in_app_or in Hx. destruct Hx as [Hx|[Hx|[]]].
        { apply (Hg (k, l)); [now left | assumption]. }
        { subst x. split; [congruence | assumption]. }
      * apply Hg. now right.
    + destruct Hin as [Hin|Hin].
      * subst g. apply Hg. now left.
      * apply IH; [|assumption]. intros g' Hg'. apply Hg. now right.
Qed.

Lemma grouping_invariant (P : PartDict -> Prop) (all_parts : list Part) :
  (forall p, In p all_parts -> P (to_dict p)) ->
  forall groups,
    NoDup (map fst groups) ->
    (forall g, In g groups ->
               snd g <> []
               /\ forall x, In x (snd g) -> Shape.subcategory_key x = fst g /\ P x) ->
    let result :=
      fold_left (fun groups p =>
                   group_add (if truthy (subcategory p)
                              then str_val (subcategory p) else "Other")
                             (to_dict p) groups)
                all_parts groups in
    NoDup (map fst result)
    /\ list_sum (Shape.group_sizes result)
       = length all_parts + list_sum (Shape.group_sizes groups)
    /\ forall g, In g result ->
                 snd g <> []
                 /\ forall x, In x (snd g) ->
                              Shape.subcategory_key x = fst g /\ P x.
Proof.
  induction all_parts as [|p ps IH]; intros HP groups Hnd Hg; cbn [fold_left].
  - cbv zeta. split; [assumption|]. split; [reflexivity | assumption].
  - cbv zeta.
    destruct (IH (fun q Hq => HP q (or_intror Hq))
                 (group_add (if truthy (subcategory p)
                             then str_val (subcategory p) else "Other")
                            (to_dict p) groups)) as [H1 [H2 H3]].
    + now apply group_add_NoDup.
    + apply group_add_well_grouped; [reflexivity | apply HP; now left | assumption].
    + split; [exact H1|]. split; [|exact H3].
      cbv zeta in H2. rewrite H2, group_add_sizes. cbn [length]. lia.
Qed.

(** X21.  The overview of the catalog is a partition of the parts it counts:
    no subcategory appears twice, no group is empty, every part is filed
    under its own subcategory, or under Other when it has none, and the
    total is the sum of the group sizes.  When a category is asked for,
    every part of the overview belongs to it. *)
Theorem parts_overview_is_partition :
  forall (db : list Part) (category : option string),
    NoDup (map fst (o_subcategories (get_available_parts_by_category db category)))
    /\ o_total_parts (get_available_parts_by_category db category)
       = list_sum (Shape.group_sizes
                     (o_subcategories (get_available_parts_by_category db category)))
    /\ (forall key group,
           In (key, group)
              (o_subcategories (get_available_parts_by_category db category)) ->
           group <> []
           /\ forall d, In d group ->
                        Shape.subcategory_key d = key
                        /\ (exists p, In p db /\ d = to_dict p)
                        /\ (truthy category = true ->
                            d_category d = str_val category)).
Proof.
  intros db category. unfold get_available_parts_by_category.
  cbn [o_subcategories o_total_parts].
  set (all_parts := if truthy category then _ else db).
  destruct (grouping_invariant
              (fun d => (exists p, In p db /\ d = to_dict p)
                        /\ (truthy category = true ->
                            d_category d = str_val category))
              all_parts) with (groups := @nil (string * list PartDict))
    as [H1 [H2 H3]].
  - intros p Hp. subst all_parts. destruct (truthy category).
    + apply filter_In in Hp. destruct Hp as [Hp E]. apply String.eqb_eq in E.
      split; [eauto|]. intros _. exact E.
    + split; [eauto | discriminate].
  - constructor.
  - intros g [].
  - split; [exact H1|]. split.
    + rewrite H2. cbn. lia.
    + intros key group Hin. destruct (H3 _ Hin) as [Hne Hmem].
      split; [exact Hne|]. intros d Hd. destruct (Hmem d Hd) as [Hk [Hp Hc]].
      repeat split; assumption.
Qed.

Lemma overview_well_grouped (db : list Part) (category : option string) :
  NoDup (map fst (o_subcategories (get_available_parts_by_category db category)))
  /\ forall g,
       In g (o_subcategories (get_available_parts_by_category db category)) ->
       snd g <> []
       /\ forall x, In x (snd g) -> Shape.subcategory_key x = fst g.
Proof.
  unfold get_available_parts_by_category. cbn [o_subcategories].
  set (all_parts := if truthy category then _ else db).
  destruct (grouping_invariant (fun _ => True) all_parts (fun _ _ => I)
                               (@nil (string * list PartDict)))
    as [H1 [_ H3]]; [constructor | intros g [] |].
  split; [exact H1|]. intros g Hg. destruct (H3 g Hg) as [Hne Hmem].
  split; [exact Hne|]. intros x Hx. apply (Hmem x Hx).
Qed.

Lemma sample_parts_keys (groups : list (string * list PartDict)) :
  (forall g, In g groups ->
             snd g <> []
             /\ forall x, In x (snd g) -> Shape.subcategory_key x = fst g) ->
  map Shape.subcategory_key (flat_map (fun g => firstn 1 (snd g)) groups)
  = map fst groups.
Proof.
  induction groups as [|[k l] rest IH]; intros H; cbn [flat_map map];
    [reflexivity|].
  destruct (H (k, l) (or_introl eq_refl)) as [Hne Hk]. cbn [fst snd] in *.
  destruct l as [|d l]; [contradiction|]. cbn [firstn app map].
  rewrite (Hk d (or_introl eq_refl)). f_equal. apply IH.
  intros g Hg. apply H. now right.
Qed.

Lemma NoDup_firstn_of {A : Type} (n : nat) (l : list A) :
  NoDup l -> NoDup (firstn n l).
Proof.
  revert l. induction n as [|n IH]; intros l H; [constructor|].
  destruct l as [|x l]; [constructor|]. cbn [firstn].
  inversion H; subst. constructor; [|now apply IH].
  intros Hin. apply In_firstn in Hin. contradiction.
Qed.

(** X22.  The answer to a meta-query shows one part for each of the first
    five subcategories of the overview: at most five parts, no two of the
    same subcategory. *)
Theorem meta_reply_one_part_per_subcategory :
  forall (chat_with_system : Client) (vector_store : VectorStore)
         (db : list Part) (list_of_set : list string -> list string)
         (user_query : string) (category : option string)
         (conversation_history : list Message) (reply : Reply),
    is_meta_query user_query = true ->
    handle_query chat_with_system vector_store db list_of_set
                 user_query category conversation_history
    = Ok reply ->
    NoDup (map Shape.subcategory_key (parts reply))
    /\ length (parts reply) <= 5.
Proof.
  intros chat_with_system vector_store db list_of_set user_query category
         conversation_history reply Hmeta.
  unfold handle_query. rewrite Hmeta.
  destruct (generate_meta_response _ _ _) as [text|e]; cbn [bind];
    [|discriminate].
  intros H. apply Ok_inj in H. subst reply. cbv [parts].
  split; [|apply firstn_le_length].
  rewrite <- firstn_map. apply NoDup_firstn_of.
  match goal with
  | |- context [get_available_parts_by_category db ?c] =>
      destruct (overview_well_grouped db c) as [H1 H3];
      rewrite sample_parts_keys; [exact H1 | exact H3]
  end.
Qed.

Lemma meta_reply_one_part_per_subcategory_witness :
  is_meta_query "What types of parts do you have?" = true
  /\ handle_query (Samples.echo_client "We have these.") Samples.every_part
                  (Samples.ps100 :: Samples.catalog) (fun l => l)
                  "What types of parts do you have?" None []
     = Ok {| response := "We have these.";
             parts := [to_dict Samples.ps100; to_dict Samples.ice_maker;
                       to_dict (Samples.numbered_part 2 "PS2")];
             agent := "product_search" |}
  /\ NoDup (map Shape.subcategory_key
                [to_dict Samples.ps100; to_dict Samples.ice_maker;
                 to_dict (Samples.numbered_part 2 "PS2")])
  /\ length [to_dict Samples.ps100; to_dict Samples.ice_maker;
             to_dict (Samples.numbered_part 2 "PS2")] <= 5.
Proof.
  split; [vm_compute; reflexivity|]. split; [vm_compute; reflexivity|].
  apply (meta_reply_one_part_per_subcategory
           (Samples.echo_client "We have these.") Samples.every_part
           (Samples.ps100 :: Samples.catalog) (fun l => l)
           "What types of parts do you have?" None []
           {| response := "We have these.";
              parts := [to_dict Samples.ps100; to_dict Samples.ice_maker;
                        to_dict (Samples.numbered_part 2 "PS2")];
              agent := "product_search" |});
    vm_compute; reflexivity.
Defined.

End CatalogOverview.

(** ** The histories the web application keeps *)

Section Sessions.
Import App.

Lemma pair_induction {A : Type} (P : list A -> Prop) :
  P [] -> (forall x, P [x]) -> (forall x y l, P l -> P (x :: y :: l)) ->
  forall l, P l.
Proof.
  intros H0 H1 H2 l.
  assert (H : P l /\ forall x, P (x :: l)).
  { induction l as [|y l [IH1 IH2]]; [split; [exact H0 | exact H1]|].
    split; [apply IH2|]. intros x. now apply H2. }
  apply H.
Qed.

Lemma alternates_app (h h' : list Message) :
  Shape.alternates h = true -> Shape.alternates h' = true ->
  Shape.alternates (h ++ h')%list = true.
Proof.
  intros H H'. revert H.
  induction h as [| x | x y l IH] using pair_induction.
  - intros _. exact H'.
  - discriminate.
  - cbn [app Shape.alternates]. intros H.
    apply andb_true_iff in H. destruct H as [H1 H2].
    rewrite H1. now apply IH.
Qed.

Lemma alternates_last_n (h : list Message) :
  Shape.alternates h = true ->
  (exists m, length h = 2 * m)
  /\ forall k, Shape.alternates (last_n (2 * k) h) = true.
Proof.
  induction h as [| x | x y l IH] using pair_induction.
  - intros _. split; [exists 0; reflexivity|]. intros k. unfold last_n.
    now rewrite skipn_nil.
  - discriminate.
  - intros H. pose proof H as Hxy. cbn [Shape.alternates] in H.
    apply andb_true_iff in H. destruct H as [_ H].
    destruct (IH H) as [[m Hm] Hk]. split.
    + exists (S m). cbn [length]. lia.
    + intros k. destruct (Nat.le_gt_cases (length (x :: y :: l)) (2 * k)) as [L|L].
      * rewrite last_n_short; assumption.
      * specialize (Hk k). unfold last_n in *. cbn [length] in *.
        replace (S (S (length l)) - 2 * k) with (S (S (length l - 2 * k)))
          by lia.
        exact Hk.
Qed.

Lemma record_exchange_split (h : list Message) (m r : string) :
  record_exchange h m r = (last_n 8 h ++ [user_turn m; assistant_turn r])%list.
Proof.
  unfold record_exchange, last_n.
  rewrite length_app, skipn_app. cbn [length].
  replace (length h + 2 - 10) with (length h - 8) by lia.
  replace (length h - 8 - length h) with 0 by lia. reflexivity.
Qed.

(** X24.  The chat endpoint records an exchange whole and last: the session's
    history becomes the last eight turns of what it was, then the user's
    message, then the answer; the other sessions are left as they were. *)
Theorem chat_records_exchange :
  forall (conversations : Conversations) (session_id message response : string),
    get_history (serve conversations (Chat session_id message response))
                session_id
    = (last_n 8 (get_history conversations session_id)
       ++ [user_turn message; assistant_turn response])%list
    /\ forall other, other <> session_id ->
                     serve conversations (Chat session_id message response) other
                     = conversations other.
Proof.
  intros conversations session_id message response. split.
  - unfold serve, set_history. unfold get_history at 1.
    rewrite String.eqb_refl. apply record_exchange_split.
  - intros other H. unfold serve, set_history.
    apply String.eqb_neq in H. now rewrite H.
Qed.

Lemma record_exchange_invariant (h : list Message) (m r : string) :
  Shape.alternates h = true ->
  length (record_exchange h m r) <= 10
  /\ Shape.alternates (record_exchange h m r) = true.
Proof.
  intros H. rewrite record_exchange_split. split.
  - rewrite length_app, (proj2 (last_n_suffix 8 h)). cbn [length]. lia.
  - apply alternates_app; [|reflexivity].
    apply (proj2 (alternates_last_n h H) 4).
Qed.

(** X25.  Whatever requests were served, one after the other, every session's
    history holds at most ten turns, and they are whole exchanges: a user
    turn, then an assistant turn, and so on. *)
Theorem stored_histories_are_recent_exchanges :
  forall (requests : list request) (session_id : string),
    length (get_history (serve_all requests) session_id) <= 10
    /\ Shape.alternates (get_history (serve_all requests) session_id) = true.
Proof.
  intros requests. unfold serve_all.
  assert (G : forall (conversations : Conversations),
             (forall sid, length (get_history conversations sid) <= 10
                          /\ Shape.alternates (get_history conversations sid)
                             = true) ->
             forall sid,
               length (get_history (fold_left serve requests conversations) sid)
               <= 10
               /\ Shape.alternates
                    (get_history (fold_left serve requests conversations) sid)
                  = true).
  { induction requests as [|r rs IH]; intros c Hc; cbn [fold_left];
      [exact Hc|].
    apply IH. intros sid.
    destruct r as [s m t | s m t | s]; unfold serve, get_history, set_history;
      destruct (String.eqb sid s);
      try apply record_exchange_invariant; try apply (Hc s); try apply (Hc sid);
      split; [cbn; lia | reflexivity]. }
  apply G. intros sid. unfold get_history, no_conversations.
  split; [cbn; lia | reflexivity].
Qed.

Lemma accumulate_from (words : list string) (accumulated_text : string) :
  fold_left (fun accumulated_text word => accumulated_text ++ word ++ " ")
            words accumulated_text
  = accumulated_text
    ++ fold_right (fun word rest => word ++ " " ++ rest) EmptyString words.
Proof.
  revert accumulated_text.
  induction words as [|w ws IH]; intros acc; cbn [fold_left fold_right].
  - induction acc as [|c acc IHa]; cbn [append]; [reflexivity | now rewrite <- IHa].
  - rewrite IH, !append_assoc. reflexivity.
Qed.

Lemma words_spaced (response_text : string) :
  fold_right (fun word rest => word ++ " " ++ rest) EmptyString
             (split_on " " response_text)
  = response_text ++ " ".
Proof.
  induction response_text as [|c s IH]; cbn [split_on]; [reflexivity|].
  destruct (Ascii.eqb c " ") eqn:E.
  - apply Ascii.eqb_eq in E. subst c. cbn [fold_right append] in *.
    now rewrite IH.
  - destruct (split_on " " s) as [|w ws]; cbn [fold_right append] in *.
    + destruct s; discriminate IH.
    + now rewrite <- IH.
Qed.

Lemma rstrip_trailing_space (s : string) : rstrip (s ++ " ") = rstrip s.
Proof.
  induction s as [|c s IH]; [reflexivity|].
  cbn [append rstrip]. now rewrite IH.
Qed.

Lemma strip_trailing_space (s : string) : strip (s ++ " ") = strip s.
Proof.
  unfold strip. induction s as [|c s IH]; [reflexivity|].
  cbn [append lstrip]. destruct (is_space c); [exact IH|].
  apply (rstrip_trailing_space (String c s)).
Qed.

(** X26.  The words the streaming endpoint sends, put together, are the
    response followed by one space; the turn it stores holds the response
    without its surrounding white space, so that it stores what the plain
    endpoint stores for the stripped response. *)
Theorem stream_stores_stripped_response :
  forall (conversations : Conversations) (session_id message response : string),
    accumulate response = response ++ " "
    /\ serve conversations (ChatStream session_id message response)
       = serve conversations (Chat session_id message (strip response)).
Proof.
  intros conversations session_id message response.
  assert (E : accumulate response = response ++ " ").
  { unfold accumulate. rewrite accumulate_from. cbn [append].
    apply words_spaced. }
  split; [exact E|]. unfold serve. rewrite E, strip_trailing_space.
  reflexivity.
Qed.

(** X27.  The follow-up questions are always exactly three, whatever the
    answer they follow. *)
Theorem followup_questions_are_three :
  forall (user_query : string) (result : ChatResult),
    length (generate_followup_questions user_query result) = 3.
Proof.
  intros user_query result. unfold generate_followup_questions.
  destruct (String.eqb (res_category result) "PRODUCT_SEARCH");
    destruct (res_parts result); cbn [length Nat.eqb negb andb];
    try reflexivity;
    destruct (String.eqb (res_category result) "COMPATIBILITY_CHECK");
    try (destruct (truthy (res_part_number result)); reflexivity);
    destruct (String.eqb (res_category result) "INSTALLATION_HELP");
    try reflexivity;
    destruct (String.eqb (res_category result) "TROUBLESHOOTING");
    try reflexivity;
    destruct (res_suggested_parts result); reflexivity.
Qed.

End Sessions.

(** ** Letter case, and the handlers when the completion service fails *)

Section LetterCase.
Import Compatibility.

(** X10.  The verdict does not depend on the letter case of the model
    number, but the part number is looked up as it is written: in a
    catalog whose part numbers are in capitals, a part number with a small
    letter is reported as PART_NOT_FOUND. *)
Theorem verdict_and_letter_case :
  forall (db : list Part) (pn mn mn' : string),
    (upper mn = upper mn' ->
     compatible (check_compatibility db pn mn)
     = compatible (check_compatibility db pn mn')
     /\ error (check_compatibility db pn mn)
        = error (check_compatibility db pn mn'))
    /\ ((forall p, In p db -> upper (part_number p) = part_number p) ->
        upper pn <> pn ->
        error (check_compatibility db pn mn) = Some "PART_NOT_FOUND").
Proof.
  intros db pn mn mn'. unfold check_compatibility. split.
  - intros H. destruct (find_part db pn) as [p|]; [|split; reflexivity].
    cbv zeta. rewrite H.
    destruct (existsb (String.eqb (upper mn')) (map upper (compatible_models p)));
      split; reflexivity.
  - intros Hup Hpn. destruct (find_part db pn) as [p|] eqn:E; [|reflexivity].
    apply find_part_found in E. destruct E as [Hin Heq].
    specialize (Hup p Hin). rewrite Heq in Hup. contradiction.
Qed.

Example verdict_and_letter_case_sample :
  compatible (check_compatibility Samples.catalog "PS11752778" "wdt780saem1")
  = Some true
  /\ error (check_compatibility Samples.catalog "ps11752778" "WDT780SAEM1")
     = Some "PART_NOT_FOUND".
Proof.
  split; vm_compute; reflexivity.
Qed.

Lemma product_search_raises_on_completion_failure_witness :
  ProductSearch.is_meta_query "water filter" = false
  /\ ProductSearch.handle_query (fun _ _ => Raise RequestException)
                                Samples.every_part Samples.catalog (fun l => l)
                                "water filter" None []
     = Raise RequestException.
Proof.
  split; [vm_compute; reflexivity|].
  apply (product_search_raises_on_completion_failure
           Samples.every_part Samples.catalog (fun l => l)
           "water filter" None RequestException);
    [vm_compute; reflexivity | vm_compute; discriminate].
Defined.

Lemma installation_falls_back_to_template_witness :
  exists instructions,
    Installation.get_installation_instructions Samples.catalog "PS11752778"
    = Some instructions
    /\ Installation.handle_query (fun _ _ => Raise RequestException) None
                                 Samples.catalog "Help me fit this part"
                                 (Some "PS11752778") []
       = Ok (Installation.fallback_guide instructions "PS11752778").
Proof.
  eexists. split; [vm_compute; reflexivity|].
  apply (installation_falls_back_to_template
           None Samples.catalog "Help me fit this part" "PS11752778" []);
    [discriminate | vm_compute; reflexivity | vm_compute; reflexivity
     | vm_compute; discriminate].
Defined.

End LetterCase.

(** ** The troubleshooting handler and parts without recorded symptoms *)

Section TroubleshootingFailures.
Import Troubleshooting.

Lemma forallb_fails {A : Type} (f : A -> bool) (l : list A) (x : A) :
  In x l -> f x = false -> forallb f l = false.
Proof.
  intros Hin Hx. destruct (forallb f l) eqn:E; [|reflexivity].
  rewrite forallb_forall in E. rewrite (E x Hin) in Hx. discriminate.
Qed.

(** X28.  The prompt of the troubleshooting handler joins the recorded
    symptoms of the first three candidate parts: when one of them has none
    recorded, the handler raises a TypeError, before the completion
    service is asked and whatever it would answer. *)
Theorem troubleshooting_raises_on_unrecorded_symptoms :
  forall (chat_with_system : Client) (vector_store : VectorStore)
         (db : list Part) (user_query : string)
         (conversation_history : list Message) (d : PartDict),
    In d (firstn 3
            (diagnose_problem vector_store db user_query
               (ctx_appliance_type
                  (extract_context_from_history user_query
                                                conversation_history)))) ->
    d_common_symptoms d = None ->
    handle_query chat_with_system vector_store db user_query
                 conversation_history
    = Raise TypeError.
Proof.
  intros chat_with_system vector_store db user_query conversation_history d
         Hin Hnone.
  unfold handle_query, generate_response.
  destruct (diagnose_problem _ _ _ _) as [|p ps]; [contradiction|].
  rewrite (forallb_fails symptoms_recorded _ d Hin);
    [reflexivity | unfold symptoms_recorded; now rewrite Hnone].
Qed.

Lemma troubleshooting_raises_on_unrecorded_symptoms_witness :
  d_common_symptoms (to_dict (Samples.numbered_part 2 "PS2")) = None
  /\ handle_query (Samples.echo_client "Replace the ice maker.")
                  Samples.every_part Samples.catalog
                  "my ice maker is not working" []
     = Raise TypeError.
Proof.
  split; [reflexivity|].
  apply (troubleshooting_raises_on_unrecorded_symptoms
           (Samples.echo_client "Replace the ice maker.")
           Samples.every_part Samples.catalog
           "my ice maker is not working" []
           (to_dict (Samples.numbered_part 2 "PS2")));
    [vm_compute; tauto | reflexivity].
Defined.

(** With the symptoms recorded, the handler returns the answer of the
    completion service and the candidate. *)
Example troubleshooting_answers :
  handle_query (Samples.echo_client "Replace the ice maker.")
               (fun _ _ _ => ["PS11752778"]) Samples.catalog
               "my ice maker is not working" []
  = Ok {| response := "Replace the ice maker.";
          suggested_parts := [to_dict Samples.ice_maker];
          agent := "troubleshooting" |}.
Proof.
  vm_compute. reflexivity.
Qed.

End TroubleshootingFailures.
